(** * Docker task and debug-configuration resolution (vscode-docker)

    A shallow embedding of
      - src/tasks/TaskHelper.ts
      - src/tasks/DockerBuildTaskProvider.ts, src/tasks/DockerRunTaskProvider.ts
      - src/debugging/DockerDebugConfigurationProvider.ts
    followed by the properties established about them.

    Conventions.  An optional property [p?: T] of a TypeScript interface is a
    field of type [option T], [None] standing for [undefined].  Strings are
    [string]; an object used as a string-keyed dictionary is an association
    list in insertion order, the order in which JavaScript enumerates it.
    [async] functions are run to completion: an [await] is sequencing. *)

From stdpp Require Import base option list strings pretty.
From Stdlib Require Import Ascii NArith Lia.

Local Open Scope string_scope.
Local Open Scope list_scope.

(** ** JavaScript values *)

(** Truthiness of a [string | undefined]: [undefined] and the empty string
    are falsy. *)
Definition truthy (v : option string) : bool :=
  match v with
  | Some s => negb (String.eqb s "")
  | None => false
  end.

(** The string behind a truthy [string | undefined]. *)
Definition truthyValue (v : option string) : option string :=
  match v with
  | Some s => if String.eqb s "" then None else Some s
  | None => None
  end.

(** Truthiness of a [boolean | undefined]. *)
Definition truthyBool (v : option bool) : bool :=
  match v with
  | Some b => b
  | None => false
  end.

(** [a || b] where [a : string | undefined] and [b : string]. *)
Definition orElse (a : option string) (b : string) : string :=
  match a with
  | Some s => if String.eqb s "" then b else s
  | None => b
  end.

(** [a && a.p] where [a] is an object or [undefined] and [p] an optional
    property: [undefined] as soon as [a] is. *)
Definition andThen {A B : Type} (a : option A) (p : A -> option B) : option B :=
  match a with
  | Some x => p x
  | None => None
  end.

(** [v === undefined] *)
Definition isUndefined {A : Type} (v : option A) : bool :=
  match v with
  | Some _ => false
  | None => true
  end.

(** [a === b] on [string | undefined]. *)
Definition strictEq (a b : option string) : bool :=
  match a, b with
  | Some x, Some y => String.eqb x y
  | None, None => true
  | _, _ => false
  end.

(** Outcome of a call that may [throw]. *)
Inductive Error := mkError (message : string).

Inductive Outcome (A : Type) :=
  | Ok (value : A)
  | Throw (e : Error).
Arguments Ok {A} value.
Arguments Throw {A} e.

(** Outcome of a recursive call run with a bound on the recursion depth:
    [OutOfFuel] says the bound was reached before the call returned. *)
Inductive Fuelled (A : Type) :=
  | Returned (value : A)
  | OutOfFuel.
Arguments Returned {A} value.
Arguments OutOfFuel {A}.

(** ** Data model *)

(** Modelled from the spec: the nested runtime-specific options bags
    (NetCoreTaskOptions, NodeTaskBuildOptions, NodeTaskRunOptions,
    NetCoreDebugOptions, NodeDebugOptions) are declared in files that are not
    part of the sources.  The code below only tests their presence and hands
    them to the platform helpers; their content is kept as uninterpreted
    key/value data. *)
Inductive OptionsBag := mkOptionsBag (properties : list (string * string)).

(** [WorkspaceFolder] of the host, identified by its name. *)
Definition WorkspaceFolder := string.

(** [DockerPlatform] of DockerPlatformHelper: ['netCore' | 'node']. *)
Inductive DockerPlatform := PlatformNetCore | PlatformNode.

(** [DebugPlatform = 'netCore' | 'node' | 'unknown']. *)
Inductive DebugPlatform := NetCore | Node | Unknown.

#[global] Instance DebugPlatform_eq_dec : EqDecision DebugPlatform.
Proof. solve_decision. Defined.

(** The image tags ['dev' | 'latest']. *)
Inductive ImageTag := dev | latest.

Module BuildOptions.
(** [interface DockerBuildOptions] *)
Record DockerBuildOptions := {
  args : option (list (string * string));
  context : option string;
  dockerfile : option string;
  labels : option (list (string * string));
  tag : option string;
  target : option string;
  pull : option bool
}.

(** The object literal [{}]. *)
Definition empty : DockerBuildOptions :=
  {| args := None; context := None; dockerfile := None; labels := None;
     tag := None; target := None; pull := None |}.
End BuildOptions.
Abbreviation DockerBuildOptions := BuildOptions.DockerBuildOptions.

Module RunOptions.
(** [interface DockerContainerExtraHost] *)
Record DockerContainerExtraHost := {
  hostname : string;
  ip : string
}.

Inductive Protocol := tcp | udp.

(** [interface DockerContainerPort]; port numbers are naturals. *)
Record DockerContainerPort := {
  hostPort : option N;
  containerPort : N;
  protocol : option Protocol
}.

Inductive Permissions := ro | rw.

(** [interface DockerContainerVolume] *)
Record DockerContainerVolume := {
  localPath : string;
  containerPath : string;
  permissions : option Permissions
}.

(** [command?: string | ShellQuotedString[]]; a token is kept as its
    value. *)
Inductive Command :=
  | CommandString (s : string)
  | CommandTokens (tokens : list string).

(** [interface DockerRunOptions] *)
Record DockerRunOptions := {
  command : option Command;
  containerName : option string;
  entrypoint : option string;
  env : option (list (string * string));
  envFiles : option (list string);
  extraHosts : option (list DockerContainerExtraHost);
  image : option string;
  labels : option (list (string * string));
  network : option string;
  networkAlias : option string;
  os : option string;
  ports : option (list DockerContainerPort);
  portsPublishAll : option bool;
  volumes : option (list DockerContainerVolume)
}.

(** The object literal [{}]. *)
Definition empty : DockerRunOptions :=
  {| command := None; containerName := None; entrypoint := None;
     env := None; envFiles := None; extraHosts := None; image := None;
     labels := None; network := None; networkAlias := None; os := None;
     ports := None; portsPublishAll := None; volumes := None |}.
End RunOptions.
Abbreviation DockerRunOptions := RunOptions.DockerRunOptions.

(** [dependsOn] of a task: an array of labels, or an object carrying a
    [type]. *)
Inductive DependsOn :=
  | DependsOnLabels (labels : list string)
  | DependsOnType (type : option string).

Module TaskDef.
(** A task definition as stored in the [tasks] configuration:
    [TaskDefinitionBase] together with the properties that
    [DockerBuildTaskDefinition] and [DockerRunTaskDefinition] add to it. *)
Record TaskDefinitionBase := {
  type : option string;
  label : option string;
  dependsOn : option DependsOn;
  dockerBuild : option DockerBuildOptions;
  dockerRun : option DockerRunOptions;
  netCore : option OptionsBag;
  node : option OptionsBag;
  platform : option DockerPlatform
}.
End TaskDef.
Abbreviation TaskDefinitionBase := TaskDef.TaskDefinitionBase.
Abbreviation DockerBuildTaskDefinition := TaskDef.TaskDefinitionBase (only parsing).
Abbreviation DockerRunTaskDefinition := TaskDef.TaskDefinitionBase (only parsing).

Module DebugConfig.
(** [interface DockerDebugConfiguration extends DebugConfiguration].
    [type] is inherited from the host's [DebugConfiguration];
    [preLaunchTask] is the property [recursiveFindTaskByType] reads from a
    debug configuration.  [platform] is declared without [?], but the
    configuration is read from launch.json, which may leave it out. *)
Record DockerDebugConfiguration := {
  type : option string;
  preLaunchTask : option string;
  netCore : option OptionsBag;
  node : option OptionsBag;
  platform : option DebugPlatform;
  removeContainerAfterDebug : option bool;
  _containerNameToKill : option string
}.
End DebugConfig.
Abbreviation DockerDebugConfiguration := DebugConfig.DockerDebugConfiguration.

(** A node of the graph walked by [recursiveFindTaskByType]:
    [DebugConfigurationBase | TaskDefinitionBase]. *)
Inductive ConfigNode :=
  | OfTask (task : TaskDefinitionBase)
  | OfDebugConfiguration (debugConfiguration : DockerDebugConfiguration).

(** [node.preLaunchTask], [node.type] and [node.dependsOn]: a property that
    the interface of the node does not declare reads as [undefined]. *)
Definition nodePreLaunchTask (node : ConfigNode) : option string :=
  match node with
  | OfTask _ => None
  | OfDebugConfiguration c => DebugConfig.preLaunchTask c
  end.

Definition nodeType (node : ConfigNode) : option string :=
  match node with
  | OfTask t => TaskDef.type t
  | OfDebugConfiguration c => DebugConfig.type c
  end.

Definition nodeDependsOn (node : ConfigNode) : option DependsOn :=
  match node with
  | OfTask t => TaskDef.dependsOn t
  | OfDebugConfiguration _ => None
  end.

(** Objects live in a store and are named by their location; the store of
    task definitions is a list indexed by location. *)
Abbreviation loc := nat.
Abbreviation Store := (list TaskDefinitionBase).

(** [ShellExecution] of the host: a command and its arguments, each token
    kept as its value. *)
Record ShellExecution := {
  shellCommand : option string;
  shellArgs : list string
}.

(** [Task] of the host, as built by [new Task(definition, scope, name,
    source, execution, problemMatchers)]; [definition] is a reference. *)
Record Task := {
  definition : loc;
  scope : option WorkspaceFolder;
  name : string;
  source : string;
  execution : option ShellExecution;
  problemMatchers : list string
}.
Abbreviation DockerBuildTask := Task (only parsing).
Abbreviation DockerRunTask := Task (only parsing).

(** ** src/tasks/TaskHelper.ts, image names *)

Module TaskHelper.

(** [interface DockerRunTaskContext], the data properties. *)
Record DockerRunTaskContext := {
  folder : WorkspaceFolder;
  runTaskResult : option string;
  buildDefinition : option DockerBuildTaskDefinition
}.

(** The character class [[a-z0-9]] under the [i] flag. *)
Definition isAlphanumeric (c : ascii) : bool :=
  let n := N_of_ascii c in
  ((48 <=? n) && (n <=? 57) || (65 <=? n) && (n <=? 90)
   || (97 <=? n) && (n <=? 122))%N.

(** [s.replace(/[^a-z0-9]/gi, '')] *)
Fixpoint stripNonAlphanumeric (s : string) : string :=
  match s with
  | EmptyString => EmptyString
  | String c rest =>
      if isAlphanumeric c then String c (stripNonAlphanumeric rest)
      else stripNonAlphanumeric rest
  end.

Definition toLowerCaseChar (c : ascii) : ascii :=
  let n := N_of_ascii c in
  if ((65 <=? n) && (n <=? 90))%N then ascii_of_N (n + 32) else c.

(** [s.toLowerCase()], on the letters that survive the replacement. *)
Fixpoint toLowerCase (s : string) : string :=
  match s with
  | EmptyString => EmptyString
  | String c rest => String (toLowerCaseChar c) (toLowerCase rest)
  end.

Definition tagName (t : ImageTag) : string :=
  match t with
  | dev => "dev"
  | latest => "latest"
  end.

Definition getValidImageName (nameHint : string) : string :=
  let result := toLowerCase (stripNonAlphanumeric nameHint) in
  if Nat.eqb (String.length result) 0 then "image" else result.

Definition getValidImageNameWithTag (nameHint : string) (tag : ImageTag) : string :=
  getValidImageName nameHint +:+ ":" +:+ tagName tag.

Definition getDefaultImageName (nameHint : string) (tag : option ImageTag) : string :=
  let tag := default latest tag in
  getValidImageNameWithTag nameHint tag.

Definition getDefaultContainerName (nameHint : string) (tag : option ImageTag) : string :=
  let tag := default dev tag in
  getValidImageName nameHint +:+ "-" +:+ tagName tag.

(** [a && a.b && a.b.c] is [undefined] as soon as one link is; the last
    link may still be the empty string, which [||] treats as falsy. *)
Definition inferImageName (runOptions : option DockerRunTaskDefinition)
    (context : option DockerRunTaskContext) (defaultNameHint : string)
    (defaultTag : option ImageTag) : string :=
  orElse (andThen (andThen runOptions TaskDef.dockerRun) RunOptions.image)
    (orElse (andThen (andThen (andThen context buildDefinition) TaskDef.dockerBuild)
               BuildOptions.tag)
       (getDefaultImageName defaultNameHint defaultTag)).

(** *** The [tasks] configuration *)

(** [allTasks.find(t => t.label === label)] *)
Definition findTaskByLabel (allTasks : list TaskDefinitionBase) (label : string)
    : option TaskDefinitionBase :=
  snd <$> list_find (fun t => TaskDef.label t = Some label) allTasks.

(** [allTasks.find(t => t.type === type)]; [type] is [undefined] when the
    [dependsOn] object has no [type]. *)
Definition findTaskByType (allTasks : list TaskDefinitionBase) (type : option string)
    : option TaskDefinitionBase :=
  snd <$> list_find (fun t => TaskDef.type t = type) allTasks.

(** The [for (const label of node.dependsOn)] loop, [recurse] being the
    recursive call on the task found for a label. *)
Fixpoint forEachLabel
    (recurse : option ConfigNode -> Fuelled (option ConfigNode))
    (allTasks : list TaskDefinitionBase) (labels : list string)
    : Fuelled (option ConfigNode) :=
  match labels with
  | [] => Returned None
  | label :: rest =>
      match recurse (OfTask <$> findTaskByLabel allTasks label) with
      | OutOfFuel => OutOfFuel
      | Returned (Some next) => Returned (Some next)
      | Returned None => forEachLabel recurse allTasks rest
      end
  end.

(** [recursiveFindTaskByType(allTasks, type, node)].  The source recurses
    without a bound; [fuel] bounds the depth of the recursion, every call
    taking one unit. *)
Fixpoint recursiveFindTaskByType (fuel : nat) (allTasks : list TaskDefinitionBase)
    (type : string) (node : option ConfigNode) : Fuelled (option ConfigNode) :=
  match fuel with
  | O => OutOfFuel
  | S fuel =>
      match node with
      | None => Returned None
      | Some node =>
          match truthyValue (nodePreLaunchTask node) with
          | Some preLaunchTask =>
              let next := findTaskByLabel allTasks preLaunchTask in
              recursiveFindTaskByType fuel allTasks type (OfTask <$> next)
          | None =>
              if strictEq (nodeType node) (Some type) then
                Returned (Some node)
              else
                match nodeDependsOn node with
                | Some (DependsOnLabels labels) =>
                    forEachLabel (recursiveFindTaskByType fuel allTasks type)
                      allTasks labels
                | Some (DependsOnType nextType) =>
                    let next := findTaskByType allTasks nextType in
                    recursiveFindTaskByType fuel allTasks type (OfTask <$> next)
                | None => Returned None
                end
          end
      end
  end.

(** [workspace.getConfiguration('tasks')]: the [tasks] it holds,
    [undefined] when no task is configured, and the number of times it was
    written to. *)
Record TasksConfiguration := {
  tasks : option (list TaskDefinitionBase);
  updates : nat
}.

(** [workspaceTasks && workspaceTasks.tasks || []] *)
Definition tasksOf (workspaceTasks : TasksConfiguration) : list TaskDefinitionBase :=
  default [] (tasks workspaceTasks).

(** [workspaceTasks.update('tasks', allTasks)] *)
Definition update (allTasks : list TaskDefinitionBase) (workspaceTasks : TasksConfiguration)
    : TasksConfiguration :=
  {| tasks := Some allTasks; updates := S (updates workspaceTasks) |}.

(** [addTask(newTask, overwrite)]: the result and the configuration it
    leaves. *)
Definition addTask (newTask : TaskDefinitionBase) (overwrite : option bool)
    (workspaceTasks : TasksConfiguration) : bool * TasksConfiguration :=
  let allTasks := tasksOf workspaceTasks in
  match list_find (fun t => TaskDef.label t = TaskDef.label newTask) allTasks with
  | Some (existingTaskIndex, _) =>
      if truthyBool overwrite then
        (true, update (<[existingTaskIndex := newTask]> allTasks) workspaceTasks)
      else
        (false, workspaceTasks)
  | None => (true, update (allTasks ++ [newTask]) workspaceTasks)
  end.

Definition getAssociatedDockerRunTask (fuel : nat) (workspaceTasks : TasksConfiguration)
    (debugConfiguration : DockerDebugConfiguration) : Fuelled (option ConfigNode) :=
  let allTasks := tasksOf workspaceTasks in
  recursiveFindTaskByType fuel allTasks "docker-run"
    (Some (OfDebugConfiguration debugConfiguration)).

Definition getAssociatedDockerBuildTask (fuel : nat) (workspaceTasks : TasksConfiguration)
    (runTask : DockerRunTask) : Fuelled (option ConfigNode) :=
  let allTasks := tasksOf workspaceTasks in
  let runTaskDefinition := findTaskByLabel allTasks (name runTask) in
  recursiveFindTaskByType fuel allTasks "docker-build" (OfTask <$> runTaskDefinition).

(** *** The build task of a Dockerfile *)

(** What [getOfficialBuildTaskForDockerfile] asks of its surroundings:
    [tasks.fetchTasks({ type })], [resolveFilePath] of
    src/utils/resolveFilePath.ts, which is not part of the sources,
    [String.prototype.toLowerCase], and [ext.ui.showQuickPick], which gives
    the label of the item picked or throws when the pick is cancelled. *)
Record Surroundings := {
  fetchTasks : string -> list Task;
  resolveFilePath : string -> WorkspaceFolder -> string;
  lowerCase : string -> string;
  showQuickPick : list string -> Outcome string
}.

(** [t.execution.args.some(a => ...)]: an argument is kept as its value;
    reading [args] off a missing [execution] throws. *)
Definition mentionsDockerfile (env : Surroundings) (dockerfile : string)
    (folder : WorkspaceFolder) (t : Task) : Outcome bool :=
  match execution t with
  | Some e =>
      Ok (existsb
            (fun a => String.eqb (lowerCase env (resolveFilePath env a folder))
                        (lowerCase env dockerfile))
            (shellArgs e))
  | None => Throw (mkError "TypeError")
  end.

(** [tasks.filter(p)] for a predicate that may throw. *)
Fixpoint filterTasks (p : Task -> Outcome bool) (ts : list Task) : Outcome (list Task) :=
  match ts with
  | [] => Ok []
  | t :: rest =>
      match p t with
      | Throw e => Throw e
      | Ok keep =>
          match filterTasks p rest with
          | Throw e => Throw e
          | Ok kept => Ok (if keep then t :: kept else kept)
          end
      end
  end.

(** [buildTasks.find(t => t.name === name)] *)
Definition findTaskByName (buildTasks : list Task) (n : string) : option Task :=
  List.find (fun t => String.eqb (name t) n) buildTasks.

Definition getOfficialBuildTaskForDockerfile (env : Surroundings) (dockerfile : string)
    (folder : WorkspaceFolder) : Outcome (option Task) :=
  let buildTasks := fetchTasks env "docker-build" in
  match filterTasks (mentionsDockerfile env dockerfile folder) buildTasks with
  | Throw e => Throw e
  | Ok buildTasks =>
      if Nat.eqb (length buildTasks) 1 then
        Ok (head buildTasks)
      else if Nat.ltb 1 (length buildTasks) then
        match findTaskByName buildTasks "docker-build: release" with
        | Some releaseTask => Ok (Some releaseTask)
        | None =>
            let items := name <$> buildTasks in
            match showQuickPick env items with
            | Throw e => Throw e
            | Ok item => Ok (findTaskByName buildTasks item)
            end
        end
      else
        Ok None
  end.

End TaskHelper.

(** ** src/utils/commandLineBuilder.ts *)

Module CommandLineBuilder.

(** Modelled from the spec: the fluent [CommandLineBuilder] of
    src/utils/commandLineBuilder.ts, which is not part of the sources.  A
    builder is the sequence of tokens appended so far; every call appends
    zero or more tokens after them.  A token is kept as its value: the
    quoting that [withQuotedArg] attaches concerns how a token is rendered,
    not which tokens there are. *)
Definition CommandLineBuilder := list string.

(** [create(executable, ...leading)] *)
Definition create (args : list string) : CommandLineBuilder := args.

(** [withFlagArg(flag, present)] emits [flag] iff [present] is true. *)
Definition withFlagArg (flag : string) (present : option bool)
    (b : CommandLineBuilder) : CommandLineBuilder :=
  b ++ (if truthyBool present then [flag] else []).

(** [withNamedArg(name, value)] emits [name value] iff [value] is
    non-empty. *)
Definition withNamedArg (name : string) (value : option string)
    (b : CommandLineBuilder) : CommandLineBuilder :=
  b ++ match truthyValue value with
       | Some v => [name; v]
       | None => []
       end.

(** [withKeyValueArgs(flag, mapping)] emits [flag k=v] once per entry, in
    insertion order. *)
Definition withKeyValueArgs (flag : string) (mapping : option (list (string * string)))
    (b : CommandLineBuilder) : CommandLineBuilder :=
  b ++ flat_map (fun kv => [flag; fst kv +:+ "=" +:+ snd kv]) (default [] mapping).

(** [withArrayArgs(flag, list, formatter)] emits [flag formatter(item)]
    once per entry, in list order. *)
Definition withArrayArgs {A : Type} (flag : string) (values : option (list A))
    (formatter : A -> string) (b : CommandLineBuilder) : CommandLineBuilder :=
  b ++ flat_map (fun value => [flag; formatter value]) (default [] values).

(** [withQuotedArg(value)] emits [value] iff it is non-empty. *)
Definition withQuotedArg (value : option string) (b : CommandLineBuilder)
    : CommandLineBuilder :=
  b ++ match truthyValue value with
       | Some v => [v]
       | None => []
       end.

(** [withArgs(value)] takes a single string, split on whitespace into
    tokens, or a list of tokens, appended as it is. *)
Definition withArgs (value : option RunOptions.Command) (b : CommandLineBuilder)
    : CommandLineBuilder :=
  b ++ match value with
       | Some (RunOptions.CommandString s) => String.words s
       | Some (RunOptions.CommandTokens tokens) => tokens
       | None => []
       end.

Definition buildShellQuotedStrings (b : CommandLineBuilder) : list string := b.

End CommandLineBuilder.

(** ** Task resolution: the store of definitions *)

(** A computation over the store of task definitions that returns or
    throws; the store is threaded through both ways out. *)
Definition Resolution (A : Type) : Type := Store -> Outcome A * Store.

Definition ret {A : Type} (a : A) : Resolution A := fun st => (Ok a, st).

Definition throw {A : Type} (message : string) : Resolution A :=
  fun st => (Throw (mkError message), st).

Definition bind {A B : Type} (c : Resolution A) (k : A -> Resolution B) : Resolution B :=
  fun st =>
    match c st with
    | (Ok a, st') => k a st'
    | (Throw e, st') => (Throw e, st')
    end.

Notation "'let!' x ':=' c 'in' k" := (bind c (fun x => k))
  (at level 10, x name, c at level 100, k at level 200).
Notation "'do!' c 'in' k" := (bind c (fun _ => k))
  (at level 10, c at level 100, k at level 200).

(** The outcome of a helper that does not touch the store. *)
Definition liftOutcome {A : Type} (o : Outcome A) : Resolution A := fun st => (o, st).

(** [obj.p] for the object at [l]. *)
Definition readProperty {A : Type} (l : loc) (p : TaskDefinitionBase -> A) : Resolution A :=
  fun st =>
    match st !! l with
    | Some d => (Ok (p d), st)
    | None => (Throw (mkError "TypeError"), st)
    end.

(** [obj.p = v] for the object at [l], [set] giving the object with [p]
    replaced. *)
Definition writeProperty (l : loc) (set : TaskDefinitionBase -> TaskDefinitionBase)
    : Resolution unit :=
  fun st =>
    match st !! l with
    | Some d => (Ok tt, <[l := set d]> st)
    | None => (Throw (mkError "TypeError"), st)
    end.

(** Modelled from the spec: [cloneObject] of src/utils/cloneObject.ts, which
    is not part of the sources (resolution clones before merging): a new
    object with the properties of the one at [l], sharing nothing with it. *)
Definition cloneObject (l : loc) : Resolution loc :=
  fun st =>
    match st !! l with
    | Some d => (Ok (length st), st ++ [d])
    | None => (Throw (mkError "TypeError"), st)
    end.

Definition setDockerBuild (v : option DockerBuildOptions) (d : TaskDefinitionBase)
    : TaskDefinitionBase :=
  {| TaskDef.type := TaskDef.type d; TaskDef.label := TaskDef.label d;
     TaskDef.dependsOn := TaskDef.dependsOn d; TaskDef.dockerBuild := v;
     TaskDef.dockerRun := TaskDef.dockerRun d; TaskDef.netCore := TaskDef.netCore d;
     TaskDef.node := TaskDef.node d; TaskDef.platform := TaskDef.platform d |}.

Definition setDockerRun (v : option DockerRunOptions) (d : TaskDefinitionBase)
    : TaskDefinitionBase :=
  {| TaskDef.type := TaskDef.type d; TaskDef.label := TaskDef.label d;
     TaskDef.dependsOn := TaskDef.dependsOn d; TaskDef.dockerBuild := TaskDef.dockerBuild d;
     TaskDef.dockerRun := v; TaskDef.netCore := TaskDef.netCore d;
     TaskDef.node := TaskDef.node d; TaskDef.platform := TaskDef.platform d |}.

(** [`${definition.platform}`] *)
Definition platformText (p : option DockerPlatform) : string :=
  match p with
  | Some PlatformNetCore => "netCore"
  | Some PlatformNode => "node"
  | None => "undefined"
  end.

(** The platform helpers ([NetCoreTaskHelperType], [NodeTaskHelperType]) are
    collaborators: they receive the workspace folder, the options object of
    the clone and the options bag of the platform, and return the resolved
    options or throw.  They hold no reference to a stored task definition. *)
Record PlatformTaskHelper := {
  resolveDockerBuildOptions :
    WorkspaceFolder -> DockerBuildOptions -> option OptionsBag -> Outcome DockerBuildOptions;
  resolveDockerRunOptions :
    WorkspaceFolder -> DockerRunOptions -> option OptionsBag -> Outcome DockerRunOptions
}.



(** [commandLine[0]] and [commandLine.slice(1)] *)
Definition shellExecutionOf (commandLine : list string) : ShellExecution :=
  {| shellCommand := head commandLine; shellArgs := tail commandLine |}.

(** ** src/tasks/DockerBuildTaskProvider.ts *)

Module DockerBuildTaskProvider.
Import CommandLineBuilder.

Record DockerBuildTaskProvider := {
  netCoreTaskHelper : PlatformTaskHelper;
  nodeTaskHelper : PlatformTaskHelper
}.

Definition resolveCommandLine (options : DockerBuildOptions) : list string :=
  let b := create ["docker"; "build"; "--rm"] in
  let b := withFlagArg "--pull" (BuildOptions.pull options) b in
  let b := withNamedArg "-f" (BuildOptions.dockerfile options) b in
  let b := withKeyValueArgs "--build-arg" (BuildOptions.args options) b in
  let b := withKeyValueArgs "--label" (BuildOptions.labels options) b in
  let b := withNamedArg "-t" (BuildOptions.tag options) b in
  let b := withNamedArg "--target" (BuildOptions.target options) b in
  let b := withQuotedArg (BuildOptions.context options) b in
  buildShellQuotedStrings b.

Definition resolveTaskInternal (this : DockerBuildTaskProvider) (task : DockerBuildTask)
    (taskPlatform : option DockerPlatform) : Resolution Task :=
  let! definition' := cloneObject (definition task) in
  let! dockerBuild := readProperty definition' TaskDef.dockerBuild in
  do! writeProperty definition'
        (setDockerBuild (Some (default BuildOptions.empty dockerBuild))) in
  do! match scope task with
      | Some folder =>
          let! dockerBuild := readProperty definition' TaskDef.dockerBuild in
          match taskPlatform with
          | Some PlatformNetCore =>
              let! netCore := readProperty definition' TaskDef.netCore in
              let! resolved := liftOutcome
                (resolveDockerBuildOptions (netCoreTaskHelper this) folder
                   (default BuildOptions.empty dockerBuild) netCore) in
              writeProperty definition' (setDockerBuild (Some resolved))
          | Some PlatformNode =>
              let! node := readProperty definition' TaskDef.node in
              let! resolved := liftOutcome
                (resolveDockerBuildOptions (nodeTaskHelper this) folder
                   (default BuildOptions.empty dockerBuild) node) in
              writeProperty definition' (setDockerBuild (Some resolved))
          | None =>
              let! platform := readProperty definition' TaskDef.platform in
              throw ("Unrecognized platform '" +:+ platformText platform +:+ "'.")
          end
      | None =>
          throw ("Unable to determine task scope to execute docker-build task '"
                 +:+ name task +:+ "'.")
      end in
  let! dockerBuild := readProperty definition' TaskDef.dockerBuild in
  let commandLine := resolveCommandLine (default BuildOptions.empty dockerBuild) in
  ret {| definition := definition task;
         scope := scope task;
         name := name task;
         source := source task;
         execution := Some (shellExecutionOf commandLine);
         problemMatchers := problemMatchers task |}.

(** [resolveTask(task, token)].  [getPlatform] of DockerPlatformHelper, which
    is not part of the sources, is a parameter: it reads the platform off
    the definition.  The telemetry wrapper runs the callback it is given. *)
Definition resolveTask (getPlatform : TaskDefinitionBase -> option DockerPlatform)
    (this : DockerBuildTaskProvider) (task : DockerBuildTask) : Resolution Task :=
  let! taskPlatform := readProperty (definition task) getPlatform in
  resolveTaskInternal this task taskPlatform.


End DockerBuildTaskProvider.

(** ** src/tasks/DockerRunTaskProvider.ts *)

Module DockerRunTaskProvider.
Import CommandLineBuilder.

Record DockerRunTaskProvider := {
  netCoreTaskHelper : PlatformTaskHelper;
  nodeTaskHelper : PlatformTaskHelper
}.

(** [volume => `${volume.localPath}:${volume.containerPath}${volume.permissions ? ':' + volume.permissions : ''}`] *)
Definition formatVolume (volume : RunOptions.DockerContainerVolume) : string :=
  RunOptions.localPath volume +:+ ":" +:+ RunOptions.containerPath volume +:+
  match RunOptions.permissions volume with
  | Some RunOptions.ro => ":ro"
  | Some RunOptions.rw => ":rw"
  | None => ""
  end.

(** [port => `${port.hostPort ? port.hostPort + ':' : ''}${port.containerPort}${port.protocol ? '/' + port.protocol : ''}`];
    the number 0 is falsy. *)
Definition formatPort (port : RunOptions.DockerContainerPort) : string :=
  match RunOptions.hostPort port with
  | Some hostPort => if (hostPort =? 0)%N then "" else pretty hostPort +:+ ":"
  | None => ""
  end +:+ pretty (RunOptions.containerPort port) +:+
  match RunOptions.protocol port with
  | Some RunOptions.tcp => "/tcp"
  | Some RunOptions.udp => "/udp"
  | None => ""
  end.

(** [extraHost => `${extraHost.hostname}:${extraHost.ip}`] *)
Definition formatExtraHost (extraHost : RunOptions.DockerContainerExtraHost) : string :=
  RunOptions.hostname extraHost +:+ ":" +:+ RunOptions.ip extraHost.

(** [runOptions.portsPublishAll || (runOptions.portsPublishAll === undefined
      && (runOptions.ports === undefined || runOptions.ports.length < 1))] *)
Definition publishAllPorts (runOptions : DockerRunOptions) : bool :=
  truthyBool (RunOptions.portsPublishAll runOptions)
  || (isUndefined (RunOptions.portsPublishAll runOptions)
      && match RunOptions.ports runOptions with
         | None => true
         | Some ports => (length ports <? 1)%nat
         end).

Definition resolveCommandLine (runOptions : DockerRunOptions) : list string :=
  let b := create ["docker"; "run"; "-dt"] in
  let b := withFlagArg "-P" (Some (publishAllPorts runOptions)) b in
  let b := withNamedArg "--name" (RunOptions.containerName runOptions) b in
  let b := withNamedArg "--network" (RunOptions.network runOptions) b in
  let b := withNamedArg "--network-alias" (RunOptions.networkAlias runOptions) b in
  let b := withKeyValueArgs "-e" (RunOptions.env runOptions) b in
  let b := withArrayArgs "--env-file" (RunOptions.envFiles runOptions) id b in
  let b := withKeyValueArgs "--label" (RunOptions.labels runOptions) b in
  let b := withArrayArgs "-v" (RunOptions.volumes runOptions) formatVolume b in
  let b := withArrayArgs "-p" (RunOptions.ports runOptions) formatPort b in
  let b := withArrayArgs "--add-host" (RunOptions.extraHosts runOptions) formatExtraHost b in
  let b := withNamedArg "--entrypoint" (RunOptions.entrypoint runOptions) b in
  let b := withQuotedArg (RunOptions.image runOptions) b in
  let b := withArgs (RunOptions.command runOptions) b in
  buildShellQuotedStrings b.

Definition resolveTaskInternal (this : DockerRunTaskProvider) (task : DockerRunTask)
    (taskPlatform : option DockerPlatform) : Resolution Task :=
  let! definition' := cloneObject (definition task) in
  let! dockerRun := readProperty definition' TaskDef.dockerRun in
  do! writeProperty definition'
        (setDockerRun (Some (default RunOptions.empty dockerRun))) in
  do! match scope task with
      | Some folder =>
          let! dockerRun := readProperty definition' TaskDef.dockerRun in
          match taskPlatform with
          | Some PlatformNetCore =>
              let! netCore := readProperty definition' TaskDef.netCore in
              let! resolved := liftOutcome
                (resolveDockerRunOptions (netCoreTaskHelper this) folder
                   (default RunOptions.empty dockerRun) netCore) in
              writeProperty definition' (setDockerRun (Some resolved))
          | Some PlatformNode =>
              let! node := readProperty definition' TaskDef.node in
              let! resolved := liftOutcome
                (resolveDockerRunOptions (nodeTaskHelper this) folder
                   (default RunOptions.empty dockerRun) node) in
              writeProperty definition' (setDockerRun (Some resolved))
          | None =>
              let! platform := readProperty definition' TaskDef.platform in
              throw ("Unrecognized platform '" +:+ platformText platform +:+ "'.")
          end
      | None =>
          throw ("Unable to determine task scope to execute docker-run task '"
                 +:+ name task +:+ "'.")
      end in
  let! dockerRun := readProperty definition' TaskDef.dockerRun in
  let commandLine := resolveCommandLine (default RunOptions.empty dockerRun) in
  ret {| definition := definition task;
         scope := scope task;
         name := name task;
         source := source task;
         execution := Some (shellExecutionOf commandLine);
         problemMatchers := problemMatchers task |}.

(** [resolveTask(task, token)], with [getPlatform] as a parameter. *)
Definition resolveTask (getPlatform : TaskDefinitionBase -> option DockerPlatform)
    (this : DockerRunTaskProvider) (task : DockerRunTask) : Resolution Task :=
  let! taskPlatform := readProperty (definition task) getPlatform in
  resolveTaskInternal this task taskPlatform.


End DockerRunTaskProvider.

(** ** src/debugging/DockerDebugConfigurationProvider.ts *)

Module DockerDebugConfigurationProvider.

(** [DockerClient.removeContainer(name, { force })] is a collaborator: the
    outcome of a call may depend on its arguments and on the calls made
    before it. *)
Record DockerClient := {
  removeContainer :
    option string -> bool -> list (option string * bool) -> Outcome unit
}.

(** [NetCoreDebugHelper] and [NodeDebugHelper] are collaborators:
    [resolveDebugConfiguration(folder, debugConfiguration, token)] returns
    the resolved configuration, [undefined] when debugging was cancelled,
    or throws. *)
Record DebugHelper := {
  helperResolveDebugConfiguration :
    option WorkspaceFolder -> DockerDebugConfiguration ->
    Outcome (option DockerDebugConfiguration)
}.

Record DockerDebugConfigurationProvider := {
  dockerClient : DockerClient;
  netCoreDebugHelper : DebugHelper;
  nodeDebugHelper : DebugHelper
}.

(** A listener of [debug.onDidTerminateDebugSession]: the [disposable]
    that registering it returned and the [debugConfiguration] its closure
    holds. *)
Record Listener := {
  disposable : nat;
  watched : DockerDebugConfiguration
}.

(** What the provider sees of the host: the listeners registered for the
    termination of debug sessions, the next disposable to hand out, and
    the calls made to [removeContainer], in order, as (name, force). *)
Record DebugHost := {
  listeners : list Listener;
  nextDisposable : nat;
  removals : list (option string * bool)
}.

(** [debug.onDidTerminateDebugSession(listener)] *)
Definition onDidTerminateDebugSession (debugConfiguration : DockerDebugConfiguration)
    (host : DebugHost) : DebugHost :=
  {| listeners := listeners host ++
       [{| disposable := nextDisposable host; watched := debugConfiguration |}];
     nextDisposable := S (nextDisposable host);
     removals := removals host |}.

(** [disposable.dispose()] *)
Definition dispose (d : nat) (host : DebugHost) : DebugHost :=
  {| listeners := filter (fun l => disposable l <> d) (listeners host);
     nextDisposable := nextDisposable host;
     removals := removals host |}.

(** The call [this.dockerClient.removeContainer(name, { force })]: it is
    recorded, and it returns or throws. *)
Definition callRemoveContainer (client : DockerClient) (name : option string)
    (force : bool) (host : DebugHost) : Outcome unit * DebugHost :=
  (removeContainer client name force (removals host),
   {| listeners := listeners host;
      nextDisposable := nextDisposable host;
      removals := removals host ++ [(name, force)] |}).

Definition setRemoveContainerAfterDebug (v : option bool)
    (c : DockerDebugConfiguration) : DockerDebugConfiguration :=
  {| DebugConfig.type := DebugConfig.type c;
     DebugConfig.preLaunchTask := DebugConfig.preLaunchTask c;
     DebugConfig.netCore := DebugConfig.netCore c;
     DebugConfig.node := DebugConfig.node c;
     DebugConfig.platform := DebugConfig.platform c;
     DebugConfig.removeContainerAfterDebug := v;
     DebugConfig._containerNameToKill := DebugConfig._containerNameToKill c |}.

(** The listener that [registerRemoveContainerAfterDebugging] registers,
    run on the termination of [session]; [debugConfiguration] and
    [disposable] are the variables of its closure.  The listener runs to
    completion before the next one starts. *)
Definition sessionTerminated (client : DockerClient)
    (debugConfiguration : DockerDebugConfiguration) (disposable : nat)
    (session : DockerDebugConfiguration) (host : DebugHost) : DebugHost :=
  if truthyBool (DebugConfig.removeContainerAfterDebug session)
     && truthy (DebugConfig._containerNameToKill session)
     && strictEq (DebugConfig._containerNameToKill session)
          (DebugConfig._containerNameToKill debugConfiguration)
  then
    match callRemoveContainer client
            (DebugConfig._containerNameToKill debugConfiguration) true host with
    | (Ok _, host) => dispose disposable host
    | (Throw _, host) => (* catch *) dispose disposable host
    end
  else
    host.

(** [registerRemoveContainerAfterDebugging(debugConfiguration)].  The
    assignment to [removeContainerAfterDebug] writes to the object the
    caller holds, so the configuration is returned as it is after the
    call. *)
Definition registerRemoveContainerAfterDebugging
    (debugConfiguration : option DockerDebugConfiguration) (host : DebugHost)
    : option DockerDebugConfiguration * DebugHost :=
  match debugConfiguration with
  | None => (None, host)
  | Some debugConfiguration =>
      if (isUndefined (DebugConfig.removeContainerAfterDebug debugConfiguration)
          || truthyBool (DebugConfig.removeContainerAfterDebug debugConfiguration))
         && truthy (DebugConfig._containerNameToKill debugConfiguration)
      then
        let debugConfiguration := setRemoveContainerAfterDebug (Some true) debugConfiguration in
        (Some debugConfiguration, onDidTerminateDebugSession debugConfiguration host)
      else
        (Some debugConfiguration, host)
  end.

Definition determineDebugPlatform (debugConfiguration : DockerDebugConfiguration)
    : DebugPlatform :=
  if bool_decide (DebugConfig.platform debugConfiguration = Some NetCore)
     || negb (isUndefined (DebugConfig.netCore debugConfiguration))
  then NetCore
  else if bool_decide (DebugConfig.platform debugConfiguration = Some Node)
          || negb (isUndefined (DebugConfig.node debugConfiguration))
  then Node
  else Unknown.

(** [`${debugConfiguration.platform}`] *)
Definition debugPlatformText (p : option DebugPlatform) : string :=
  match p with
  | Some NetCore => "netCore"
  | Some Node => "node"
  | Some Unknown => "unknown"
  | None => "undefined"
  end.

Definition resolveDebugConfigurationInternal (this : DockerDebugConfigurationProvider)
    (folder : option WorkspaceFolder) (debugConfiguration : DockerDebugConfiguration)
    (debugPlatform : DebugPlatform) (host : DebugHost)
    : Outcome (option DockerDebugConfiguration) * DebugHost :=
  let result :=
    match debugPlatform with
    | NetCore =>
        helperResolveDebugConfiguration (netCoreDebugHelper this) folder debugConfiguration
    | Node =>
        helperResolveDebugConfiguration (nodeDebugHelper this) folder debugConfiguration
    | Unknown =>
        Throw (mkError ("Unrecognized platform '" +:+
                        debugPlatformText (DebugConfig.platform debugConfiguration) +:+ "'."))
    end in
  match result with
  | Ok result =>
      let (result, host) := registerRemoveContainerAfterDebugging result host in
      (Ok result, host)
  | Throw e => (Throw e, host)
  end.

(** [resolveDebugConfiguration(folder, debugConfiguration, token)]; the
    telemetry wrapper runs the callback it is given. *)
Definition resolveDebugConfiguration (this : DockerDebugConfigurationProvider)
    (folder : option WorkspaceFolder) (debugConfiguration : DockerDebugConfiguration)
    (host : DebugHost) : Outcome (option DockerDebugConfiguration) * DebugHost :=
  let debugPlatform := determineDebugPlatform debugConfiguration in
  resolveDebugConfigurationInternal this folder debugConfiguration debugPlatform host.

(** The host ends a debug session: every listener registered at that time
    is called with the session, in the order of registration. *)
Definition terminateDebugSession (client : DockerClient)
    (session : DockerDebugConfiguration) (host : DebugHost) : DebugHost :=
  foldl (fun host l => sessionTerminated client (watched l) (disposable l) session host)
    host (listeners host).

End DockerDebugConfigurationProvider.

(** ** Vocabulary of the properties *)

(** The characters of a string. *)
Definition chars (s : string) : list ascii := String.list_ascii_of_string s.

(** The character class [[a-z0-9]]. *)
Definition isLowerAlphanumeric (c : ascii) : bool :=
  let n := N_of_ascii c in
  ((48 <=? n) && (n <=? 57) || (97 <=? n) && (n <=? 122))%N.

(** The run options carry a non-empty image. *)
Definition imageSet (runOptions : option DockerRunTaskDefinition) (x : string) : Prop :=
  exists d o, runOptions = Some d /\ TaskDef.dockerRun d = Some o /\
              RunOptions.image o = Some x /\ x <> "".

(** The build definition bound to the context carries a non-empty tag. *)
Definition buildTagSet (context : option TaskHelper.DockerRunTaskContext) (y : string) : Prop :=
  exists c d o, context = Some c /\ TaskHelper.buildDefinition c = Some d /\
                TaskDef.dockerBuild d = Some o /\ BuildOptions.tag o = Some y /\ y <> "".

(** The run options with [portsPublishAll] replaced. *)
Definition setPortsPublishAll (v : option bool) (o : DockerRunOptions) : DockerRunOptions :=
  {| RunOptions.command := RunOptions.command o;
     RunOptions.containerName := RunOptions.containerName o;
     RunOptions.entrypoint := RunOptions.entrypoint o;
     RunOptions.env := RunOptions.env o;
     RunOptions.envFiles := RunOptions.envFiles o;
     RunOptions.extraHosts := RunOptions.extraHosts o;
     RunOptions.image := RunOptions.image o;
     RunOptions.labels := RunOptions.labels o;
     RunOptions.network := RunOptions.network o;
     RunOptions.networkAlias := RunOptions.networkAlias o;
     RunOptions.os := RunOptions.os o;
     RunOptions.ports := RunOptions.ports o;
     RunOptions.portsPublishAll := v;
     RunOptions.volumes := RunOptions.volumes o |}.

(** The tasks that a call of [recursiveFindTaskByType] on [node] hands to
    its recursive calls. *)
Definition successors (allTasks : list TaskDefinitionBase) (type : string)
    (node : ConfigNode) : list TaskDefinitionBase :=
  match truthyValue (nodePreLaunchTask node) with
  | Some preLaunchTask => option_list (TaskHelper.findTaskByLabel allTasks preLaunchTask)
  | None =>
      if strictEq (nodeType node) (Some type) then []
      else
        match nodeDependsOn node with
        | Some (DependsOnLabels labels) => omap (TaskHelper.findTaskByLabel allTasks) labels
        | Some (DependsOnType nextType) =>
            option_list (TaskHelper.findTaskByType allTasks nextType)
        | None => []
        end
  end.

(** The store [st] still holds every object of [st0], unchanged. *)
Definition keeps (st0 st : Store) : Prop :=
  forall l d, st0 !! l = Some d -> st !! l = Some d.

(** Run from a store that keeps the objects of [st0], the computation [c]
    leaves a store that keeps them, and what it returns satisfies [Q]. *)
Definition framed {A : Type} (st0 : Store) (c : Resolution A) (Q : A -> Prop) : Prop :=
  forall st, keeps st0 st ->
    keeps st0 (snd (c st)) /\ (forall a, fst (c st) = Ok a -> Q a).

(** The resolution [c] of [task] leaves the task definitions alone: every
    definition of the store it starts from, the one of [task] among them, is
    in the store it leaves, unchanged, and a task it returns carries the
    definition of [task]. *)
Definition leavesDefinitions (task : Task) (c : Resolution Task) : Prop :=
  forall st : Store,
    (forall l d, st !! l = Some d -> snd (c st) !! l = Some d)
    /\ (forall d, st !! definition task = Some d ->
          snd (c st) !! definition task = Some d)
    /\ (forall resolved, fst (c st) = Ok resolved ->
          definition resolved = definition task).

(** [getPlatform] for the samples: the [platform] property. *)
Definition samplePlatform (d : TaskDefinitionBase) : option DockerPlatform :=
  TaskDef.platform d.

(** Sample configurations. *)
Definition sampleTask (type label : string) (dependsOn : option DependsOn)
    : TaskDefinitionBase :=
  {| TaskDef.type := Some type; TaskDef.label := Some label;
     TaskDef.dependsOn := dependsOn; TaskDef.dockerBuild := None;
     TaskDef.dockerRun := None; TaskDef.netCore := None; TaskDef.node := None;
     TaskDef.platform := None |}.

(** Two tasks whose [dependsOn] name each other. *)
Definition cyclicA : TaskDefinitionBase :=
  sampleTask "shell" "A" (Some (DependsOnLabels ["B"])).
Definition cyclicB : TaskDefinitionBase :=
  sampleTask "shell" "B" (Some (DependsOnLabels ["A"])).

(** A build task, a run task that depends on it, and a debug configuration
    that launches the run task. *)
Definition buildA : TaskDefinitionBase := sampleTask "docker-build" "A" None.
Definition runB : TaskDefinitionBase :=
  sampleTask "docker-run" "B" (Some (DependsOnLabels ["A"])).
Definition launchB : DockerDebugConfiguration :=
  {| DebugConfig.type := Some "docker-launch"; DebugConfig.preLaunchTask := Some "B";
     DebugConfig.netCore := None; DebugConfig.node := None;
     DebugConfig.platform := None;
     DebugConfig.removeContainerAfterDebug := None;
     DebugConfig._containerNameToKill := None |}.
Definition configured (allTasks : list TaskDefinitionBase) : TaskHelper.TasksConfiguration :=
  {| TaskHelper.tasks := Some allTasks; TaskHelper.updates := 0 |}.
Definition taskNamed (name : string) : Task :=
  {| definition := 0; scope := None; name := name; source := "Workspace";
     execution := None; problemMatchers := [] |}.

(** Platform helpers that tag the image, and the providers built on them. *)
Definition sampleTaskHelper : PlatformTaskHelper :=
  {| resolveDockerBuildOptions := fun _ o _ =>
       Ok {| BuildOptions.args := BuildOptions.args o;
             BuildOptions.context := Some ".";
             BuildOptions.dockerfile := BuildOptions.dockerfile o;
             BuildOptions.labels := BuildOptions.labels o;
             BuildOptions.tag := Some "app:latest";
             BuildOptions.target := BuildOptions.target o;
             BuildOptions.pull := BuildOptions.pull o |};
     resolveDockerRunOptions := fun _ o _ =>
       Ok (setPortsPublishAll (Some true) o) |}.

Definition sampleBuildProvider : DockerBuildTaskProvider.DockerBuildTaskProvider :=
  {| DockerBuildTaskProvider.netCoreTaskHelper := sampleTaskHelper;
     DockerBuildTaskProvider.nodeTaskHelper := sampleTaskHelper |}.

Definition sampleRunProvider : DockerRunTaskProvider.DockerRunTaskProvider :=
  {| DockerRunTaskProvider.netCoreTaskHelper := sampleTaskHelper;
     DockerRunTaskProvider.nodeTaskHelper := sampleTaskHelper |}.

(** A task of the folder ["app"] whose definition is the object at 0. *)
Definition sampleResolvable : Task :=
  {| definition := 0; scope := Some "app"; name := "build"; source := "Workspace";
     execution := None; problemMatchers := [] |}.

Definition sampleRunTask (image : option string) : TaskDefinitionBase :=
  {| TaskDef.type := Some "docker-run"; TaskDef.label := Some "run";
     TaskDef.dependsOn := None; TaskDef.dockerBuild := None;
     TaskDef.dockerRun := Some (
       {| RunOptions.command := None; RunOptions.containerName := None;
          RunOptions.entrypoint := None; RunOptions.env := None;
          RunOptions.envFiles := None; RunOptions.extraHosts := None;
          RunOptions.image := image; RunOptions.labels := None;
          RunOptions.network := None; RunOptions.networkAlias := None;
          RunOptions.os := None; RunOptions.ports := None;
          RunOptions.portsPublishAll := None; RunOptions.volumes := None |});
     TaskDef.netCore := None; TaskDef.node := None; TaskDef.platform := None |}.

Definition sampleBuildTask (tag : option string) : TaskDefinitionBase :=
  {| TaskDef.type := Some "docker-build"; TaskDef.label := Some "build";
     TaskDef.dependsOn := None;
     TaskDef.dockerBuild := Some (
       {| BuildOptions.args := None; BuildOptions.context := None;
          BuildOptions.dockerfile := None; BuildOptions.labels := None;
          BuildOptions.tag := tag; BuildOptions.target := None;
          BuildOptions.pull := None |});
     TaskDef.dockerRun := None; TaskDef.netCore := None; TaskDef.node := None;
     TaskDef.platform := None |}.

(** The task definition [d] tagged with the platform node. *)
Definition samplePlatformTask (d : TaskDefinitionBase) : TaskDefinitionBase :=
  {| TaskDef.type := TaskDef.type d; TaskDef.label := TaskDef.label d;
     TaskDef.dependsOn := TaskDef.dependsOn d; TaskDef.dockerBuild := TaskDef.dockerBuild d;
     TaskDef.dockerRun := TaskDef.dockerRun d; TaskDef.netCore := TaskDef.netCore d;
     TaskDef.node := TaskDef.node d; TaskDef.platform := Some PlatformNode |}.

Definition sampleContext (tag : option string) : TaskHelper.DockerRunTaskContext :=
  {| TaskHelper.folder := "workspace"; TaskHelper.runTaskResult := None;
     TaskHelper.buildDefinition := Some (sampleBuildTask tag) |}.

Definition sampleDebugConfiguration (platform : option DebugPlatform)
    (netCore node : option OptionsBag) : DockerDebugConfiguration :=
  {| DebugConfig.type := Some "docker-launch"; DebugConfig.preLaunchTask := None;
     DebugConfig.netCore := netCore; DebugConfig.node := node;
     DebugConfig.platform := platform;
     DebugConfig.removeContainerAfterDebug := None;
     DebugConfig._containerNameToKill := None |}.

(** The helper that resolves a debug configuration of a platform. *)
Definition helperFor (this : DockerDebugConfigurationProvider.DockerDebugConfigurationProvider)
    (p : DebugPlatform) : option DockerDebugConfigurationProvider.DebugHelper :=
  match p with
  | NetCore => Some (DockerDebugConfigurationProvider.netCoreDebugHelper this)
  | Node => Some (DockerDebugConfigurationProvider.nodeDebugHelper this)
  | Unknown => None
  end.

(** The terminated [session] is the one a listener watching [watching] is
    there for: it asks for the removal of its container and carries the
    watched container name. *)
Definition ownSession (session watching : DockerDebugConfiguration) : Prop :=
  DebugConfig.removeContainerAfterDebug session = Some true
  /\ DebugConfig._containerNameToKill session = DebugConfig._containerNameToKill watching
  /\ truthy (DebugConfig._containerNameToKill watching) = true.

#[global] Instance ownSession_dec (session watching : DockerDebugConfiguration) :
  Decision (ownSession session watching).
Proof. unfold ownSession. apply _. Defined.

(** The disposables of the registered listeners are distinct and were all
    handed out already. *)
Definition wellFormed (host : DockerDebugConfigurationProvider.DebugHost) : Prop :=
  NoDup (DockerDebugConfigurationProvider.disposable
           <$> DockerDebugConfigurationProvider.listeners host)
  /\ Forall (fun l => DockerDebugConfigurationProvider.disposable l
                      < DockerDebugConfigurationProvider.nextDisposable host)
       (DockerDebugConfigurationProvider.listeners host).

(** A host with no listener, and collaborators for the samples. *)
Definition emptyHost : DockerDebugConfigurationProvider.DebugHost :=
  {| DockerDebugConfigurationProvider.listeners := [];
     DockerDebugConfigurationProvider.nextDisposable := 0;
     DockerDebugConfigurationProvider.removals := [] |}.

Definition failingClient : DockerDebugConfigurationProvider.DockerClient :=
  {| DockerDebugConfigurationProvider.removeContainer :=
       fun _ _ _ => Throw (mkError "No such container") |}.

(** The configuration of a session: it carries a container name and
    [removeContainerAfterDebug]. *)
Definition sampleSession (name : string) (remove : option bool) : DockerDebugConfiguration :=
  {| DebugConfig.type := Some "docker-launch"; DebugConfig.preLaunchTask := None;
     DebugConfig.netCore := None; DebugConfig.node := None;
     DebugConfig.platform := None;
     DebugConfig.removeContainerAfterDebug := remove;
     DebugConfig._containerNameToKill := Some name |}.

(** A helper that resolves every configuration to one carrying the
    container name [name] and no [removeContainerAfterDebug]. *)
Definition sampleHelper (name : string) : DockerDebugConfigurationProvider.DebugHelper :=
  {| DockerDebugConfigurationProvider.helperResolveDebugConfiguration :=
       fun _ _ => Ok (Some (sampleSession name None)) |}.

Definition sampleProvider : DockerDebugConfigurationProvider.DockerDebugConfigurationProvider :=
  {| DockerDebugConfigurationProvider.dockerClient := failingClient;
     DockerDebugConfigurationProvider.netCoreDebugHelper := sampleHelper "c1";
     DockerDebugConfigurationProvider.nodeDebugHelper := sampleHelper "c2" |}.

(** A task whose [dependsOn] names its own label, and one whose
    [dependsOn] refers to its own type. *)
Definition selfLabelled : TaskDefinitionBase :=
  sampleTask "shell" "S" (Some (DependsOnLabels ["S"; "A"])).
Definition selfTyped : TaskDefinitionBase :=
  sampleTask "shell" "T" (Some (DependsOnType (Some "shell"))).

(** The labels of the configured tasks, in order. *)
Definition labelsOf (workspaceTasks : TaskHelper.TasksConfiguration)
    : list (option string) :=
  TaskDef.label <$> TaskHelper.tasksOf workspaceTasks.

(** The task has the Dockerfile among the arguments of its execution. *)
Definition hasDockerfileArgument (env : TaskHelper.Surroundings) (dockerfile : string)
    (folder : WorkspaceFolder) (t : Task) : bool :=
  match execution t with
  | Some e =>
      existsb
        (fun a => String.eqb
                    (TaskHelper.lowerCase env (TaskHelper.resolveFilePath env a folder))
                    (TaskHelper.lowerCase env dockerfile))
        (shellArgs e)
  | None => false
  end.


Definition builds (n dockerfile : string) : Task :=
  {| definition := 0; scope := Some "app"; name := n; source := "Workspace";
     execution := Some {| shellCommand := Some "docker";
                          shellArgs := ["build"; "--rm"; "-f"; dockerfile; "."] |};
     problemMatchers := [] |}.

Definition sampleSurroundings : TaskHelper.Surroundings :=
  {| TaskHelper.fetchTasks := fun _ =>
       [builds "docker-build: debug" "Dockerfile";
        builds "docker-build: other" "other/Dockerfile";
        builds "docker-build: release" "Dockerfile"];
     TaskHelper.resolveFilePath := fun path _ => path;
     TaskHelper.lowerCase := fun path => path;
     TaskHelper.showQuickPick := fun _ => Throw (mkError "Cancelled") |}.

(** The build options with [pull] replaced. *)
Definition setPull (v : option bool) (o : DockerBuildOptions) : DockerBuildOptions :=
  {| BuildOptions.args := BuildOptions.args o;
     BuildOptions.context := BuildOptions.context o;
     BuildOptions.dockerfile := BuildOptions.dockerfile o;
     BuildOptions.labels := BuildOptions.labels o;
     BuildOptions.tag := BuildOptions.tag o;
     BuildOptions.target := BuildOptions.target o;
     BuildOptions.pull := v |}.

(** The task [task] with the execution of the command line [commandLine]. *)
Definition executing (task : Task) (commandLine : list string) : Task :=
  {| definition := definition task;
     scope := scope task;
     name := name task;
     source := source task;
     execution := Some (shellExecutionOf commandLine);
     problemMatchers := problemMatchers task |}.

(** A task without scope. *)
Definition sampleUnscoped : Task :=
  {| definition := 0; scope := None; name := "build"; source := "Workspace";
     execution := None; problemMatchers := [] |}.

(** The run options with [image] and [command] replaced. *)
Definition setImageAndCommand (i : option string) (c : option RunOptions.Command)
    (o : DockerRunOptions) : DockerRunOptions :=
  {| RunOptions.command := c;
     RunOptions.containerName := RunOptions.containerName o;
     RunOptions.entrypoint := RunOptions.entrypoint o;
     RunOptions.env := RunOptions.env o;
     RunOptions.envFiles := RunOptions.envFiles o;
     RunOptions.extraHosts := RunOptions.extraHosts o;
     RunOptions.image := i;
     RunOptions.labels := RunOptions.labels o;
     RunOptions.network := RunOptions.network o;
     RunOptions.networkAlias := RunOptions.networkAlias o;
     RunOptions.os := RunOptions.os o;
     RunOptions.ports := RunOptions.ports o;
     RunOptions.portsPublishAll := RunOptions.portsPublishAll o;
     RunOptions.volumes := RunOptions.volumes o |}.

(** The listener watches the container [n]. *)
Definition watches (n : option string) (l : DockerDebugConfigurationProvider.Listener)
    : Prop :=
  DebugConfig._containerNameToKill (DockerDebugConfigurationProvider.watched l) = n.

#[global] Instance watches_dec (n : option string)
    (l : DockerDebugConfigurationProvider.Listener) : Decision (watches n l).
Proof. unfold watches. apply _. Defined.

(** A provider whose helpers report that debugging was cancelled. *)
Definition cancellingHelper : DockerDebugConfigurationProvider.DebugHelper :=
  {| DockerDebugConfigurationProvider.helperResolveDebugConfiguration :=
       fun _ _ => Ok None |}.

Definition cancellingProvider
    : DockerDebugConfigurationProvider.DockerDebugConfigurationProvider :=
  {| DockerDebugConfigurationProvider.dockerClient := failingClient;
     DockerDebugConfigurationProvider.netCoreDebugHelper := cancellingHelper;
     DockerDebugConfigurationProvider.nodeDebugHelper := cancellingHelper |}.

(** A host on which two sessions are being debugged, one for the container
    c1 and one for the container c2. *)
Definition twoSessions : DockerDebugConfigurationProvider.DebugHost :=
  DockerDebugConfigurationProvider.onDidTerminateDebugSession
    (sampleSession "c2" (Some true))
    (DockerDebugConfigurationProvider.onDidTerminateDebugSession
       (sampleSession "c1" (Some true)) emptyHost).

(** A character of a container name: [[a-z0-9-]]. *)
Definition isNameChar (c : ascii) : bool :=
  isLowerAlphanumeric c || Ascii.eqb c "-".

(** * Properties *)

(** ** Image names *)

Lemma toLowerCaseChar_lower (c : ascii) :
  TaskHelper.isAlphanumeric c = true ->
  isLowerAlphanumeric (TaskHelper.toLowerCaseChar c) = true.
Proof.
  destruct c as [[] [] [] [] [] [] [] []]; vm_compute; congruence.
Qed.

Lemma chars_sanitized (s : string) :
  chars (TaskHelper.toLowerCase (TaskHelper.stripNonAlphanumeric s)) =
  map TaskHelper.toLowerCaseChar (List.filter TaskHelper.isAlphanumeric (chars s)).
Proof.
  unfold chars. induction s as [|c s IH]; [reflexivity|].
  cbn [TaskHelper.stripNonAlphanumeric String.list_ascii_of_string List.filter].
  destruct (TaskHelper.isAlphanumeric c); [|exact IH].
  cbn [TaskHelper.toLowerCase String.list_ascii_of_string map]. f_equal. exact IH.
Qed.

Lemma sanitized_lower (s : string) :
  Forall (fun c => isLowerAlphanumeric c = true)
    (chars (TaskHelper.toLowerCase (TaskHelper.stripNonAlphanumeric s))).
Proof.
  rewrite chars_sanitized. apply Forall_forall. intros c Hc.
  apply list_elem_of_In, in_map_iff in Hc. destruct Hc as (c0 & <- & Hc0).
  apply filter_In in Hc0. apply toLowerCaseChar_lower, Hc0.
Qed.

Lemma toLowerCase_length (s : string) :
  String.length (TaskHelper.toLowerCase s) = String.length s.
Proof. induction s; cbn; congruence. Qed.

Lemma getValidImageName_cases (nameHint : string) :
  (TaskHelper.stripNonAlphanumeric nameHint <> "" ->
   TaskHelper.getValidImageName nameHint =
   TaskHelper.toLowerCase (TaskHelper.stripNonAlphanumeric nameHint)) /\
  (TaskHelper.stripNonAlphanumeric nameHint = "" ->
   TaskHelper.getValidImageName nameHint = "image").
Proof.
  unfold TaskHelper.getValidImageName. rewrite toLowerCase_length.
  destruct (TaskHelper.stripNonAlphanumeric nameHint) as [|c r]; cbn.
  - split; [congruence|reflexivity].
  - split; [reflexivity|discriminate].
Qed.

(** C9.  [getDefaultImageName] keeps the alphanumeric characters of the name
    hint, in order and lowercased, and appends [":"] and the tag, ["latest"]
    when none is given.  The name before the colon consists of lowercase
    alphanumerics only; it is ["image"] when nothing of the hint is left.
    ["My App!"] gives ["myapp:latest"]. *)
Theorem getDefaultImageName_sanitized :
  forall (nameHint : string) (tag : option ImageTag),
    chars (TaskHelper.toLowerCase (TaskHelper.stripNonAlphanumeric nameHint)) =
      map TaskHelper.toLowerCaseChar (List.filter TaskHelper.isAlphanumeric (chars nameHint))
    /\ (exists name,
          TaskHelper.getDefaultImageName nameHint tag =
            name +:+ ":" +:+ TaskHelper.tagName (default latest tag)
          /\ Forall (fun c => isLowerAlphanumeric c = true) (chars name)
          /\ (TaskHelper.stripNonAlphanumeric nameHint <> "" ->
              name = TaskHelper.toLowerCase (TaskHelper.stripNonAlphanumeric nameHint))
          /\ (TaskHelper.stripNonAlphanumeric nameHint = "" -> name = "image"))
    /\ (TaskHelper.stripNonAlphanumeric nameHint = "" ->
        TaskHelper.getDefaultImageName nameHint None = "image:latest")
    /\ TaskHelper.getDefaultImageName "My App!" None = "myapp:latest".
Proof.
  intros nameHint tag. destruct (getValidImageName_cases nameHint) as [Hne He].
  split; [apply chars_sanitized|]. split; [|split; [|reflexivity]].
  - exists (TaskHelper.getValidImageName nameHint).
    split; [reflexivity|]. split; [|split; assumption].
    destruct (String.eq_dec (TaskHelper.stripNonAlphanumeric nameHint) "") as [E|E].
    + rewrite (He E). repeat constructor.
    + rewrite (Hne E). apply sanitized_lower.
  - intros E. unfold TaskHelper.getDefaultImageName, TaskHelper.getValidImageNameWithTag.
    rewrite (He E). reflexivity.
Qed.

Lemma getDefaultImageName_sanitized_witness :
  TaskHelper.stripNonAlphanumeric "?!" = "" /\
  TaskHelper.getDefaultImageName "?!" None = "image:latest".
Proof.
  split; [reflexivity|].
  apply (getDefaultImageName_sanitized "?!" None). reflexivity.
Defined.

(** C5.  [inferImageName] returns the image of the run options when they
    carry a non-empty one; otherwise the tag of the bound build definition
    when it carries a non-empty one; otherwise the default image name
    computed from the name hint. *)
Theorem inferImageName_precedence :
  forall (runOptions : option DockerRunTaskDefinition)
         (context : option TaskHelper.DockerRunTaskContext)
         (defaultNameHint : string) (defaultTag : option ImageTag),
    (forall x, imageSet runOptions x ->
       TaskHelper.inferImageName runOptions context defaultNameHint defaultTag = x)
    /\ (forall y, (forall x, ~ imageSet runOptions x) -> buildTagSet context y ->
       TaskHelper.inferImageName runOptions context defaultNameHint defaultTag = y)
    /\ ((forall x, ~ imageSet runOptions x) -> (forall y, ~ buildTagSet context y) ->
       TaskHelper.inferImageName runOptions context defaultNameHint defaultTag =
       TaskHelper.getDefaultImageName defaultNameHint defaultTag).
Proof.
  intros runOptions context hint defaultTag.
  assert (Himg : forall x, imageSet runOptions x ->
            andThen (andThen runOptions TaskDef.dockerRun) RunOptions.image = Some x /\ x <> "").
  { intros x (d & o & -> & Hd & Ho & Hx). cbn. rewrite Hd. cbn. auto. }
  assert (Htag : forall y, buildTagSet context y ->
            andThen (andThen (andThen context TaskHelper.buildDefinition) TaskDef.dockerBuild)
              BuildOptions.tag = Some y /\ y <> "").
  { intros y (c & d & o & -> & Hc & Hd & Ho & Hy). cbn. rewrite Hc. cbn. rewrite Hd. cbn. auto. }
  assert (Hnoimg : (forall x, ~ imageSet runOptions x) -> forall b,
            orElse (andThen (andThen runOptions TaskDef.dockerRun) RunOptions.image) b = b).
  { intros Hno b. destruct runOptions as [d|]; [|reflexivity]. cbn.
    destruct (TaskDef.dockerRun d) as [o|] eqn:Hd; [|reflexivity]. cbn.
    destruct (RunOptions.image o) as [x|] eqn:Ho; [|reflexivity]. cbn.
    destruct (String.eqb_spec x ""); [reflexivity|].
    exfalso. apply (Hno x). exists d, o. auto. }
  assert (Hnotag : (forall y, ~ buildTagSet context y) -> forall b,
            orElse (andThen (andThen (andThen context TaskHelper.buildDefinition)
                      TaskDef.dockerBuild) BuildOptions.tag) b = b).
  { intros Hno b. destruct context as [c|]; [|reflexivity]. cbn.
    destruct (TaskHelper.buildDefinition c) as [d|] eqn:Hc; [|reflexivity]. cbn.
    destruct (TaskDef.dockerBuild d) as [o|] eqn:Hd; [|reflexivity]. cbn.
    destruct (BuildOptions.tag o) as [y|] eqn:Ho; [|reflexivity]. cbn.
    destruct (String.eqb_spec y ""); [reflexivity|].
    exfalso. apply (Hno y). exists c, d, o. auto. }
  assert (Hor : forall v b x, v = Some x /\ x <> "" -> orElse v b = x).
  { intros v b x [-> Hx]. cbn. destruct (String.eqb_spec x ""); congruence. }
  unfold TaskHelper.inferImageName. repeat split.
  - intros x Hx. apply Hor, Himg, Hx.
  - intros y Hno Hy. rewrite (Hnoimg Hno). apply Hor, Htag, Hy.
  - intros Hno1 Hno2. rewrite (Hnoimg Hno1). apply (Hnotag Hno2).
Qed.


Lemma inferImageName_precedence_witness :
  TaskHelper.inferImageName (Some (sampleRunTask (Some "x")))
    (Some (sampleContext (Some "y"))) "z" None = "x"
  /\ TaskHelper.inferImageName (Some (sampleRunTask None))
    (Some (sampleContext (Some "y"))) "z" None = "y"
  /\ TaskHelper.inferImageName (Some (sampleRunTask None))
    (Some (sampleContext None)) "z" None = TaskHelper.getDefaultImageName "z" None.
Proof.
  assert (Hno : forall x, ~ imageSet (Some (sampleRunTask None)) x).
  { intros x (d & o & Hd & Ho & Hi & _). injection Hd as <-.
    cbn in Ho. injection Ho as <-. discriminate Hi. }
  split; [|split].
  - apply (proj1 (inferImageName_precedence (Some (sampleRunTask (Some "x")))
                    (Some (sampleContext (Some "y"))) "z" None)).
    unfold imageSet. do 2 eexists. repeat split; [reflexivity..|discriminate].
  - apply (proj1 (proj2 (inferImageName_precedence (Some (sampleRunTask None))
                           (Some (sampleContext (Some "y"))) "z" None))); [exact Hno|].
    unfold buildTagSet. do 3 eexists. repeat split; [reflexivity..|discriminate].
  - apply (proj2 (proj2 (inferImageName_precedence (Some (sampleRunTask None))
                           (Some (sampleContext None)) "z" None))); [exact Hno|].
    intros y (c & d & o & Hc & Hd & Ho & Ht & _). injection Hc as <-.
    cbn in Hd. injection Hd as <-. cbn in Ho. injection Ho as <-. discriminate Ht.
Defined.

(** ** The [tasks] configuration *)

(** C8.  [addTask] is an upsert keyed by the label.  When a task with the
    label of [newTask] is stored, a truthy [overwrite] writes the list with
    the first such task replaced and the result is [true], and any other
    [overwrite] gives [false] and leaves the configuration as it was,
    nothing being written; when no task has that label, the list with
    [newTask] appended is written and the result is [true]. *)
Theorem addTask_upsert :
  forall (newTask : TaskDefinitionBase) (overwrite : option bool)
         (workspaceTasks : TaskHelper.TasksConfiguration),
    let allTasks := TaskHelper.tasksOf workspaceTasks in
    ((exists t, t ∈ allTasks /\ TaskDef.label t = TaskDef.label newTask) ->
       (overwrite = Some true ->
          exists i t,
            allTasks !! i = Some t /\ TaskDef.label t = TaskDef.label newTask
            /\ (forall j t', allTasks !! j = Some t' -> j < i ->
                  TaskDef.label t' <> TaskDef.label newTask)
            /\ TaskHelper.addTask newTask overwrite workspaceTasks =
                 (true, {| TaskHelper.tasks := Some (<[i := newTask]> allTasks);
                           TaskHelper.updates := S (TaskHelper.updates workspaceTasks) |}))
       /\ (overwrite <> Some true ->
            TaskHelper.addTask newTask overwrite workspaceTasks = (false, workspaceTasks)))
    /\ ((forall t, t ∈ allTasks -> TaskDef.label t <> TaskDef.label newTask) ->
          TaskHelper.addTask newTask overwrite workspaceTasks =
            (true, {| TaskHelper.tasks := Some (allTasks ++ [newTask]);
                      TaskHelper.updates := S (TaskHelper.updates workspaceTasks) |})).
Proof.
  intros newTask overwrite workspaceTasks allTasks. unfold TaskHelper.addTask.
  fold allTasks. split.
  - intros (t & Ht & Hl).
    destruct (list_find_elem_of
                (fun t => TaskDef.label t = TaskDef.label newTask) allTasks t Ht Hl)
      as [[i t0] Hfind].
    rewrite Hfind. apply list_find_Some in Hfind. destruct Hfind as (Hi & Ht0 & Hmin).
    split.
    + intros ->. exists i, t0. cbn. auto.
    + intros Hov. destruct overwrite as [[]|]; cbn; congruence.
  - intros Hnone.
    assert (Hfind : list_find (fun t => TaskDef.label t = TaskDef.label newTask) allTasks
                    = None).
    { apply list_find_None, Forall_forall. exact Hnone. }
    rewrite Hfind. reflexivity.
Qed.

Lemma addTask_upsert_witness :
  TaskHelper.addTask (sampleTask "docker-run" "A" None) None (configured [buildA; runB]) =
    (false, configured [buildA; runB])
  /\ TaskHelper.addTask (sampleTask "docker-run" "C" None) None (configured [buildA; runB]) =
    (true, {| TaskHelper.tasks := Some [buildA; runB; sampleTask "docker-run" "C" None];
              TaskHelper.updates := 1 |}).
Proof.
  split.
  - apply (proj1 (addTask_upsert (sampleTask "docker-run" "A" None) None
                    (configured [buildA; runB]))).
    + exists buildA. split; [left|reflexivity].
    + discriminate.
  - apply (proj2 (addTask_upsert (sampleTask "docker-run" "C" None) None
                    (configured [buildA; runB]))).
    intros t Ht. apply elem_of_cons in Ht. destruct Ht as [->|Ht]; [discriminate|].
    apply list_elem_of_singleton in Ht. subst t. discriminate.
Defined.

(** ** Platform of a debug configuration *)

(** C2, as the code has it.  [determineDebugPlatform] is a total function.
    It answers netCore when the platform tag is netCore or the netCore
    options bag is present: the tag netCore wins over a node options bag,
    and a netCore options bag wins over the tag node.  It answers node when
    neither holds and the tag is node or the node options bag is present,
    and unknown otherwise, in particular when there is neither a tag nor an
    options bag. *)
Theorem determineDebugPlatform_classifies :
  forall (c : DockerDebugConfiguration),
    let answer := DockerDebugConfigurationProvider.determineDebugPlatform c in
    (answer = NetCore <->
       DebugConfig.platform c = Some NetCore \/ DebugConfig.netCore c <> None)
    /\ (answer = Node <->
         (DebugConfig.platform c <> Some NetCore /\ DebugConfig.netCore c = None)
         /\ (DebugConfig.platform c = Some Node \/ DebugConfig.node c <> None))
    /\ (answer = Unknown <->
         DebugConfig.platform c <> Some NetCore /\ DebugConfig.netCore c = None
         /\ DebugConfig.platform c <> Some Node /\ DebugConfig.node c = None).
Proof.
  intros c answer. subst answer.
  unfold DockerDebugConfigurationProvider.determineDebugPlatform.
  destruct (DebugConfig.platform c) as [[]|], (DebugConfig.netCore c),
    (DebugConfig.node c); vm_compute; intuition congruence.
Qed.

Lemma determineDebugPlatform_classifies_witness :
  DockerDebugConfigurationProvider.determineDebugPlatform
    (sampleDebugConfiguration (Some NetCore) None (Some (mkOptionsBag []))) = NetCore.
Proof.
  apply (determineDebugPlatform_classifies
           (sampleDebugConfiguration (Some NetCore) None (Some (mkOptionsBag [])))).
  left. reflexivity.
Defined.

(** C2, as stated, fails: with the tag node and the netCore options bag
    present the answer is netCore, not the tag. *)
Lemma determineDebugPlatform_tag_node_bag_netCore :
  let c := sampleDebugConfiguration (Some Node) (Some (mkOptionsBag [])) None in
  DebugConfig.platform c = Some Node
  /\ DebugConfig.netCore c <> None
  /\ DockerDebugConfigurationProvider.determineDebugPlatform c = NetCore
  /\ DockerDebugConfigurationProvider.determineDebugPlatform c <> Node.
Proof. cbn. repeat split; discriminate. Qed.

(** ** The command line of docker-run *)

Lemma publishAllPorts_spec (o : DockerRunOptions) (v : option bool) :
  DockerRunTaskProvider.publishAllPorts (setPortsPublishAll v o) = true <->
  v = Some true \/ (v = None /\ (RunOptions.ports o = None \/ RunOptions.ports o = Some [])).
Proof.
  unfold DockerRunTaskProvider.publishAllPorts. cbn.
  destruct v as [[]|], (RunOptions.ports o) as [[|p ps]|]; cbn; intuition congruence.
Qed.

(** C4, as the code has it.  The command line of docker-run is
    [docker run -dt], then [-P] or nothing, then arguments that do not
    depend on [portsPublishAll]; [-P] is there iff [portsPublishAll] is true,
    or [portsPublishAll] is absent and [ports] is absent or empty. *)
Theorem resolveCommandLine_publishAllPorts :
  forall (o : DockerRunOptions),
  exists rest : list string,
    forall v : option bool,
      DockerRunTaskProvider.resolveCommandLine (setPortsPublishAll v o) =
        ["docker"; "run"; "-dt"]
        ++ (if DockerRunTaskProvider.publishAllPorts (setPortsPublishAll v o)
            then ["-P"] else [])
        ++ rest
      /\ (DockerRunTaskProvider.publishAllPorts (setPortsPublishAll v o) = true <->
          v = Some true
          \/ (v = None /\ (RunOptions.ports o = None \/ RunOptions.ports o = Some []))).
Proof.
  intros o. eexists. intros v. split; [|apply publishAllPorts_spec].
  unfold DockerRunTaskProvider.resolveCommandLine,
    CommandLineBuilder.buildShellQuotedStrings, CommandLineBuilder.withArgs,
    CommandLineBuilder.withQuotedArg, CommandLineBuilder.withNamedArg,
    CommandLineBuilder.withArrayArgs, CommandLineBuilder.withKeyValueArgs,
    CommandLineBuilder.withFlagArg, CommandLineBuilder.create.
  cbn [setPortsPublishAll RunOptions.command RunOptions.containerName
       RunOptions.entrypoint RunOptions.env RunOptions.envFiles RunOptions.extraHosts
       RunOptions.image RunOptions.labels RunOptions.network RunOptions.networkAlias
       RunOptions.ports RunOptions.volumes truthyBool].
  rewrite <- !app_assoc. reflexivity.
Qed.

Lemma resolveCommandLine_publishAllPorts_witness :
  exists rest : list string,
    DockerRunTaskProvider.resolveCommandLine
      (setPortsPublishAll (Some false) RunOptions.empty) =
    ["docker"; "run"; "-dt"] ++ [] ++ rest.
Proof.
  destruct (resolveCommandLine_publishAllPorts RunOptions.empty) as [rest Hrest].
  exists rest. apply (Hrest (Some false)).
Defined.

(** C4, as stated, fails: with no run option set, [portsPublishAll] is
    absent and the command line carries [-P]. *)
Lemma resolveCommandLine_publishes_by_default :
  RunOptions.portsPublishAll RunOptions.empty = None
  /\ DockerRunTaskProvider.resolveCommandLine RunOptions.empty =
     ["docker"; "run"; "-dt"; "-P"].
Proof. split; reflexivity. Qed.

(** ** Removal of the container after debugging *)

Import DockerDebugConfigurationProvider.

Lemma strictEq_spec (a b : option string) : strictEq a b = true <-> a = b.
Proof.
  destruct a as [x|], b as [y|]; cbn; try (split; congruence).
  destruct (String.eqb_spec x y); split; congruence.
Qed.

(** Facts about lists. *)

Lemma filter_ext_elem {A : Type} (P Q : A -> Prop) `{forall x, Decision (P x)}
    `{forall x, Decision (Q x)} (l : list A) :
  (forall x, x ∈ l -> (P x <-> Q x)) -> filter P l = filter Q l.
Proof.
  induction l as [|a l IH]; intros Hext; [reflexivity|].
  rewrite !filter_cons.
  rewrite IH by (intros x Hx; apply Hext; right; exact Hx).
  destruct (decide (P a)) as [HP|HP], (decide (Q a)) as [HQ|HQ]; try reflexivity.
  - exfalso. apply HQ, (Hext a); [left|exact HP].
  - exfalso. apply HP, (Hext a); [left|exact HQ].
Qed.

Lemma filter_all {A : Type} (P : A -> Prop) `{forall x, Decision (P x)} (l : list A) :
  (forall x, x ∈ l -> P x) -> filter P l = l.
Proof.
  induction l as [|a l IH]; intros Hall; [reflexivity|].
  rewrite filter_cons_True by (apply Hall; left).
  rewrite IH by (intros x Hx; apply Hall; right; exact Hx). reflexivity.
Qed.

Lemma NoDup_fmap_elem_inj {A B : Type} (f : A -> B) (l : list A) (x y : A) :
  NoDup (f <$> l) -> x ∈ l -> y ∈ l -> f x = f y -> x = y.
Proof.
  induction l as [|a l IH]; intros Hnd Hx Hy Hf; [inversion Hx|].
  rewrite fmap_cons in Hnd. apply NoDup_cons in Hnd. destruct Hnd as [Ha Hnd].
  apply elem_of_cons in Hx, Hy. destruct Hx as [->|Hx], Hy as [->|Hy].
  - reflexivity.
  - exfalso. apply Ha. rewrite Hf. apply list_elem_of_fmap_2, Hy.
  - exfalso. apply Ha. rewrite <- Hf. apply list_elem_of_fmap_2, Hx.
  - apply IH; assumption.
Qed.

Lemma NoDup_fmap_filter {A B : Type} (f : A -> B) (P : A -> Prop)
    `{forall x, Decision (P x)} (l : list A) :
  NoDup (f <$> l) -> NoDup (f <$> filter P l).
Proof.
  induction l as [|a l IH]; intros Hnd; [exact Hnd|].
  rewrite fmap_cons in Hnd. apply NoDup_cons in Hnd. destruct Hnd as [Ha Hnd].
  rewrite filter_cons. destruct (decide (P a)); [|apply IH, Hnd].
  rewrite fmap_cons. apply NoDup_cons. split; [|apply IH, Hnd].
  intros Hin. apply Ha. apply list_elem_of_fmap in Hin. destruct Hin as (x & -> & Hx).
  apply list_elem_of_filter in Hx. apply list_elem_of_fmap_2, Hx.
Qed.

Section Listeners.

(** A docker client, whose calls succeed or fail, and a terminated
    session. *)
Variable client : DockerClient.
Variable session : DockerDebugConfiguration.

(** What the listener does, by cases on [ownSession]; the outcome of
    [removeContainer] plays no part. *)
Lemma sessionTerminated_cases (w : DockerDebugConfiguration) (d : nat) (host : DebugHost) :
  sessionTerminated client w d session host =
  if decide (ownSession session w) then
    {| listeners := filter (fun l => disposable l <> d) (listeners host);
       nextDisposable := nextDisposable host;
       removals := removals host ++ [(DebugConfig._containerNameToKill w, true)] |}
  else host.
Proof.
  unfold sessionTerminated, callRemoveContainer, dispose.
  destruct (decide (ownSession session w)) as [(Hr & Hn & Ht)|Hno].
  - rewrite Hr, Hn, Ht. cbn [truthyBool andb].
    rewrite (proj2 (strictEq_spec _ _) eq_refl).
    destruct (removeContainer client _ _ _); reflexivity.
  - destruct (truthyBool (DebugConfig.removeContainerAfterDebug session)) eqn:Hr;
      [|reflexivity].
    destruct (truthy (DebugConfig._containerNameToKill session)) eqn:Ht; [|reflexivity].
    destruct (strictEq _ _) eqn:He; [|reflexivity].
    exfalso. apply Hno. unfold ownSession. apply strictEq_spec in He.
    destruct (DebugConfig.removeContainerAfterDebug session) as [[]|]; try discriminate.
    repeat split; congruence.
Qed.

(** The listeners called for a terminated session, one after the other:
    those that are there for the session are disposed of, each after one
    forced removal; the others stay. *)
Lemma foldl_sessionTerminated (called : list Listener) :
  forall host,
    let host' :=
      foldl (fun host l => sessionTerminated client (watched l) (disposable l) session host)
        host called in
    listeners host' =
      filter (fun x => disposable x ∉
                disposable <$> filter (fun l => ownSession session (watched l)) called)
        (listeners host)
    /\ removals host' =
        removals host ++
        ((fun l => (DebugConfig._containerNameToKill (watched l), true))
           <$> filter (fun l => ownSession session (watched l)) called)
    /\ nextDisposable host' = nextDisposable host.
Proof.
  induction called as [|l called IH]; intros host; cbn zeta.
  - cbn. rewrite app_nil_r. split; [|split; reflexivity].
    symmetry. apply filter_all. intros x _ Hx. inversion Hx.
  - cbn [foldl]. rewrite sessionTerminated_cases, filter_cons.
    destruct (decide (ownSession session (watched l))) as [Hown|Hown].
    + destruct (IH {| listeners := filter (fun l0 => disposable l0 <> disposable l)
                                     (listeners host);
                      nextDisposable := nextDisposable host;
                      removals := removals host ++
                        [(DebugConfig._containerNameToKill (watched l), true)] |})
        as (Hl & Hr & Hn).
      rewrite Hl, Hr, Hn. cbn [listeners removals nextDisposable].
      split; [|split; [|reflexivity]].
      * rewrite list_filter_filter. apply list_filter_iff. intros x.
        rewrite fmap_cons, not_elem_of_cons. tauto.
      * rewrite fmap_cons, <- app_assoc. reflexivity.
    + apply IH.
Qed.

(** The termination of a session, seen from a well-formed host. *)
Lemma terminateDebugSession_spec (host : DebugHost) :
  wellFormed host ->
  listeners (terminateDebugSession client session host) =
    filter (fun l => ~ ownSession session (watched l)) (listeners host)
  /\ removals (terminateDebugSession client session host) =
      removals host ++
      ((fun l => (DebugConfig._containerNameToKill (watched l), true))
         <$> filter (fun l => ownSession session (watched l)) (listeners host))
  /\ wellFormed (terminateDebugSession client session host).
Proof.
  intros [Hnd Hlt]. unfold terminateDebugSession.
  destruct (foldl_sessionTerminated (listeners host) host) as (Hl & Hr & Hn).
  assert (Hfilter :
    filter (fun x => disposable x ∉
              disposable <$> filter (fun l => ownSession session (watched l)) (listeners host))
      (listeners host) =
    filter (fun l => ~ ownSession session (watched l)) (listeners host)).
  { apply filter_ext_elem. intros x Hx. split.
    - intros Hnotin Hown. apply Hnotin. apply list_elem_of_fmap_2.
      apply list_elem_of_filter. split; assumption.
    - intros Hnown Hin. apply Hnown. apply list_elem_of_fmap in Hin.
      destruct Hin as (y & Hxy & Hy). apply list_elem_of_filter in Hy.
      destruct Hy as [Hown Hy].
      rewrite (NoDup_fmap_elem_inj disposable (listeners host) x y Hnd Hx Hy Hxy).
      exact Hown. }
  rewrite Hfilter in Hl. split; [exact Hl|]. split; [exact Hr|].
  unfold wellFormed. rewrite Hl, Hn. split.
  - apply NoDup_fmap_filter, Hnd.
  - apply Forall_forall. intros x Hx. apply list_elem_of_filter in Hx.
    rewrite Forall_forall in Hlt. apply Hlt, Hx.
Qed.

End Listeners.

Lemma wellFormed_register (c : DockerDebugConfiguration) (host : DebugHost) :
  wellFormed host -> wellFormed (onDidTerminateDebugSession c host).
Proof.
  intros [Hnd Hlt]. unfold wellFormed, onDidTerminateDebugSession. cbn. split.
  - rewrite fmap_app. apply NoDup_app. split; [exact Hnd|]. split.
    + intros d Hd Hd'. cbn in Hd'. apply list_elem_of_singleton in Hd'. subst d.
      apply list_elem_of_fmap in Hd. destruct Hd as (l & Hl & Hin).
      rewrite Forall_forall in Hlt. specialize (Hlt l Hin). lia.
    + cbn. apply NoDup_singleton.
  - apply Forall_app. split.
    + eapply Forall_impl; [exact Hlt|]. cbn. intros l Hl. lia.
    + repeat constructor.
Qed.

Lemma wellFormed_emptyHost : wellFormed emptyHost.
Proof. split; cbn; constructor. Qed.

Lemma resolveDebugConfiguration_resolved
    (this : DockerDebugConfigurationProvider) (folder : option WorkspaceFolder)
    (c : DockerDebugConfiguration) (helper : DebugHelper)
    (result : option DockerDebugConfiguration) (host : DebugHost) :
  helperFor this (determineDebugPlatform c) = Some helper ->
  helperResolveDebugConfiguration helper folder c = Ok result ->
  resolveDebugConfiguration this folder c host =
    (Ok (fst (registerRemoveContainerAfterDebugging result host)),
     snd (registerRemoveContainerAfterDebugging result host)).
Proof.
  intros Hhelper Hres. unfold resolveDebugConfiguration, resolveDebugConfigurationInternal.
  destruct (determineDebugPlatform c); cbn in Hhelper; try discriminate;
    injection Hhelper as <-; rewrite Hres;
    destruct (registerRemoveContainerAfterDebugging result host); reflexivity.
Qed.

Lemma registerRemoveContainerAfterDebugging_armed
    (r : DockerDebugConfiguration) (host : DebugHost) :
  truthy (DebugConfig._containerNameToKill r) = true ->
  DebugConfig.removeContainerAfterDebug r <> Some false ->
  registerRemoveContainerAfterDebugging (Some r) host =
    (Some (setRemoveContainerAfterDebug (Some true) r),
     onDidTerminateDebugSession (setRemoveContainerAfterDebug (Some true) r) host).
Proof.
  intros Hname Hflag. unfold registerRemoveContainerAfterDebugging. rewrite Hname.
  destruct (DebugConfig.removeContainerAfterDebug r) as [[]|]; cbn; congruence.
Qed.

(** C3, as the code has it.  When a debug configuration resolves to one with
    a non-empty [_containerNameToKill] and [removeContainerAfterDebug] true
    or unset, exactly one listener is registered for it.  Run for a session
    that is not its own (another container name, or no
    [removeContainerAfterDebug]), the listener does nothing and stays
    registered.  Run for its own session, it makes one forced
    [removeContainer] call and disposes of itself, whatever the call
    returns; a terminated session thus removes exactly the listeners that
    are there for it, and each of them handles one event at most. *)
Theorem removeContainerAfterDebugging_listener :
  forall (this : DockerDebugConfigurationProvider) (folder : option WorkspaceFolder)
         (c : DockerDebugConfiguration) (helper : DebugHelper)
         (r : DockerDebugConfiguration) (host : DebugHost),
    wellFormed host ->
    helperFor this (determineDebugPlatform c) = Some helper ->
    helperResolveDebugConfiguration helper folder c = Ok (Some r) ->
    truthy (DebugConfig._containerNameToKill r) = true ->
    DebugConfig.removeContainerAfterDebug r <> Some false ->
    let r' := setRemoveContainerAfterDebug (Some true) r in
    let d := nextDisposable host in
    exists host',
      resolveDebugConfiguration this folder c host = (Ok (Some r'), host')
      /\ listeners host' = listeners host ++ [{| disposable := d; watched := r' |}]
      /\ removals host' = removals host
      /\ wellFormed host'
      /\ (forall client session h,
            DebugConfig._containerNameToKill session <> DebugConfig._containerNameToKill r' ->
            sessionTerminated client r' d session h = h)
      /\ (forall client session h,
            ~ ownSession session r' -> sessionTerminated client r' d session h = h)
      /\ (forall client session h,
            ownSession session r' ->
            sessionTerminated client r' d session h =
              {| listeners := filter (fun l => disposable l <> d) (listeners h);
                 nextDisposable := nextDisposable h;
                 removals := removals h ++ [(DebugConfig._containerNameToKill r', true)] |})
      /\ (forall client session h,
            wellFormed h ->
            listeners (terminateDebugSession client session h) =
              filter (fun l => ~ ownSession session (watched l)) (listeners h)
            /\ removals (terminateDebugSession client session h) =
                removals h ++
                ((fun l => (DebugConfig._containerNameToKill (watched l), true))
                   <$> filter (fun l => ownSession session (watched l)) (listeners h))
            /\ wellFormed (terminateDebugSession client session h)).
Proof.
  intros this folder c helper r host Hwf Hhelper Hres Hname Hflag r' d.
  exists (onDidTerminateDebugSession r' host).
  split.
  { rewrite (resolveDebugConfiguration_resolved this folder c helper (Some r) host Hhelper Hres).
    rewrite (registerRemoveContainerAfterDebugging_armed r host Hname Hflag). reflexivity. }
  split; [reflexivity|]. split; [reflexivity|].
  split; [apply wellFormed_register, Hwf|].
  split; [|split; [|split]].
  - intros client session h Hne. rewrite sessionTerminated_cases.
    destruct (decide (ownSession session r')) as [(_ & He & _)|]; [|reflexivity].
    contradiction.
  - intros client session h Hno. rewrite sessionTerminated_cases.
    destruct (decide (ownSession session r')); [contradiction|reflexivity].
  - intros client session h Hown. rewrite sessionTerminated_cases.
    destruct (decide (ownSession session r')); [reflexivity|contradiction].
  - intros client session h Hh. apply terminateDebugSession_spec, Hh.
Qed.

Lemma removeContainerAfterDebugging_listener_witness :
  exists host',
    resolveDebugConfiguration sampleProvider None
      (sampleDebugConfiguration (Some NetCore) None None) emptyHost =
      (Ok (Some (sampleSession "c1" (Some true))), host')
    /\ listeners host' =
       [{| disposable := 0; watched := sampleSession "c1" (Some true) |}].
Proof.
  destruct (removeContainerAfterDebugging_listener sampleProvider None
              (sampleDebugConfiguration (Some NetCore) None None)
              (sampleHelper "c1") (sampleSession "c1" None) emptyHost)
    as (host' & Hres & Hl & _).
  - split; cbn; constructor.
  - reflexivity.
  - reflexivity.
  - reflexivity.
  - discriminate.
  - exists host'. split; [exact Hres|exact Hl].
Defined.

(** C3, as stated, fails: a session that carries the watched container name
    but not [removeContainerAfterDebug] leaves the listener registered and
    no removal is made. *)
Lemma listener_keeps_container_of_session_without_removal :
  let w := sampleSession "c1" (Some true) in
  let session := sampleSession "c1" (Some false) in
  let host := onDidTerminateDebugSession w emptyHost in
  DebugConfig._containerNameToKill session = DebugConfig._containerNameToKill w
  /\ sessionTerminated failingClient w 0 session host = host
  /\ terminateDebugSession failingClient session host = host
  /\ removals host = []
  /\ listeners host = [{| disposable := 0; watched := w |}].
Proof. cbn. repeat split; reflexivity. Qed.

(** C10.  When the configuration resolved by the platform helper carries a
    non-empty [_containerNameToKill] and leaves [removeContainerAfterDebug]
    undefined, [resolveDebugConfiguration] returns it with
    [removeContainerAfterDebug] set to [true]; a returned configuration with
    a non-empty [_containerNameToKill] never has the field undefined. *)
Theorem removeContainerAfterDebug_materialized :
  forall (this : DockerDebugConfigurationProvider) (folder : option WorkspaceFolder)
         (c : DockerDebugConfiguration) (helper : DebugHelper) (host : DebugHost),
    helperFor this (determineDebugPlatform c) = Some helper ->
    (forall r,
       helperResolveDebugConfiguration helper folder c = Ok (Some r) ->
       truthy (DebugConfig._containerNameToKill r) = true ->
       DebugConfig.removeContainerAfterDebug r = None ->
       exists host',
         resolveDebugConfiguration this folder c host =
           (Ok (Some (setRemoveContainerAfterDebug (Some true) r)), host')
         /\ DebugConfig.removeContainerAfterDebug
              (setRemoveContainerAfterDebug (Some true) r) = Some true)
    /\ (forall returned host',
         resolveDebugConfiguration this folder c host = (Ok (Some returned), host') ->
         truthy (DebugConfig._containerNameToKill returned) = true ->
         DebugConfig.removeContainerAfterDebug returned <> None).
Proof.
  intros this folder c helper host Hhelper. split.
  - intros r Hres Hname Hflag. eexists. split; [|reflexivity].
    rewrite (resolveDebugConfiguration_resolved this folder c helper (Some r) host Hhelper Hres).
    rewrite (registerRemoveContainerAfterDebugging_armed r host Hname)
      by (rewrite Hflag; discriminate).
    reflexivity.
  - intros returned host' Hres Hname.
    destruct (helperResolveDebugConfiguration helper folder c) as [result|e] eqn:Hh.
    + rewrite (resolveDebugConfiguration_resolved this folder c helper result host Hhelper Hh)
        in Hres.
      injection Hres as Hret _.
      destruct result as [r|]; [|discriminate Hret].
      unfold registerRemoveContainerAfterDebugging in Hret.
      destruct (DebugConfig.removeContainerAfterDebug r) as [[]|] eqn:Hflag;
        cbn in Hret.
      * destruct (truthy (DebugConfig._containerNameToKill r));
          cbn in Hret; injection Hret as <-; cbn; congruence.
      * injection Hret as <-. congruence.
      * destruct (truthy (DebugConfig._containerNameToKill r)) eqn:Hn;
          cbn in Hret; injection Hret as <-; cbn; [discriminate|].
        rewrite Hn in Hname. discriminate.
    + unfold resolveDebugConfiguration, resolveDebugConfigurationInternal in Hres.
      destruct (determineDebugPlatform c); cbn in Hhelper; try discriminate;
        injection Hhelper as <-; rewrite Hh in Hres; discriminate.
Qed.

Lemma removeContainerAfterDebug_materialized_witness :
  exists host',
    resolveDebugConfiguration sampleProvider None
      (sampleDebugConfiguration (Some Node) None None) emptyHost =
      (Ok (Some (sampleSession "c2" (Some true))), host').
Proof.
  destruct (proj1 (removeContainerAfterDebug_materialized sampleProvider None
                     (sampleDebugConfiguration (Some Node) None None)
                     (sampleHelper "c2") emptyHost eq_refl)
              (sampleSession "c2" None) eq_refl eq_refl eq_refl)
    as (host' & Hres & _).
  exists host'. exact Hres.
Defined.

(** ** The task graph *)

Import TaskHelper.

Lemma findTaskByLabel_cons (t : TaskDefinitionBase) (ts : list TaskDefinitionBase)
    (l : string) :
  findTaskByLabel (t :: ts) l =
  if decide (TaskDef.label t = Some l) then Some t else findTaskByLabel ts l.
Proof.
  unfold findTaskByLabel. cbn [list_find].
  destruct (decide (TaskDef.label t = Some l)); [reflexivity|].
  rewrite <- option_fmap_compose. apply option_fmap_ext. intros [i x]. reflexivity.
Qed.

Section TaskGraph.

(** The configured tasks and the type looked for. *)
Variable allTasks : list TaskDefinitionBase.
Variable type : string.

Lemma findTaskByLabel_elem_of (l : string) (t : TaskDefinitionBase) :
  findTaskByLabel allTasks l = Some t -> t ∈ allTasks.
Proof.
  unfold findTaskByLabel. intros H. apply fmap_Some in H.
  destruct H as ([i x] & Hfind & ->). apply list_find_Some in Hfind.
  eapply list_elem_of_lookup_2, Hfind.
Qed.

Lemma findTaskByType_elem_of (ty : option string) (t : TaskDefinitionBase) :
  findTaskByType allTasks ty = Some t -> t ∈ allTasks.
Proof.
  unfold findTaskByType. intros H. apply fmap_Some in H.
  destruct H as ([i x] & Hfind & ->). apply list_find_Some in Hfind.
  eapply list_elem_of_lookup_2, Hfind.
Qed.

(** The loop returns the first match. *)
Lemma forEachLabel_first_match
    (recurse : option ConfigNode -> Fuelled (option ConfigNode))
    (before : list string) (l : string) (after : list string) (found : ConfigNode) :
  (forall l', l' ∈ before ->
     recurse (OfTask <$> findTaskByLabel allTasks l') = Returned None) ->
  recurse (OfTask <$> findTaskByLabel allTasks l) = Returned (Some found) ->
  forEachLabel recurse allTasks (before ++ l :: after) = Returned (Some found).
Proof.
  intros Hbefore Hl. induction before as [|l0 before IH]; cbn [app forEachLabel].
  - rewrite Hl. reflexivity.
  - rewrite (Hbefore l0) by left. apply IH. intros l' Hl'. apply Hbefore. right. exact Hl'.
Qed.

(** The loop returns when every recursive call does. *)
Lemma forEachLabel_returns
    (recurse : option ConfigNode -> Fuelled (option ConfigNode))
    (labels : list string) :
  (forall l, l ∈ labels ->
     exists r, recurse (OfTask <$> findTaskByLabel allTasks l) = Returned r) ->
  exists r, forEachLabel recurse allTasks labels = Returned r.
Proof.
  induction labels as [|l labels IH]; intros Hall; cbn [forEachLabel].
  - eexists. reflexivity.
  - destruct (Hall l) as [[next|] Hr]; [left|..]; rewrite Hr.
    + eexists. reflexivity.
    + apply IH. intros l' Hl'. apply Hall. right. exact Hl'.
Qed.

Lemma forEachLabel_mono
    (recurse1 recurse2 : option ConfigNode -> Fuelled (option ConfigNode))
    (labels : list string) (r : option ConfigNode) :
  (forall node r, recurse1 node = Returned r -> recurse2 node = Returned r) ->
  forEachLabel recurse1 allTasks labels = Returned r ->
  forEachLabel recurse2 allTasks labels = Returned r.
Proof.
  intros Hmono. induction labels as [|l labels IH]; cbn [forEachLabel]; [auto|].
  destruct (recurse1 (OfTask <$> findTaskByLabel allTasks l)) as [[next|]|] eqn:H1;
    try discriminate; rewrite (Hmono _ _ H1); auto.
Qed.

(** More fuel does not change what a call returns. *)
Lemma recursiveFindTaskByType_mono :
  forall (fuel fuel' : nat) (node r : option ConfigNode),
    fuel <= fuel' ->
    recursiveFindTaskByType fuel allTasks type node = Returned r ->
    recursiveFindTaskByType fuel' allTasks type node = Returned r.
Proof.
  induction fuel as [|fuel IH]; intros fuel' node r Hle Hr; [discriminate Hr|].
  destruct fuel' as [|fuel']; [lia|]. assert (Hle' : fuel <= fuel') by lia.
  cbn [recursiveFindTaskByType] in *.
  destruct node as [node|]; [|exact Hr].
  destruct (truthyValue (nodePreLaunchTask node)); [eapply IH; eassumption|].
  destruct (strictEq (nodeType node) (Some type)); [exact Hr|].
  destruct (nodeDependsOn node) as [[labels|nextType]|]; [| |exact Hr].
  - eapply forEachLabel_mono; [|exact Hr]. intros n0 r0. apply IH, Hle'.
  - eapply IH; eassumption.
Qed.

(** A call returns when the calls on its successors do. *)
Lemma recursiveFindTaskByType_step (fuel : nat) (node : ConfigNode) :
  (forall s, s ∈ successors allTasks type node ->
     exists r, recursiveFindTaskByType (S fuel) allTasks type (Some (OfTask s)) = Returned r) ->
  exists r, recursiveFindTaskByType (S (S fuel)) allTasks type (Some node) = Returned r.
Proof.
  intros Hsucc.
  assert (Hcall : forall next : option TaskDefinitionBase,
            (forall s, next = Some s -> s ∈ successors allTasks type node) ->
            exists r, recursiveFindTaskByType (S fuel) allTasks type (OfTask <$> next)
                      = Returned r).
  { intros [s|] Hs; [apply Hsucc, Hs; reflexivity|]. eexists. reflexivity. }
  change (recursiveFindTaskByType (S (S fuel)) allTasks type (Some node)) with
    (match truthyValue (nodePreLaunchTask node) with
     | Some preLaunchTask =>
         recursiveFindTaskByType (S fuel) allTasks type
           (OfTask <$> findTaskByLabel allTasks preLaunchTask)
     | None =>
         if strictEq (nodeType node) (Some type) then Returned (Some node)
         else
           match nodeDependsOn node with
           | Some (DependsOnLabels labels) =>
               forEachLabel (recursiveFindTaskByType (S fuel) allTasks type) allTasks labels
           | Some (DependsOnType nextType) =>
               recursiveFindTaskByType (S fuel) allTasks type
                 (OfTask <$> findTaskByType allTasks nextType)
           | None => Returned None
           end
     end).
  unfold successors in Hsucc, Hcall.
  destruct (truthyValue (nodePreLaunchTask node)) as [preLaunchTask|].
  { apply Hcall. intros s ->. left. }
  destruct (strictEq (nodeType node) (Some type)); [eexists; reflexivity|].
  destruct (nodeDependsOn node) as [[labels|nextType]|]; [| |eexists; reflexivity].
  - apply forEachLabel_returns. intros l Hl. apply Hcall. intros s Hs.
    apply list_elem_of_omap. exists l. split; assumption.
  - apply Hcall. intros s ->. left.
Qed.

Lemma successors_elem_of (node : ConfigNode) (s : TaskDefinitionBase) :
  s ∈ successors allTasks type node -> s ∈ allTasks.
Proof.
  unfold successors.
  destruct (truthyValue (nodePreLaunchTask node)) as [l|].
  { destruct (findTaskByLabel allTasks l) as [t|] eqn:Hf; cbn; intros Hs.
    - apply list_elem_of_singleton in Hs. subst s. eapply findTaskByLabel_elem_of, Hf.
    - inversion Hs. }
  destruct (strictEq (nodeType node) (Some type)); [intros Hs; inversion Hs|].
  destruct (nodeDependsOn node) as [[labels|nextType]|]; [| |intros Hs; inversion Hs].
  - intros Hs. apply list_elem_of_omap in Hs. destruct Hs as (l & _ & Hf).
    eapply findTaskByLabel_elem_of, Hf.
  - destruct (findTaskByType allTasks nextType) as [t|] eqn:Hf; cbn; intros Hs.
    + apply list_elem_of_singleton in Hs. subst s. eapply findTaskByType_elem_of, Hf.
    + inversion Hs.
Qed.

(** With a rank that decreases along the successors, a call on a task of
    rank below [n] returns within depth [n + 1]. *)
Section Ranked.

(** A rank of the tasks that decreases from a task to its successors. *)
Variable rank : TaskDefinitionBase -> nat.
Hypothesis rank_decreases :
  forall t s, t ∈ allTasks -> s ∈ successors allTasks type (OfTask t) -> rank s < rank t.

Lemma recursiveFindTaskByType_ranked :
  forall n t, t ∈ allTasks -> rank t < n ->
    exists r, recursiveFindTaskByType (S n) allTasks type (Some (OfTask t)) = Returned r.
Proof.
  induction n as [|n IH]; intros t Ht Hlt; [lia|].
  apply recursiveFindTaskByType_step. intros s Hs. apply IH.
  - eapply successors_elem_of, Hs.
  - specialize (rank_decreases t s Ht Hs). lia.
Qed.

End Ranked.

End TaskGraph.

(** C1, as the code has it.  [recursiveFindTaskByType] returns, a task or
    [undefined], whenever the tasks can be ranked so that every task handed
    to a recursive call has a smaller rank than the task of the call, that
    is, when the references between the tasks form no cycle; the depth of
    the recursion is then bounded by the largest rank. *)
Theorem recursiveFindTaskByType_terminates_acyclic :
  forall (allTasks : list TaskDefinitionBase) (type : string)
         (rank : TaskDefinitionBase -> nat),
    (forall t s, t ∈ allTasks -> s ∈ successors allTasks type (OfTask t) ->
       rank s < rank t) ->
    forall node : option ConfigNode,
    exists result,
      forall fuel, max_list (rank <$> allTasks) + 3 <= fuel ->
        recursiveFindTaskByType fuel allTasks type node = Returned result.
Proof.
  intros allTasks type rank Hrank node.
  set (n := S (max_list (rank <$> allTasks))).
  assert (Hall : forall t, t ∈ allTasks ->
            exists r, recursiveFindTaskByType (S n) allTasks type (Some (OfTask t))
                      = Returned r).
  { intros t Ht. apply (recursiveFindTaskByType_ranked allTasks type rank Hrank n t Ht).
    unfold n. apply Nat.lt_succ_r, max_list_elem_of_le, list_elem_of_fmap_2, Ht. }
  assert (Hnode : exists r, recursiveFindTaskByType (S (S n)) allTasks type node
                            = Returned r).
  { destruct node as [node|]; [|eexists; reflexivity].
    apply recursiveFindTaskByType_step. intros s Hs. apply Hall.
    eapply successors_elem_of, Hs. }
  destruct Hnode as [r Hr]. exists r. intros fuel Hfuel.
  apply (recursiveFindTaskByType_mono allTasks type (S (S n)) fuel node r); [|exact Hr].
  unfold n. lia.
Qed.

Lemma recursiveFindTaskByType_terminates_acyclic_witness :
  exists result,
    forall fuel, 4 <= fuel ->
      recursiveFindTaskByType fuel [buildA; runB] "docker-build" (Some (OfTask runB))
      = Returned result.
Proof.
  destruct (recursiveFindTaskByType_terminates_acyclic [buildA; runB] "docker-build"
              (fun t => if strictEq (TaskDef.label t) (Some "B") then 1 else 0))
    with (node := Some (OfTask runB)) as [result Hresult].
  - intros t s Ht Hs.
    apply elem_of_cons in Ht. destruct Ht as [->|Ht].
    + vm_compute in Hs. inversion Hs.
    + apply list_elem_of_singleton in Ht. subst t. vm_compute in Hs.
      apply list_elem_of_singleton in Hs. subst s. vm_compute. lia.
  - exists result. intros fuel Hfuel. apply Hresult. vm_compute. lia.
Defined.

(** C1, as stated, fails: on two tasks whose [dependsOn] name each other and
    none of which has the type looked for, no depth of recursion is enough
    for the call to return, from either task. *)
Lemma recursiveFindTaskByType_cycle_never_returns :
  (~ exists fuel result,
       recursiveFindTaskByType fuel [cyclicA; cyclicB] "docker-build"
         (Some (OfTask cyclicA)) = Returned result)
  /\ (~ exists fuel result,
       recursiveFindTaskByType fuel [cyclicA; cyclicB] "docker-build"
         (Some (OfTask cyclicB)) = Returned result).
Proof.
  assert (Hloop : forall fuel,
            recursiveFindTaskByType fuel [cyclicA; cyclicB] "docker-build"
              (Some (OfTask cyclicA)) = OutOfFuel
            /\ recursiveFindTaskByType fuel [cyclicA; cyclicB] "docker-build"
                 (Some (OfTask cyclicB)) = OutOfFuel).
  { induction fuel as [|fuel [IHA IHB]]; [split; reflexivity|]. split.
    - change (recursiveFindTaskByType (S fuel) [cyclicA; cyclicB] "docker-build"
                (Some (OfTask cyclicA)))
        with (match recursiveFindTaskByType fuel [cyclicA; cyclicB] "docker-build"
                      (Some (OfTask cyclicB)) with
              | OutOfFuel => OutOfFuel
              | Returned (Some next) => Returned (Some next)
              | Returned None => Returned None
              end).
      rewrite IHB. reflexivity.
    - change (recursiveFindTaskByType (S fuel) [cyclicA; cyclicB] "docker-build"
                (Some (OfTask cyclicB)))
        with (match recursiveFindTaskByType fuel [cyclicA; cyclicB] "docker-build"
                      (Some (OfTask cyclicA)) with
              | OutOfFuel => OutOfFuel
              | Returned (Some next) => Returned (Some next)
              | Returned None => Returned None
              end).
      rewrite IHA. reflexivity. }
  split; intros (fuel & result & Hr); destruct (Hloop fuel) as [HA HB]; congruence.
Qed.

Lemma getAssociated_example (A B : TaskDefinitionBase) (c : DockerDebugConfiguration)
    (la lb : string) (runTask : DockerRunTask) :
  TaskDef.type A = Some "docker-build" -> TaskDef.label A = Some la ->
  TaskDef.type B = Some "docker-run" -> TaskDef.label B = Some lb ->
  TaskDef.dependsOn B = Some (DependsOnLabels [la]) ->
  la <> lb -> lb <> "" ->
  DebugConfig.preLaunchTask c = Some lb -> name runTask = lb ->
  getAssociatedDockerRunTask 2 (configured [A; B]) c = Returned (Some (OfTask B))
  /\ getAssociatedDockerBuildTask 2 (configured [A; B]) runTask = Returned (Some (OfTask A)).
Proof.
  intros HtA HlA HtB HlB HdB Hne Hlb Hpre Hname.
  assert (HfB : findTaskByLabel [A; B] lb = Some B).
  { rewrite !findTaskByLabel_cons, HlA, HlB.
    destruct (decide (Some la = Some lb)) as [E|_]; [congruence|].
    destruct (decide (Some lb = Some lb)); congruence. }
  assert (HfA : findTaskByLabel [A; B] la = Some A).
  { rewrite findTaskByLabel_cons, HlA. destruct (decide (Some la = Some la)); congruence. }
  assert (Htruthy : truthyValue (Some lb) = Some lb).
  { cbn. destruct (String.eqb_spec lb ""); congruence. }
  unfold getAssociatedDockerRunTask, getAssociatedDockerBuildTask.
  change (tasksOf (configured [A; B])) with [A; B]. cbv zeta.
  rewrite Hname, HfB. cbn [fmap option_fmap option_map].
  split.
  - cbn [recursiveFindTaskByType nodePreLaunchTask]. rewrite Hpre, Htruthy, HfB.
    cbn [fmap option_fmap option_map nodePreLaunchTask truthyValue nodeType].
    rewrite HtB. reflexivity.
  - cbn [recursiveFindTaskByType nodePreLaunchTask truthyValue nodeType nodeDependsOn].
    rewrite HtB, HdB. cbn [strictEq String.eqb Ascii.eqb Bool.eqb forEachLabel].
    rewrite HfA. cbn [fmap option_fmap option_map nodePreLaunchTask truthyValue nodeType].
    rewrite HtA. reflexivity.
Qed.

(** C6.  [recursiveFindTaskByType] follows a non-empty [preLaunchTask] before
    it looks at the node itself; without one it returns the node when its
    type is the one looked for; otherwise, for a [dependsOn] that is a list
    of labels, it returns the first match among the tasks of the labels,
    taken in order.  For a build task [A], a run task [B] that depends on
    the label of [A] and a debug configuration launching the label of [B],
    [getAssociatedDockerRunTask] returns [B] and
    [getAssociatedDockerBuildTask] of [B] returns [A]. *)
Theorem recursiveFindTaskByType_resolution :
  (forall allTasks type fuel node l,
     truthyValue (nodePreLaunchTask node) = Some l ->
     recursiveFindTaskByType (S fuel) allTasks type (Some node) =
     recursiveFindTaskByType fuel allTasks type (OfTask <$> findTaskByLabel allTasks l))
  /\ (forall allTasks type fuel node,
       truthyValue (nodePreLaunchTask node) = None ->
       nodeType node = Some type ->
       recursiveFindTaskByType (S fuel) allTasks type (Some node) = Returned (Some node))
  /\ (forall allTasks type fuel node before l after found,
       truthyValue (nodePreLaunchTask node) = None ->
       nodeType node <> Some type ->
       nodeDependsOn node = Some (DependsOnLabels (before ++ l :: after)) ->
       (forall l', l' ∈ before ->
          recursiveFindTaskByType fuel allTasks type
            (OfTask <$> findTaskByLabel allTasks l') = Returned None) ->
       recursiveFindTaskByType fuel allTasks type
         (OfTask <$> findTaskByLabel allTasks l) = Returned (Some found) ->
       recursiveFindTaskByType (S fuel) allTasks type (Some node) = Returned (Some found))
  /\ (forall (A B : TaskDefinitionBase) (c : DockerDebugConfiguration)
             (la lb : string) (runTask : DockerRunTask),
       TaskDef.type A = Some "docker-build" -> TaskDef.label A = Some la ->
       TaskDef.type B = Some "docker-run" -> TaskDef.label B = Some lb ->
       TaskDef.dependsOn B = Some (DependsOnLabels [la]) ->
       la <> lb -> lb <> "" ->
       DebugConfig.preLaunchTask c = Some lb -> name runTask = lb ->
       forall fuel, 2 <= fuel ->
         getAssociatedDockerRunTask fuel (configured [A; B]) c = Returned (Some (OfTask B))
         /\ getAssociatedDockerBuildTask fuel (configured [A; B]) runTask
            = Returned (Some (OfTask A))).
Proof.
  split; [|split; [|split]].
  - intros allTasks type fuel node l Hpre. cbn [recursiveFindTaskByType].
    rewrite Hpre. reflexivity.
  - intros allTasks type fuel node Hpre Hty. cbn [recursiveFindTaskByType].
    rewrite Hpre, Hty. rewrite (proj2 (strictEq_spec _ _) eq_refl). reflexivity.
  - intros allTasks type fuel node before l after found Hpre Hty Hdep Hbefore Hl.
    cbn [recursiveFindTaskByType]. rewrite Hpre, Hdep.
    destruct (strictEq (nodeType node) (Some type)) eqn:He.
    + apply strictEq_spec in He. contradiction.
    + apply forEachLabel_first_match; assumption.
  - intros A B c la lb runTask HtA HlA HtB HlB HdB Hne Hlb Hpre Hname fuel Hfuel.
    destruct (getAssociated_example A B c la lb runTask HtA HlA HtB HlB HdB Hne Hlb
                Hpre Hname) as [Hrun Hbuild].
    split.
    + apply (recursiveFindTaskByType_mono _ _ 2 fuel _ _ Hfuel Hrun).
    + apply (recursiveFindTaskByType_mono _ _ 2 fuel _ _ Hfuel Hbuild).
Qed.

Lemma recursiveFindTaskByType_resolution_witness :
  getAssociatedDockerRunTask 5 (configured [buildA; runB]) launchB = Returned (Some (OfTask runB))
  /\ getAssociatedDockerBuildTask 5 (configured [buildA; runB]) (taskNamed "B")
     = Returned (Some (OfTask buildA)).
Proof.
  apply (proj2 (proj2 (proj2 recursiveFindTaskByType_resolution))
           buildA runB launchB "A" "B" (taskNamed "B"));
    try reflexivity; try discriminate. lia.
Defined.

(** ** Resolution of a task leaves its definition alone *)

Lemma keeps_length (st0 st : Store) : keeps st0 st -> length st0 <= length st.
Proof.
  intros Hk. destruct (decide (length st0 <= length st)) as [|Hlt]; [assumption|].
  destruct (lookup_lt_is_Some_2 st0 (length st)) as [d Hd]; [lia|].
  apply Hk in Hd. apply lookup_lt_Some in Hd. lia.
Qed.

Lemma framed_ret {A : Type} (st0 : Store) (a : A) (Q : A -> Prop) :
  Q a -> framed st0 (ret a) Q.
Proof. intros HQ st Hk. cbn. split; [exact Hk|]. intros a' [= <-]. exact HQ. Qed.

Lemma framed_throw {A : Type} (st0 : Store) (message : string) (Q : A -> Prop) :
  framed st0 (throw message) Q.
Proof. intros st Hk. cbn. split; [exact Hk|]. discriminate. Qed.

Lemma framed_liftOutcome {A : Type} (st0 : Store) (o : Outcome A) :
  framed st0 (liftOutcome o) (fun _ => True).
Proof. intros st Hk. cbn. split; [exact Hk|]. auto. Qed.

Lemma framed_readProperty {A : Type} (st0 : Store) (l : loc)
    (p : TaskDefinitionBase -> A) :
  framed st0 (readProperty l p) (fun _ => True).
Proof.
  intros st Hk. unfold readProperty. destruct (st !! l); cbn; split; auto.
Qed.

(** A write to an object that [st0] does not hold keeps the objects of
    [st0]. *)
Lemma framed_writeProperty (st0 : Store) (l : loc)
    (set : TaskDefinitionBase -> TaskDefinitionBase) :
  length st0 <= l -> framed st0 (writeProperty l set) (fun _ => True).
Proof.
  intros Hl st Hk. unfold writeProperty.
  destruct (st !! l) as [d|]; cbn [fst snd]; split; auto.
  intros l0 d0 H0. rewrite list_lookup_insert_ne.
  - apply Hk, H0.
  - apply lookup_lt_Some in H0. lia.
Qed.

(** The clone is an object that [st0] does not hold. *)
Lemma framed_cloneObject (st0 : Store) (l : loc) :
  framed st0 (cloneObject l) (fun l' => length st0 <= l').
Proof.
  intros st Hk. unfold cloneObject. destruct (st !! l) as [d|]; cbn [fst snd]; split.
  - intros l0 d0 H0. apply lookup_app_l_Some, Hk, H0.
  - intros a [= <-]. apply keeps_length, Hk.
  - exact Hk.
  - discriminate.
Qed.

Lemma framed_bind {A B : Type} (st0 : Store) (c : Resolution A) (k : A -> Resolution B)
    (Q : A -> Prop) (R : B -> Prop) :
  framed st0 c Q -> (forall a, Q a -> framed st0 (k a) R) -> framed st0 (bind c k) R.
Proof.
  intros Hc Hk st Hst. unfold bind. destruct (Hc st Hst) as [Hkeep HQ].
  destruct (c st) as [[a|e] st']; cbn in *.
  - apply (Hk a (HQ a eq_refl) st' Hkeep).
  - split; [exact Hkeep|discriminate].
Qed.

Create HintDb framed.
#[local] Hint Resolve framed_throw framed_liftOutcome framed_readProperty
  framed_writeProperty framed_cloneObject : framed.

(** One step of a resolution: split a sequence, or close a primitive. *)
Ltac framed_step :=
  match goal with
  | |- framed _ (bind _ _) _ => eapply framed_bind; [|intros ? ?]
  | |- framed _ (ret _) _ => apply framed_ret
  | |- framed _ (match ?x with _ => _ end) _ => destruct x
  | |- framed _ _ _ => solve [eauto with framed]
  end.

Lemma build_resolveTaskInternal_framed
    (this : DockerBuildTaskProvider.DockerBuildTaskProvider) (task : DockerBuildTask)
    (taskPlatform : option DockerPlatform) (st0 : Store) :
  framed st0 (DockerBuildTaskProvider.resolveTaskInternal this task taskPlatform)
    (fun resolved => definition resolved = definition task).
Proof.
  unfold DockerBuildTaskProvider.resolveTaskInternal.
  eapply framed_bind; [apply framed_cloneObject|intros definition' Hfresh].
  eapply framed_bind; [apply framed_readProperty|intros dockerBuild _].
  eapply framed_bind; [apply framed_writeProperty, Hfresh|intros _ _].
  eapply (framed_bind _ _ _ (fun _ => True)).
  { repeat framed_step. }
  intros _ _. repeat framed_step. reflexivity.
Qed.

Lemma run_resolveTaskInternal_framed
    (this : DockerRunTaskProvider.DockerRunTaskProvider) (task : DockerRunTask)
    (taskPlatform : option DockerPlatform) (st0 : Store) :
  framed st0 (DockerRunTaskProvider.resolveTaskInternal this task taskPlatform)
    (fun resolved => definition resolved = definition task).
Proof.
  unfold DockerRunTaskProvider.resolveTaskInternal.
  eapply framed_bind; [apply framed_cloneObject|intros definition' Hfresh].
  eapply framed_bind; [apply framed_readProperty|intros dockerRun _].
  eapply framed_bind; [apply framed_writeProperty, Hfresh|intros _ _].
  eapply (framed_bind _ _ _ (fun _ => True)).
  { repeat framed_step. }
  intros _ _. repeat framed_step. reflexivity.
Qed.

Lemma framed_leavesDefinitions (task : Task) (c : Resolution Task) :
  (forall st0, framed st0 c (fun resolved => definition resolved = definition task)) ->
  leavesDefinitions task c.
Proof.
  intros Hc st. destruct (Hc st st) as [Hkeep Hdef]; [intros l d H; exact H|].
  split; [exact Hkeep|]. split; [intros d; apply Hkeep|exact Hdef].
Qed.

(** C7.  The resolution of a docker-build or docker-run task works on a
    clone of the definition of the task: whether [resolveTask] returns or
    throws, every task definition of the store it started from, the
    definition of the task among them, is left with all its properties as
    they were, and the task it returns carries the definition of the task
    it was given.  The same holds of [resolveTaskInternal] for every
    platform. *)
Theorem resolveTask_keeps_definition :
  forall (getPlatform : TaskDefinitionBase -> option DockerPlatform)
         (build : DockerBuildTaskProvider.DockerBuildTaskProvider)
         (run : DockerRunTaskProvider.DockerRunTaskProvider) (task : Task),
    leavesDefinitions task (DockerBuildTaskProvider.resolveTask getPlatform build task)
    /\ leavesDefinitions task (DockerRunTaskProvider.resolveTask getPlatform run task)
    /\ (forall taskPlatform,
          leavesDefinitions task
            (DockerBuildTaskProvider.resolveTaskInternal build task taskPlatform)
          /\ leavesDefinitions task
               (DockerRunTaskProvider.resolveTaskInternal run task taskPlatform)).
Proof.
  intros getPlatform build run task. split; [|split; [|intros taskPlatform; split]];
    apply framed_leavesDefinitions; intros st0.
  - unfold DockerBuildTaskProvider.resolveTask.
    eapply framed_bind; [apply framed_readProperty|intros taskPlatform _].
    apply build_resolveTaskInternal_framed.
  - unfold DockerRunTaskProvider.resolveTask.
    eapply framed_bind; [apply framed_readProperty|intros taskPlatform _].
    apply run_resolveTaskInternal_framed.
  - apply build_resolveTaskInternal_framed.
  - apply run_resolveTaskInternal_framed.
Qed.

Lemma resolveTask_keeps_definition_witness :
  snd (DockerBuildTaskProvider.resolveTask samplePlatform sampleBuildProvider
         sampleResolvable [samplePlatformTask (sampleBuildTask None)]) !! 0
    = Some (samplePlatformTask (sampleBuildTask None))
  /\ snd (DockerRunTaskProvider.resolveTask samplePlatform sampleRunProvider
            sampleResolvable [samplePlatformTask (sampleRunTask None)]) !! 0
       = Some (samplePlatformTask (sampleRunTask None)).
Proof.
  split.
  - apply (proj1 (resolveTask_keeps_definition samplePlatform sampleBuildProvider
                    sampleRunProvider sampleResolvable)
             [samplePlatformTask (sampleBuildTask None)]).
    reflexivity.
  - apply (proj1 (proj2 (resolveTask_keeps_definition samplePlatform sampleBuildProvider
                           sampleRunProvider sampleResolvable))
             [samplePlatformTask (sampleRunTask None)]).
    reflexivity.
Defined.

(** * Further properties *)

(** ** Names of images and containers *)

Lemma chars_app (a b : string) : chars (a +:+ b) = chars a ++ chars b.
Proof.
  unfold chars. induction a as [|c a IH]; [reflexivity|].
  change (String c a +:+ b) with (String c (a +:+ b)).
  cbn [String.list_ascii_of_string app]. f_equal. exact IH.
Qed.

Lemma getValidImageName_lower (nameHint : string) :
  Forall (fun c => isLowerAlphanumeric c = true) (chars (getValidImageName nameHint))
  /\ getValidImageName nameHint <> "".
Proof.
  destruct (getValidImageName_cases nameHint) as [Hne He].
  destruct (String.eq_dec (stripNonAlphanumeric nameHint) "") as [E|E].
  - rewrite (He E). split; [repeat constructor|discriminate].
  - rewrite (Hne E). split; [apply sanitized_lower|].
    intros H0. apply E. apply (f_equal String.length) in H0.
    rewrite toLowerCase_length in H0.
    destruct (stripNonAlphanumeric nameHint); [reflexivity|discriminate H0].
Qed.

Lemma isLowerAlphanumeric_fixed (c : ascii) :
  isLowerAlphanumeric c = true -> isAlphanumeric c = true /\ toLowerCaseChar c = c.
Proof. destruct c as [[] [] [] [] [] [] [] []]; vm_compute; split; congruence. Qed.

Lemma lower_fixed (s : string) :
  Forall (fun c => isLowerAlphanumeric c = true) (chars s) ->
  toLowerCase (stripNonAlphanumeric s) = s.
Proof.
  unfold chars. induction s as [|c s IH]; cbn; intros H; [reflexivity|].
  apply Forall_cons in H. destruct H as [Hc Hs].
  destruct (isLowerAlphanumeric_fixed c Hc) as [Ha Hl].
  rewrite Ha. cbn. rewrite Hl, (IH Hs). reflexivity.
Qed.

Lemma tagName_lower (t : ImageTag) :
  Forall (fun c => isLowerAlphanumeric c = true) (chars (tagName t)).
Proof. destruct t; repeat constructor. Qed.

(** X1.  [getDefaultContainerName] is the sanitised name of
    [getDefaultImageName] followed by ["-"] and the tag, ["dev"] when none
    is given: it is never empty and consists of lowercase alphanumerics and
    ["-"] only, whatever the name hint. *)
Theorem getDefaultContainerName_shape :
  forall (nameHint : string) (tag : option ImageTag),
    getDefaultContainerName nameHint tag <> ""
    /\ Forall (fun c => isNameChar c = true) (chars (getDefaultContainerName nameHint tag))
    /\ exists n,
         n <> ""
         /\ Forall (fun c => isLowerAlphanumeric c = true) (chars n)
         /\ getDefaultContainerName nameHint tag = n +:+ "-" +:+ tagName (default dev tag)
         /\ getDefaultImageName nameHint tag = n +:+ ":" +:+ tagName (default latest tag).
Proof.
  intros nameHint tag. destruct (getValidImageName_lower nameHint) as [Hlow Hne].
  unfold getDefaultContainerName, getDefaultImageName, getValidImageNameWithTag.
  split; [|split].
  - destruct (getValidImageName nameHint); [congruence|discriminate].
  - rewrite !chars_app. apply Forall_app. split; [|apply Forall_app; split].
    + eapply Forall_impl; [exact Hlow|]. intros c Hc. unfold isNameChar. rewrite Hc.
      reflexivity.
    + repeat constructor.
    + eapply Forall_impl; [apply tagName_lower|]. intros c Hc. unfold isNameChar.
      rewrite Hc. reflexivity.
  - exists (getValidImageName nameHint). auto.
Qed.

(** X2.  [getValidImageName] is idempotent, and a non-empty name made of
    lowercase alphanumerics is left as it is: sanitising a name twice
    changes nothing more. *)
Theorem getValidImageName_idempotent :
  (forall nameHint,
     getValidImageName (getValidImageName nameHint) = getValidImageName nameHint)
  /\ (forall nameHint,
       nameHint <> "" ->
       Forall (fun c => isLowerAlphanumeric c = true) (chars nameHint) ->
       getValidImageName nameHint = nameHint).
Proof.
  assert (Hfix : forall nameHint,
            nameHint <> "" ->
            Forall (fun c => isLowerAlphanumeric c = true) (chars nameHint) ->
            getValidImageName nameHint = nameHint).
  { intros nameHint Hne Hlow. unfold getValidImageName. rewrite (lower_fixed _ Hlow).
    destruct nameHint; [congruence|reflexivity]. }
  split; [|exact Hfix].
  intros nameHint. destruct (getValidImageName_lower nameHint) as [Hlow Hne].
  apply Hfix; assumption.
Qed.

Lemma getValidImageName_idempotent_witness :
  getValidImageName "web2" = "web2".
Proof.
  apply (proj2 getValidImageName_idempotent "web2"); [discriminate|].
  repeat constructor.
Defined.

Lemma orElse_nonempty (a : option string) (b : string) : b <> "" -> orElse a b <> "".
Proof.
  intros Hb. destruct a as [x|]; cbn; [|exact Hb].
  destruct (String.eqb_spec x ""); assumption.
Qed.

(** X3.  [inferImageName] never returns the empty string: an empty image
    or tag is passed over, and the default name is not empty. *)
Theorem inferImageName_nonempty :
  forall (runOptions : option DockerRunTaskDefinition)
         (context : option DockerRunTaskContext) (defaultNameHint : string)
         (defaultTag : option ImageTag),
    inferImageName runOptions context defaultNameHint defaultTag <> "".
Proof.
  intros runOptions context hint tag. unfold inferImageName.
  apply orElse_nonempty, orElse_nonempty.
  unfold getDefaultImageName, getValidImageNameWithTag.
  destruct (getValidImageName_lower hint) as [_ Hne].
  destruct (getValidImageName hint); [congruence|discriminate].
Qed.

(** ** Looking tasks up *)

(** X4.  [findTaskByLabel] and [findTaskByType] return the first task, in
    the order of the list, that has the label or the type, and [undefined]
    exactly when no task has it. *)
Theorem findTask_first_match :
  forall (allTasks : list TaskDefinitionBase),
    (forall l t,
       findTaskByLabel allTasks l = Some t <->
       exists i, allTasks !! i = Some t /\ TaskDef.label t = Some l
                 /\ forall j t', allTasks !! j = Some t' -> j < i ->
                      TaskDef.label t' <> Some l)
    /\ (forall l,
         findTaskByLabel allTasks l = None <->
         forall t, t ∈ allTasks -> TaskDef.label t <> Some l)
    /\ (forall ty t,
         findTaskByType allTasks ty = Some t <->
         exists i, allTasks !! i = Some t /\ TaskDef.type t = ty
                   /\ forall j t', allTasks !! j = Some t' -> j < i ->
                        TaskDef.type t' <> ty)
    /\ (forall ty,
         findTaskByType allTasks ty = None <->
         forall t, t ∈ allTasks -> TaskDef.type t <> ty).
Proof.
  intros allTasks. unfold findTaskByLabel, findTaskByType.
  split; [|split; [|split]].
  - intros l t. rewrite fmap_Some. split.
    + intros ([i x] & Hfind & ->). apply list_find_Some in Hfind. exists i. exact Hfind.
    + intros (i & Hfind). exists (i, t). split; [|reflexivity].
      apply list_find_Some. exact Hfind.
  - intros l. rewrite fmap_None, list_find_None, Forall_forall. reflexivity.
  - intros ty t. rewrite fmap_Some. split.
    + intros ([i x] & Hfind & ->). apply list_find_Some in Hfind. exists i. exact Hfind.
    + intros (i & Hfind). exists (i, t). split; [|reflexivity].
      apply list_find_Some. exact Hfind.
  - intros ty. rewrite fmap_None, list_find_None, Forall_forall. reflexivity.
Qed.

(** ** Walking the task graph *)

Section Walk.

Variable allTasks : list TaskDefinitionBase.
Variable type : string.

(** A match of the loop is a match of the call for one of the labels. *)
Lemma forEachLabel_found
    (recurse : option ConfigNode -> Fuelled (option ConfigNode))
    (labels : list string) (found : ConfigNode) :
  forEachLabel recurse allTasks labels = Returned (Some found) ->
  exists l, l ∈ labels /\
            recurse (OfTask <$> findTaskByLabel allTasks l) = Returned (Some found).
Proof.
  induction labels as [|l labels IH]; cbn [forEachLabel]; [discriminate|].
  destruct (recurse (OfTask <$> findTaskByLabel allTasks l)) as [[next|]|] eqn:Hr;
    intros H; try discriminate.
  - injection H as <-. exists l. split; [left|exact Hr].
  - destruct (IH H) as (l' & Hl' & Hr'). exists l'. split; [right; exact Hl'|exact Hr'].
Qed.

(** The loop finds nothing when every call does. *)
Lemma forEachLabel_none
    (recurse : option ConfigNode -> Fuelled (option ConfigNode)) (labels : list string) :
  (forall l, l ∈ labels ->
     recurse (OfTask <$> findTaskByLabel allTasks l) = Returned None) ->
  forEachLabel recurse allTasks labels = Returned None.
Proof.
  induction labels as [|l labels IH]; intros Hall; cbn [forEachLabel]; [reflexivity|].
  rewrite (Hall l) by left. apply IH. intros l' Hl'. apply Hall. right. exact Hl'.
Qed.

(** What a call returns has the type looked for and no [preLaunchTask] to
    follow, and it is the node of the call or one of the tasks. *)
Lemma recursiveFindTaskByType_sound :
  forall (fuel : nat) (node : option ConfigNode) (found : ConfigNode),
    recursiveFindTaskByType fuel allTasks type node = Returned (Some found) ->
    nodeType found = Some type
    /\ truthyValue (nodePreLaunchTask found) = None
    /\ (node = Some found \/ exists t, found = OfTask t /\ t ∈ allTasks).
Proof.
  assert (Hnext : forall (P : ConfigNode -> Prop) (next : option TaskDefinitionBase)
                         (found : ConfigNode),
            (forall t, next = Some t -> t ∈ allTasks) ->
            (P found /\ (OfTask <$> next = Some found
                         \/ exists t, found = OfTask t /\ t ∈ allTasks)) ->
            P found /\ exists t, found = OfTask t /\ t ∈ allTasks).
  { intros P next found Hin [HP [Hn|Ht]]; (split; [exact HP|]); [|exact Ht].
    destruct next as [t|]; [|discriminate Hn]. injection Hn as <-.
    exists t. split; [reflexivity|]. apply Hin. reflexivity. }
  induction fuel as [|fuel IH]; intros node found Hr; [discriminate Hr|].
  cbn [recursiveFindTaskByType] in Hr.
  destruct node as [node|]; [|discriminate Hr].
  destruct (truthyValue (nodePreLaunchTask node)) as [l|] eqn:Hpre.
  { apply IH in Hr. destruct Hr as (Hty & Hp & Hwhere).
    destruct (Hnext (fun _ => True) (findTaskByLabel allTasks l) found) as [_ Ht].
    - intros t Ht. eapply findTaskByLabel_elem_of, Ht.
    - split; [exact I|exact Hwhere].
    - auto. }
  destruct (strictEq (nodeType node) (Some type)) eqn:Hty.
  { injection Hr as <-. apply strictEq_spec in Hty. auto. }
  destruct (nodeDependsOn node) as [[labels|nextType]|]; [| |discriminate Hr].
  - apply forEachLabel_found in Hr. destruct Hr as (l & _ & Hr).
    apply IH in Hr. destruct Hr as (Hty' & Hp & Hwhere).
    destruct (Hnext (fun _ => True) (findTaskByLabel allTasks l) found) as [_ Ht].
    + intros t Ht. eapply findTaskByLabel_elem_of, Ht.
    + split; [exact I|exact Hwhere].
    + auto.
  - apply IH in Hr. destruct Hr as (Hty' & Hp & Hwhere).
    destruct (Hnext (fun _ => True) (findTaskByType allTasks nextType) found) as [_ Ht].
    + intros t Ht. eapply findTaskByType_elem_of, Ht.
    + split; [exact I|exact Hwhere].
    + auto.
Qed.

(** A call on a node without [preLaunchTask] and of another type, unfolded
    once. *)
Lemma recursiveFindTaskByType_dependsOn (fuel : nat) (node : ConfigNode) :
  truthyValue (nodePreLaunchTask node) = None ->
  nodeType node <> Some type ->
  recursiveFindTaskByType (S fuel) allTasks type (Some node) =
  match nodeDependsOn node with
  | Some (DependsOnLabels labels) =>
      forEachLabel (recursiveFindTaskByType fuel allTasks type) allTasks labels
  | Some (DependsOnType nextType) =>
      recursiveFindTaskByType fuel allTasks type (OfTask <$> findTaskByType allTasks nextType)
  | None => Returned None
  end.
Proof.
  intros Hpre Hty. cbn [recursiveFindTaskByType]. rewrite Hpre.
  destruct (strictEq (nodeType node) (Some type)) eqn:He; [|reflexivity].
  apply strictEq_spec in He. contradiction.
Qed.

End Walk.

(** X5.  Whatever [recursiveFindTaskByType] returns has the type looked for
    and no [preLaunchTask] left to follow, and it is the node the search
    started from or one of the configured tasks: the search never makes up
    a task.  Searching again from what was found finds it again. *)
Theorem recursiveFindTaskByType_returns_sought_type :
  forall (allTasks : list TaskDefinitionBase) (type : string) (fuel : nat)
         (node : option ConfigNode) (found : ConfigNode),
    recursiveFindTaskByType fuel allTasks type node = Returned (Some found) ->
    (nodeType found = Some type
     /\ truthyValue (nodePreLaunchTask found) = None
     /\ (node = Some found \/ exists t, found = OfTask t /\ t ∈ allTasks))
    /\ forall fuel',
         recursiveFindTaskByType (S fuel') allTasks type (Some found)
         = Returned (Some found).
Proof.
  intros allTasks type fuel node found Hr.
  destruct (recursiveFindTaskByType_sound allTasks type fuel node found Hr)
    as (Hty & Hpre & Hwhere).
  split; [auto|].
  intros fuel'. cbn [recursiveFindTaskByType]. rewrite Hpre, Hty.
  rewrite (proj2 (strictEq_spec _ _) eq_refl). reflexivity.
Qed.

Lemma recursiveFindTaskByType_returns_sought_type_witness :
  nodeType (OfTask buildA) = Some "docker-build".
Proof.
  apply (proj1 (recursiveFindTaskByType_returns_sought_type [buildA; runB] "docker-build" 2
                  (Some (OfTask runB)) (OfTask buildA) eq_refl)).
Defined.

(** X6.  A task of another type whose [dependsOn] list starts with a label
    that resolves to the task itself, or whose [dependsOn] refers to a type
    of which it is the first task, sends the search into itself: the call
    does not return, whatever the depth allowed. *)
Theorem recursiveFindTaskByType_self_reference :
  forall (allTasks : list TaskDefinitionBase) (type : string) (t : TaskDefinitionBase),
    TaskDef.type t <> Some type ->
    (forall l rest,
       TaskDef.dependsOn t = Some (DependsOnLabels (l :: rest)) ->
       findTaskByLabel allTasks l = Some t ->
       forall fuel,
         recursiveFindTaskByType fuel allTasks type (Some (OfTask t)) = OutOfFuel)
    /\ (forall nextType,
         TaskDef.dependsOn t = Some (DependsOnType nextType) ->
         findTaskByType allTasks nextType = Some t ->
         forall fuel,
           recursiveFindTaskByType fuel allTasks type (Some (OfTask t)) = OutOfFuel).
Proof.
  intros allTasks type t Hty. split.
  - intros l rest Hdep Hfind. induction fuel as [|fuel IH]; [reflexivity|].
    rewrite recursiveFindTaskByType_dependsOn by (cbn; auto).
    cbn [nodeDependsOn]. rewrite Hdep. cbn [forEachLabel]. rewrite Hfind.
    cbn [fmap option_fmap option_map]. rewrite IH. reflexivity.
  - intros nextType Hdep Hfind. induction fuel as [|fuel IH]; [reflexivity|].
    rewrite recursiveFindTaskByType_dependsOn by (cbn; auto).
    cbn [nodeDependsOn]. rewrite Hdep, Hfind. exact IH.
Qed.

Lemma recursiveFindTaskByType_self_reference_witness :
  recursiveFindTaskByType 7 [buildA; selfLabelled] "docker-build"
    (Some (OfTask selfLabelled)) = OutOfFuel
  /\ recursiveFindTaskByType 7 [selfTyped; buildA] "docker-build"
       (Some (OfTask selfTyped)) = OutOfFuel.
Proof.
  split.
  - apply (proj1 (recursiveFindTaskByType_self_reference [buildA; selfLabelled]
                    "docker-build" selfLabelled ltac:(discriminate)) "S" ["A"]);
      reflexivity.
  - apply (proj2 (recursiveFindTaskByType_self_reference [selfTyped; buildA]
                    "docker-build" selfTyped ltac:(discriminate)) (Some "shell"));
      reflexivity.
Defined.

(** X7.  References that resolve to no task are passed over without
    failing: the search returns [undefined] from a node whose
    [preLaunchTask] names no task, from a node of another type whose
    [dependsOn] labels name no task (an empty list among them) or whose
    [dependsOn] type has no task, and from a node of another type without
    [dependsOn]. *)
Theorem recursiveFindTaskByType_dangling :
  forall (allTasks : list TaskDefinitionBase) (type : string) (node : ConfigNode)
         (fuel : nat),
    2 <= fuel ->
    (forall l,
       truthyValue (nodePreLaunchTask node) = Some l ->
       findTaskByLabel allTasks l = None ->
       recursiveFindTaskByType fuel allTasks type (Some node) = Returned None)
    /\ (truthyValue (nodePreLaunchTask node) = None ->
        nodeType node <> Some type ->
        (forall labels,
           nodeDependsOn node = Some (DependsOnLabels labels) ->
           (forall l, l ∈ labels -> findTaskByLabel allTasks l = None) ->
           recursiveFindTaskByType fuel allTasks type (Some node) = Returned None)
        /\ (forall nextType,
             nodeDependsOn node = Some (DependsOnType nextType) ->
             findTaskByType allTasks nextType = None ->
             recursiveFindTaskByType fuel allTasks type (Some node) = Returned None)
        /\ (nodeDependsOn node = None ->
             recursiveFindTaskByType fuel allTasks type (Some node) = Returned None)).
Proof.
  intros allTasks type node fuel Hfuel.
  assert (Hmono : recursiveFindTaskByType 2 allTasks type (Some node) = Returned None ->
                  recursiveFindTaskByType fuel allTasks type (Some node) = Returned None).
  { apply recursiveFindTaskByType_mono, Hfuel. }
  split.
  - intros l Hpre Hfind. apply Hmono. cbn [recursiveFindTaskByType].
    rewrite Hpre, Hfind. reflexivity.
  - intros Hpre Hty. split; [|split].
    + intros labels Hdep Hnone. apply Hmono.
      rewrite recursiveFindTaskByType_dependsOn, Hdep by assumption.
      apply forEachLabel_none. intros l Hl. rewrite (Hnone l Hl). reflexivity.
    + intros nextType Hdep Hnone. apply Hmono.
      rewrite recursiveFindTaskByType_dependsOn, Hdep, Hnone by assumption. reflexivity.
    + intros Hdep. apply Hmono.
      rewrite recursiveFindTaskByType_dependsOn, Hdep by assumption. reflexivity.
Qed.

Lemma recursiveFindTaskByType_dangling_witness :
  recursiveFindTaskByType 3 [buildA] "docker-build" (Some (OfDebugConfiguration launchB))
  = Returned None.
Proof.
  apply (proj1 (recursiveFindTaskByType_dangling [buildA] "docker-build"
                  (OfDebugConfiguration launchB) 3 ltac:(lia)) "B");
    reflexivity.
Defined.

(** X8.  A [dependsOn] that refers to the type looked for resolves to the
    first task of that type: from a node of another type without
    [preLaunchTask], the search returns that task, or [undefined] when
    there is none. *)
Theorem recursiveFindTaskByType_type_reference :
  forall (allTasks : list TaskDefinitionBase) (type : string) (node : ConfigNode)
         (fuel : nat),
    2 <= fuel ->
    truthyValue (nodePreLaunchTask node) = None ->
    nodeType node <> Some type ->
    nodeDependsOn node = Some (DependsOnType (Some type)) ->
    recursiveFindTaskByType fuel allTasks type (Some node) =
    Returned (OfTask <$> findTaskByType allTasks (Some type)).
Proof.
  intros allTasks type node fuel Hfuel Hpre Hty Hdep.
  apply (recursiveFindTaskByType_mono allTasks type 2 fuel); [exact Hfuel|].
  rewrite recursiveFindTaskByType_dependsOn, Hdep by assumption.
  destruct (findTaskByType allTasks (Some type)) as [t|] eqn:Hfind; [|reflexivity].
  cbn [fmap option_fmap option_map recursiveFindTaskByType nodePreLaunchTask truthyValue
       nodeType].
  unfold findTaskByType in Hfind. apply fmap_Some in Hfind.
  destruct Hfind as ([i x] & Hfind & ->). apply list_find_Some in Hfind.
  destruct Hfind as (_ & Hx & _). cbn [snd]. rewrite Hx.
  rewrite (proj2 (strictEq_spec _ _) eq_refl). reflexivity.
Qed.

Lemma recursiveFindTaskByType_type_reference_witness :
  recursiveFindTaskByType 2 [selfTyped; buildA] "docker-build"
    (Some (OfTask (sampleTask "docker-run" "R" (Some (DependsOnType (Some "docker-build"))))))
  = Returned (Some (OfTask buildA)).
Proof.
  apply (recursiveFindTaskByType_type_reference [selfTyped; buildA] "docker-build"
           (OfTask (sampleTask "docker-run" "R" (Some (DependsOnType (Some "docker-build")))))
           2); [lia|reflexivity|discriminate|reflexivity].
Defined.

(** X9.  [getAssociatedDockerBuildTask] returns [undefined] when no task
    has the name of the run task as its label, and otherwise only ever a
    configured task of type docker-build.  [getAssociatedDockerRunTask]
    returns only a node of type docker-run: a configured task, or the debug
    configuration itself when that has no [preLaunchTask]; with no task
    configured it returns [undefined] for a configuration of another
    type. *)
Theorem getAssociated_tasks_sound :
  forall (workspaceTasks : TasksConfiguration),
    (forall fuel runTask,
       1 <= fuel ->
       findTaskByLabel (tasksOf workspaceTasks) (name runTask) = None ->
       getAssociatedDockerBuildTask fuel workspaceTasks runTask = Returned None)
    /\ (forall fuel runTask found,
         getAssociatedDockerBuildTask fuel workspaceTasks runTask = Returned (Some found) ->
         exists t, found = OfTask t /\ t ∈ tasksOf workspaceTasks
                   /\ TaskDef.type t = Some "docker-build")
    /\ (forall fuel c found,
         getAssociatedDockerRunTask fuel workspaceTasks c = Returned (Some found) ->
         nodeType found = Some "docker-run"
         /\ ((found = OfDebugConfiguration c
              /\ truthyValue (DebugConfig.preLaunchTask c) = None)
             \/ exists t, found = OfTask t /\ t ∈ tasksOf workspaceTasks))
    /\ (forall fuel c,
         2 <= fuel ->
         tasksOf workspaceTasks = [] ->
         DebugConfig.type c <> Some "docker-run" ->
         getAssociatedDockerRunTask fuel workspaceTasks c = Returned None).
Proof.
  intros workspaceTasks. unfold getAssociatedDockerBuildTask, getAssociatedDockerRunTask.
  cbv zeta. split; [|split; [|split]].
  - intros fuel runTask Hfuel Hnone. rewrite Hnone.
    destruct fuel; [lia|reflexivity].
  - intros fuel runTask found Hr.
    apply recursiveFindTaskByType_sound in Hr. destruct Hr as (Hty & _ & [Hstart|Ht]).
    + destruct (findTaskByLabel (tasksOf workspaceTasks) (name runTask)) as [t|] eqn:Hf;
        [|discriminate Hstart].
      injection Hstart as <-. exists t. split; [reflexivity|]. split; [|exact Hty].
      eapply findTaskByLabel_elem_of, Hf.
    + destruct Ht as (t & -> & Hin). exists t. auto.
  - intros fuel c found Hr.
    apply recursiveFindTaskByType_sound in Hr. destruct Hr as (Hty & Hpre & [Hstart|Ht]).
    + injection Hstart as <-. split; [exact Hty|]. left. split; [reflexivity|exact Hpre].
    + split; [exact Hty|]. right. exact Ht.
  - intros fuel c Hfuel Hempty Hty. rewrite Hempty.
    destruct (truthyValue (nodePreLaunchTask (OfDebugConfiguration c))) as [l|] eqn:Hpre.
    + apply (recursiveFindTaskByType_mono [] "docker-run" 2 fuel); [exact Hfuel|].
      cbn [recursiveFindTaskByType]. rewrite Hpre. reflexivity.
    + apply (recursiveFindTaskByType_mono [] "docker-run" 1 fuel); [lia|].
      rewrite recursiveFindTaskByType_dependsOn by assumption. reflexivity.
Qed.

Lemma getAssociated_tasks_sound_witness :
  getAssociatedDockerBuildTask 4 (configured [buildA; runB]) (taskNamed "missing")
  = Returned None.
Proof.
  apply (proj1 (getAssociated_tasks_sound (configured [buildA; runB])) 4
           (taskNamed "missing")); [lia|reflexivity].
Defined.

(** ** Adding tasks *)

Section ListFind.

Context {A : Type} (P : A -> Prop) `{forall x, Decision (P x)}.

Lemma list_find_insert_same (l : list A) (i : nat) (old new : A) :
  l !! i = Some old -> ~ P old -> ~ P new ->
  list_find P (<[i := new]> l) = list_find P l.
Proof.
  revert i. induction l as [|a l IH]; intros i Hi Hold Hnew; [reflexivity|].
  destruct i as [|i].
  - change ((a :: l) !! 0) with (Some a) in Hi. injection Hi as ->.
    change (<[0 := new]> (old :: l)) with (new :: l). cbn [list_find].
    destruct (decide (P new)), (decide (P old)); try contradiction. reflexivity.
  - change ((a :: l) !! S i) with (l !! i) in Hi.
    change (<[S i := new]> (a :: l)) with (a :: <[i := new]> l). cbn [list_find].
    destruct (decide (P a)); [reflexivity|].
    rewrite (IH i Hi Hold Hnew). reflexivity.
Qed.

Lemma list_find_snoc_same (l : list A) (new : A) :
  ~ P new -> list_find P (l ++ [new]) = list_find P l.
Proof.
  intros Hnew. induction l as [|a l IH]; cbn [app list_find].
  - destruct (decide (P new)); [contradiction|reflexivity].
  - destruct (decide (P a)); [reflexivity|]. rewrite IH. reflexivity.
Qed.

Lemma list_find_insert_first (l : list A) (i : nat) (old new : A) :
  list_find P l = Some (i, old) -> P new ->
  list_find P (<[i := new]> l) = Some (i, new).
Proof.
  intros Hfind Hnew. apply list_find_Some in Hfind. destruct Hfind as (Hi & _ & Hmin).
  apply list_find_Some. split; [|split; [exact Hnew|]].
  - apply list_lookup_insert_eq. eapply lookup_lt_Some, Hi.
  - intros j y Hj Hlt. rewrite list_lookup_insert_ne in Hj by lia. eapply Hmin; eassumption.
Qed.

Lemma list_find_snoc_first (l : list A) (new : A) :
  list_find P l = None -> P new -> list_find P (l ++ [new]) = Some (length l, new).
Proof.
  intros Hnone Hnew. apply list_find_None in Hnone. rewrite Forall_forall in Hnone.
  apply list_find_Some. split; [|split; [exact Hnew|]].
  - apply list_lookup_middle. reflexivity.
  - intros j y Hj Hlt. rewrite lookup_app_l in Hj by exact Hlt.
    apply Hnone. eapply list_elem_of_lookup_2, Hj.
Qed.

End ListFind.

(** What [addTask] does, by cases on the first task with the label. *)
Lemma addTask_cases (newTask : TaskDefinitionBase) (overwrite : option bool)
    (w : TasksConfiguration) :
  (exists i old,
     list_find (fun t => TaskDef.label t = TaskDef.label newTask) (tasksOf w) = Some (i, old)
     /\ ((overwrite = Some true
          /\ addTask newTask overwrite w = (true, update (<[i := newTask]> (tasksOf w)) w))
         \/ (overwrite <> Some true /\ addTask newTask overwrite w = (false, w))))
  \/ (list_find (fun t => TaskDef.label t = TaskDef.label newTask) (tasksOf w) = None
      /\ addTask newTask overwrite w = (true, update (tasksOf w ++ [newTask]) w)).
Proof.
  unfold addTask.
  destruct (list_find (fun t => TaskDef.label t = TaskDef.label newTask) (tasksOf w))
    as [[i old]|] eqn:Hfind; [left|right; auto].
  exists i, old. split; [reflexivity|].
  destruct overwrite as [[]|]; cbn; [left|right..]; split; congruence.
Qed.

(** X10.  After [addTask] answers [true], looking the label of the new
    task up gives the new task; after it answers [false], the configuration
    is the one before and the label is still held by another stored
    task. *)
Theorem addTask_then_find :
  forall (newTask : TaskDefinitionBase) (overwrite : option bool)
         (w : TasksConfiguration) (l : string),
    TaskDef.label newTask = Some l ->
    (fst (addTask newTask overwrite w) = true ->
     findTaskByLabel (tasksOf (snd (addTask newTask overwrite w))) l = Some newTask)
    /\ (fst (addTask newTask overwrite w) = false ->
        snd (addTask newTask overwrite w) = w
        /\ exists old, findTaskByLabel (tasksOf w) l = Some old).
Proof.
  intros newTask overwrite w l Hl. unfold findTaskByLabel. rewrite <- Hl.
  destruct (addTask_cases newTask overwrite w)
    as [(i & old & Hfind & [[_ ->]|[_ ->]])|[Hfind ->]]; cbn [fst snd].
  - split; [intros _|discriminate].
    change (tasksOf (update (<[i:=newTask]> (tasksOf w)) w))
      with (<[i:=newTask]> (tasksOf w)).
    rewrite (list_find_insert_first _ _ i old newTask Hfind eq_refl). reflexivity.
  - split; [discriminate|intros _]. split; [reflexivity|].
    exists old. rewrite Hfind. reflexivity.
  - split; [intros _|discriminate].
    change (tasksOf (update (tasksOf w ++ [newTask]) w)) with (tasksOf w ++ [newTask]).
    rewrite (list_find_snoc_first _ _ newTask Hfind eq_refl). reflexivity.
Qed.

Lemma addTask_then_find_witness :
  findTaskByLabel
    (tasksOf (snd (addTask (sampleTask "shell" "A" None) (Some true)
                     (configured [buildA; runB])))) "A"
  = Some (sampleTask "shell" "A" None).
Proof.
  apply (proj1 (addTask_then_find (sampleTask "shell" "A" None) (Some true)
                  (configured [buildA; runB]) "A" eq_refl)).
  reflexivity.
Defined.

(** X11.  [addTask] touches one label only: the task found for any other
    label is the same before and after, and the list keeps its length or
    grows by the new task. *)
Theorem addTask_other_labels :
  forall (newTask : TaskDefinitionBase) (overwrite : option bool)
         (w : TasksConfiguration),
    (forall l, TaskDef.label newTask <> Some l ->
       findTaskByLabel (tasksOf (snd (addTask newTask overwrite w))) l
       = findTaskByLabel (tasksOf w) l)
    /\ (length (tasksOf (snd (addTask newTask overwrite w))) = length (tasksOf w)
        \/ ((TaskDef.label newTask ∉ labelsOf w)
            /\ tasksOf (snd (addTask newTask overwrite w)) = tasksOf w ++ [newTask])).
Proof.
  intros newTask overwrite w.
  destruct (addTask_cases newTask overwrite w)
    as [(i & old & Hfind & [[_ ->]|[_ ->]])|[Hfind ->]]; cbn [fst snd].
  - change (tasksOf (update (<[i:=newTask]> (tasksOf w)) w))
      with (<[i:=newTask]> (tasksOf w)).
    split; [|left; apply length_insert].
    intros l Hl. unfold findTaskByLabel.
    apply list_find_Some in Hfind. destruct Hfind as (Hi & Hold & _).
    rewrite (list_find_insert_same _ _ i old newTask Hi); [reflexivity| |exact Hl].
    rewrite Hold. exact Hl.
  - split; [reflexivity|left; reflexivity].
  - change (tasksOf (update (tasksOf w ++ [newTask]) w)) with (tasksOf w ++ [newTask]).
    split.
    + intros l Hl. unfold findTaskByLabel.
      rewrite (list_find_snoc_same _ _ newTask Hl). reflexivity.
    + right. split; [|reflexivity]. unfold labelsOf. intros Hin.
      apply list_elem_of_fmap in Hin. destruct Hin as (t & Ht & Hin).
      apply list_find_None in Hfind. rewrite Forall_forall in Hfind.
      apply (Hfind t Hin). congruence.
Qed.

Lemma addTask_other_labels_witness :
  findTaskByLabel
    (tasksOf (snd (addTask (sampleTask "shell" "A" None) (Some true)
                     (configured [buildA; runB])))) "B"
  = findTaskByLabel (tasksOf (configured [buildA; runB])) "B".
Proof.
  apply (proj1 (addTask_other_labels (sampleTask "shell" "A" None) (Some true)
                  (configured [buildA; runB])) "B").
  discriminate.
Defined.

Lemma addTask_label_stored (newTask : TaskDefinitionBase) (overwrite : option bool)
    (w : TasksConfiguration) :
  TaskDef.label newTask ∈ labelsOf (snd (addTask newTask overwrite w)).
Proof.
  unfold labelsOf.
  destruct (addTask_cases newTask overwrite w)
    as [(i & old & Hfind & [[_ ->]|[_ ->]])|[Hfind ->]]; cbn [fst snd].
  - change (tasksOf (update (<[i:=newTask]> (tasksOf w)) w))
      with (<[i:=newTask]> (tasksOf w)).
    apply list_find_Some in Hfind. destruct Hfind as (Hi & _ & _).
    apply list_elem_of_fmap_2. eapply list_elem_of_lookup_2.
    apply list_lookup_insert_eq. eapply lookup_lt_Some, Hi.
  - apply list_find_Some in Hfind. destruct Hfind as (Hi & Hold & _).
    rewrite <- Hold. apply list_elem_of_fmap_2. eapply list_elem_of_lookup_2, Hi.
  - change (tasksOf (update (tasksOf w ++ [newTask]) w)) with (tasksOf w ++ [newTask]).
    apply list_elem_of_fmap_2, elem_of_app. right. left.
Qed.

Lemma addTask_rejected (newTask : TaskDefinitionBase) (w : TasksConfiguration) :
  TaskDef.label newTask ∈ labelsOf w -> addTask newTask None w = (false, w).
Proof.
  intros Hin. unfold labelsOf in Hin. apply list_elem_of_fmap in Hin.
  destruct Hin as (t & Ht & Hin).
  destruct (addTask_cases newTask None w)
    as [(i & old & Hfind & [[Hov _]|[_ ->]])|[Hfind _]];
    [discriminate Hov|reflexivity|].
  apply list_find_None in Hfind. rewrite Forall_forall in Hfind.
  exfalso. apply (Hfind t Hin). congruence.
Qed.

(** X12.  Once a task was handed to [addTask], with or without
    [overwrite], handing it over again without [overwrite] is rejected and
    writes nothing: a task is not stored twice. *)
Theorem addTask_again_rejected :
  forall (newTask : TaskDefinitionBase) (overwrite : option bool)
         (w : TasksConfiguration),
    addTask newTask None (snd (addTask newTask overwrite w))
    = (false, snd (addTask newTask overwrite w)).
Proof.
  intros newTask overwrite w. apply addTask_rejected, addTask_label_stored.
Qed.

Lemma addTask_labels (newTask : TaskDefinitionBase) (overwrite : option bool)
    (w : TasksConfiguration) :
  labelsOf (snd (addTask newTask overwrite w)) = labelsOf w
  \/ ((TaskDef.label newTask ∉ labelsOf w)
      /\ labelsOf (snd (addTask newTask overwrite w)) = labelsOf w ++ [TaskDef.label newTask]).
Proof.
  unfold labelsOf.
  destruct (addTask_cases newTask overwrite w)
    as [(i & old & Hfind & [[_ ->]|[_ ->]])|[Hfind ->]]; cbn [fst snd].
  - left. change (tasksOf (update (<[i:=newTask]> (tasksOf w)) w))
      with (<[i:=newTask]> (tasksOf w)).
    apply list_find_Some in Hfind. destruct Hfind as (Hi & Hold & _).
    rewrite list_fmap_insert. apply list_insert_id.
    rewrite list_lookup_fmap, Hi. cbn. congruence.
  - left. reflexivity.
  - right. change (tasksOf (update (tasksOf w ++ [newTask]) w)) with (tasksOf w ++ [newTask]).
    split; [|rewrite fmap_app; reflexivity].
    intros Hin. apply list_elem_of_fmap in Hin. destruct Hin as (t & Ht & Hin).
    apply list_find_None in Hfind. rewrite Forall_forall in Hfind.
    apply (Hfind t Hin). congruence.
Qed.

(** X13.  [addTask] keeps the labels of the stored tasks distinct: when no
    two stored tasks share a label, none do afterwards, and the labels that
    were stored stay where they were. *)
Theorem addTask_keeps_labels_distinct :
  forall (newTask : TaskDefinitionBase) (overwrite : option bool)
         (w : TasksConfiguration),
    NoDup (labelsOf w) ->
    NoDup (labelsOf (snd (addTask newTask overwrite w)))
    /\ exists added, labelsOf (snd (addTask newTask overwrite w)) = labelsOf w ++ added.
Proof.
  intros newTask overwrite w Hnd.
  destruct (addTask_labels newTask overwrite w) as [->|[Hnew ->]].
  - split; [exact Hnd|]. exists []. rewrite app_nil_r. reflexivity.
  - split; [|eexists; reflexivity]. apply NoDup_app. split; [exact Hnd|]. split.
    + intros l Hl Hl'. apply list_elem_of_singleton in Hl'. subst l. contradiction.
    + apply NoDup_singleton.
Qed.

Lemma addTask_keeps_labels_distinct_witness :
  NoDup (labelsOf (snd (addTask (sampleTask "shell" "C" None) None
                          (configured [buildA; runB])))).
Proof.
  apply (addTask_keeps_labels_distinct (sampleTask "shell" "C" None) None
           (configured [buildA; runB])).
  vm_compute. repeat constructor; intros Hin; inversion Hin; subst;
    try discriminate; match goal with H : _ ∈ _ |- _ => inversion H end.
Defined.

(** ** Scaffolding tasks *)




(** ** The build task of a Dockerfile *)

Lemma filterTasks_filter (env : Surroundings) (dockerfile : string)
    (folder : WorkspaceFolder) (ts : list Task) :
  (forall t, t ∈ ts -> execution t <> None) ->
  filterTasks (mentionsDockerfile env dockerfile folder) ts
  = Ok (List.filter (hasDockerfileArgument env dockerfile folder) ts).
Proof.
  induction ts as [|t ts IH]; intros Hexec; [reflexivity|].
  cbn [filterTasks List.filter].
  rewrite IH by (intros t' Ht'; apply Hexec; right; exact Ht').
  unfold mentionsDockerfile, hasDockerfileArgument.
  destruct (execution t) as [e|] eqn:He; [reflexivity|].
  exfalso. apply (Hexec t); [left|exact He].
Qed.

Lemma findTaskByName_elem_of (ts : list Task) (n : string) (t : Task) :
  findTaskByName ts n = Some t -> t ∈ ts /\ name t = n.
Proof.
  unfold findTaskByName. intros H. apply find_some in H. destruct H as [Hin Hn].
  split; [apply list_elem_of_In, Hin|]. apply String.eqb_eq, Hn.
Qed.

(** X15.  Of the fetched docker-build tasks, [getOfficialBuildTaskForDockerfile]
    considers those that have the Dockerfile among their arguments, paths
    resolved and case ignored.  None gives [undefined] and one gives that
    task, without asking; several give the first one named
    docker-build: release when there is one, and otherwise the first one
    with the name picked by the user.  A task it returns is always one of
    those considered. *)
Theorem getOfficialBuildTaskForDockerfile_choice :
  forall (env : Surroundings) (dockerfile : string) (folder : WorkspaceFolder),
    (forall t, t ∈ fetchTasks env "docker-build" -> execution t <> None) ->
    let candidates :=
      List.filter (hasDockerfileArgument env dockerfile folder)
        (fetchTasks env "docker-build") in
    let result := getOfficialBuildTaskForDockerfile env dockerfile folder in
    (candidates = [] -> result = Ok None)
    /\ (forall t, candidates = [t] -> result = Ok (Some t))
    /\ (2 <= length candidates ->
        (forall release,
           findTaskByName candidates "docker-build: release" = Some release ->
           result = Ok (Some release))
        /\ (findTaskByName candidates "docker-build: release" = None ->
            result = match showQuickPick env (name <$> candidates) with
                     | Ok item => Ok (findTaskByName candidates item)
                     | Throw e => Throw e
                     end))
    /\ (forall t, result = Ok (Some t) ->
         t ∈ fetchTasks env "docker-build"
         /\ hasDockerfileArgument env dockerfile folder t = true).
Proof.
  intros env dockerfile folder Hexec candidates result.
  assert (Hin : forall t, t ∈ candidates ->
                  t ∈ fetchTasks env "docker-build"
                  /\ hasDockerfileArgument env dockerfile folder t = true).
  { intros t Ht. apply list_elem_of_In, filter_In in Ht. destruct Ht as [Ht Hm].
    split; [apply list_elem_of_In, Ht|exact Hm]. }
  subst result. unfold getOfficialBuildTaskForDockerfile. cbv zeta.
  rewrite (filterTasks_filter env dockerfile folder _ Hexec). fold candidates.
  split; [|split; [|split]].
  - intros ->. reflexivity.
  - intros t ->. reflexivity.
  - intros Hlen.
    destruct (Nat.eqb_spec (length candidates) 1) as [E|_]; [lia|].
    destruct (Nat.ltb_spec 1 (length candidates)) as [_|E]; [|lia].
    split.
    + intros release ->. reflexivity.
    + intros ->. reflexivity.
  - intros t.
    destruct (Nat.eqb_spec (length candidates) 1) as [E|_].
    { destruct candidates as [|t0 [|t1 rest]] eqn:Hc; try discriminate E.
      cbn [head]. intros [= <-]. apply Hin. left. }
    destruct (Nat.ltb_spec 1 (length candidates)) as [_|_]; [|discriminate].
    destruct (findTaskByName candidates "docker-build: release") as [release|] eqn:Hr.
    { intros [= <-]. apply Hin. eapply findTaskByName_elem_of, Hr. }
    destruct (showQuickPick env (name <$> candidates)) as [item|e]; [|discriminate].
    intros [= Hf]. apply Hin. eapply findTaskByName_elem_of, Hf.
Qed.

Lemma getOfficialBuildTaskForDockerfile_choice_witness :
  getOfficialBuildTaskForDockerfile sampleSurroundings "Dockerfile" "app"
  = Ok (Some (builds "docker-build: release" "Dockerfile")).
Proof.
  assert (Hexec : forall t, t ∈ fetchTasks sampleSurroundings "docker-build" ->
                    execution t <> None).
  { intros t Ht. vm_compute in Ht.
    repeat (apply elem_of_cons in Ht; destruct Ht as [->|Ht]; [discriminate|]).
    inversion Ht. }
  apply (proj1 (proj2 (proj2 (getOfficialBuildTaskForDockerfile_choice sampleSurroundings
                                "Dockerfile" "app" Hexec))));
    [vm_compute; lia|reflexivity].
Defined.

(** ** Resolution of a task, step by step *)

Lemma cloneObject_run (st : Store) (l : loc) (d : TaskDefinitionBase) :
  st !! l = Some d -> cloneObject l st = (Ok (length st), st ++ [d]).
Proof. intros H. unfold cloneObject. rewrite H. reflexivity. Qed.

Lemma readProperty_clone {A : Type} (st : Store) (d : TaskDefinitionBase)
    (p : TaskDefinitionBase -> A) :
  readProperty (length st) p (st ++ [d]) = (Ok (p d), st ++ [d]).
Proof.
  unfold readProperty. rewrite (list_lookup_middle st [] d (length st) eq_refl).
  reflexivity.
Qed.

Lemma writeProperty_clone (st : Store) (d : TaskDefinitionBase)
    (set : TaskDefinitionBase -> TaskDefinitionBase) :
  writeProperty (length st) set (st ++ [d]) = (Ok tt, st ++ [set d]).
Proof.
  unfold writeProperty. rewrite (list_lookup_middle st [] d (length st) eq_refl).
  f_equal. rewrite <- (Nat.add_0_r (length st)), insert_app_r. reflexivity.
Qed.

(** Running the primitives on the clone, one after the other. *)
Ltac run_clone :=
  repeat (first [ rewrite readProperty_clone | rewrite writeProperty_clone ];
          cbv beta iota).

(** The resolution of a docker-build task in closed form: the store gains
    the clone and nothing else. *)
Lemma build_resolveTaskInternal_run
    (this : DockerBuildTaskProvider.DockerBuildTaskProvider) (task : DockerBuildTask)
    (taskPlatform : option DockerPlatform) (st : Store) (d : TaskDefinitionBase) :
  st !! definition task = Some d ->
  let options := default BuildOptions.empty (TaskDef.dockerBuild d) in
  let helped (helper : PlatformTaskHelper) (bag : option OptionsBag) (folder : WorkspaceFolder) :=
    match resolveDockerBuildOptions helper folder options bag with
    | Ok resolved =>
        (Ok (executing task (DockerBuildTaskProvider.resolveCommandLine resolved)),
         st ++ [setDockerBuild (Some resolved) d])
    | Throw e => (Throw e, st ++ [setDockerBuild (Some options) d])
    end in
  DockerBuildTaskProvider.resolveTaskInternal this task taskPlatform st =
  match scope task, taskPlatform with
  | None, _ =>
      (Throw (mkError ("Unable to determine task scope to execute docker-build task '"
                       +:+ name task +:+ "'.")),
       st ++ [setDockerBuild (Some options) d])
  | Some folder, None =>
      (Throw (mkError ("Unrecognized platform '" +:+ platformText (TaskDef.platform d)
                       +:+ "'.")),
       st ++ [setDockerBuild (Some options) d])
  | Some folder, Some PlatformNetCore =>
      helped (DockerBuildTaskProvider.netCoreTaskHelper this) (TaskDef.netCore d) folder
  | Some folder, Some PlatformNode =>
      helped (DockerBuildTaskProvider.nodeTaskHelper this) (TaskDef.node d) folder
  end.
Proof.
  intros Hd options helped. subst helped options.
  unfold DockerBuildTaskProvider.resolveTaskInternal, executing, bind, liftOutcome, ret,
    throw.
  rewrite (cloneObject_run st _ d Hd). cbv beta iota. run_clone.
  destruct (scope task) as [folder|]; [|reflexivity].
  destruct taskPlatform as [[]|]; run_clone;
    cbn [setDockerBuild TaskDef.dockerBuild TaskDef.netCore TaskDef.node TaskDef.platform];
    try reflexivity.
  - change (default BuildOptions.empty
              (Some (default BuildOptions.empty (TaskDef.dockerBuild d))))
      with (default BuildOptions.empty (TaskDef.dockerBuild d)).
    destruct (resolveDockerBuildOptions _ folder _ _) as [resolved|e]; [|reflexivity].
    run_clone. reflexivity.
  - change (default BuildOptions.empty
              (Some (default BuildOptions.empty (TaskDef.dockerBuild d))))
      with (default BuildOptions.empty (TaskDef.dockerBuild d)).
    destruct (resolveDockerBuildOptions _ folder _ _) as [resolved|e]; [|reflexivity].
    run_clone. reflexivity.
Qed.

(** The resolution of a docker-run task in closed form. *)
Lemma run_resolveTaskInternal_run
    (this : DockerRunTaskProvider.DockerRunTaskProvider) (task : DockerRunTask)
    (taskPlatform : option DockerPlatform) (st : Store) (d : TaskDefinitionBase) :
  st !! definition task = Some d ->
  let options := default RunOptions.empty (TaskDef.dockerRun d) in
  let helped (helper : PlatformTaskHelper) (bag : option OptionsBag) (folder : WorkspaceFolder) :=
    match resolveDockerRunOptions helper folder options bag with
    | Ok resolved =>
        (Ok (executing task (DockerRunTaskProvider.resolveCommandLine resolved)),
         st ++ [setDockerRun (Some resolved) d])
    | Throw e => (Throw e, st ++ [setDockerRun (Some options) d])
    end in
  DockerRunTaskProvider.resolveTaskInternal this task taskPlatform st =
  match scope task, taskPlatform with
  | None, _ =>
      (Throw (mkError ("Unable to determine task scope to execute docker-run task '"
                       +:+ name task +:+ "'.")),
       st ++ [setDockerRun (Some options) d])
  | Some folder, None =>
      (Throw (mkError ("Unrecognized platform '" +:+ platformText (TaskDef.platform d)
                       +:+ "'.")),
       st ++ [setDockerRun (Some options) d])
  | Some folder, Some PlatformNetCore =>
      helped (DockerRunTaskProvider.netCoreTaskHelper this) (TaskDef.netCore d) folder
  | Some folder, Some PlatformNode =>
      helped (DockerRunTaskProvider.nodeTaskHelper this) (TaskDef.node d) folder
  end.
Proof.
  intros Hd options helped. subst helped options.
  unfold DockerRunTaskProvider.resolveTaskInternal, executing, bind, liftOutcome, ret,
    throw.
  rewrite (cloneObject_run st _ d Hd). cbv beta iota. run_clone.
  destruct (scope task) as [folder|]; [|reflexivity].
  destruct taskPlatform as [[]|]; run_clone;
    cbn [setDockerRun TaskDef.dockerRun TaskDef.netCore TaskDef.node TaskDef.platform];
    try reflexivity.
  - change (default RunOptions.empty
              (Some (default RunOptions.empty (TaskDef.dockerRun d))))
      with (default RunOptions.empty (TaskDef.dockerRun d)).
    destruct (resolveDockerRunOptions _ folder _ _) as [resolved|e]; [|reflexivity].
    run_clone. reflexivity.
  - change (default RunOptions.empty
              (Some (default RunOptions.empty (TaskDef.dockerRun d))))
      with (default RunOptions.empty (TaskDef.dockerRun d)).
    destruct (resolveDockerRunOptions _ folder _ _) as [resolved|e]; [|reflexivity].
    run_clone. reflexivity.
Qed.

(** X16.  A task without scope is not resolved: the resolution of a
    docker-build or docker-run task throws the error that names the task,
    whatever the platform, and no platform helper decides the outcome. *)
Theorem resolveTaskInternal_without_scope :
  forall (build : DockerBuildTaskProvider.DockerBuildTaskProvider)
         (run : DockerRunTaskProvider.DockerRunTaskProvider) (task : Task)
         (taskPlatform : option DockerPlatform) (st : Store) (d : TaskDefinitionBase),
    st !! definition task = Some d ->
    scope task = None ->
    fst (DockerBuildTaskProvider.resolveTaskInternal build task taskPlatform st)
    = Throw (mkError ("Unable to determine task scope to execute docker-build task '"
                      +:+ name task +:+ "'."))
    /\ fst (DockerRunTaskProvider.resolveTaskInternal run task taskPlatform st)
       = Throw (mkError ("Unable to determine task scope to execute docker-run task '"
                         +:+ name task +:+ "'.")).
Proof.
  intros build run task taskPlatform st d Hd Hscope.
  rewrite (build_resolveTaskInternal_run build task taskPlatform st d Hd).
  rewrite (run_resolveTaskInternal_run run task taskPlatform st d Hd).
  rewrite Hscope. split; reflexivity.
Qed.

Lemma resolveTaskInternal_without_scope_witness :
  fst (DockerBuildTaskProvider.resolveTaskInternal sampleBuildProvider sampleUnscoped
         (Some PlatformNode) [sampleBuildTask None])
  = Throw (mkError "Unable to determine task scope to execute docker-build task 'build'.").
Proof.
  apply (resolveTaskInternal_without_scope sampleBuildProvider sampleRunProvider
           sampleUnscoped (Some PlatformNode) [sampleBuildTask None] (sampleBuildTask None));
    reflexivity.
Defined.

(** X17.  A scoped task whose platform is not recognised is not resolved:
    the resolution throws the error that quotes the [platform] property of
    the definition, 'undefined' when the definition has none, and no
    platform helper is consulted. *)
Theorem resolveTaskInternal_unrecognized_platform :
  forall (build : DockerBuildTaskProvider.DockerBuildTaskProvider)
         (run : DockerRunTaskProvider.DockerRunTaskProvider) (task : Task)
         (st : Store) (d : TaskDefinitionBase) (folder : WorkspaceFolder),
    st !! definition task = Some d ->
    scope task = Some folder ->
    fst (DockerBuildTaskProvider.resolveTaskInternal build task None st)
    = Throw (mkError ("Unrecognized platform '" +:+ platformText (TaskDef.platform d)
                      +:+ "'."))
    /\ fst (DockerRunTaskProvider.resolveTaskInternal run task None st)
       = Throw (mkError ("Unrecognized platform '" +:+ platformText (TaskDef.platform d)
                         +:+ "'."))
    /\ (TaskDef.platform d = None ->
        fst (DockerBuildTaskProvider.resolveTaskInternal build task None st)
        = Throw (mkError "Unrecognized platform 'undefined'.")).
Proof.
  intros build run task st d folder Hd Hscope.
  rewrite (build_resolveTaskInternal_run build task None st d Hd).
  rewrite (run_resolveTaskInternal_run run task None st d Hd).
  rewrite Hscope. split; [reflexivity|]. split; [reflexivity|].
  intros ->. reflexivity.
Qed.

Lemma resolveTaskInternal_unrecognized_platform_witness :
  fst (DockerRunTaskProvider.resolveTaskInternal sampleRunProvider sampleResolvable None
         [sampleRunTask None])
  = Throw (mkError "Unrecognized platform 'undefined'.").
Proof.
  apply (resolveTaskInternal_unrecognized_platform sampleBuildProvider sampleRunProvider
           sampleResolvable [sampleRunTask None] (sampleRunTask None) "app");
    reflexivity.
Defined.

(** X18.  A scoped docker-build task of the platform netCore is resolved by
    the netCore helper, which is handed the [dockerBuild] options of the
    definition, [{}] when it has none, and its [netCore] bag; one of the
    platform node by the node helper with the [node] bag.  When the helper
    throws, the resolution throws the same error.  When it returns, the
    resolved task is the given task with the execution [docker] and the
    rest of the command line of the returned options, and the store has
    gained one object, the clone carrying these options. *)
Theorem build_resolveTaskInternal_dispatch :
  forall (this : DockerBuildTaskProvider.DockerBuildTaskProvider) (task : Task)
         (platform : DockerPlatform) (st : Store) (d : TaskDefinitionBase)
         (folder : WorkspaceFolder),
    st !! definition task = Some d ->
    scope task = Some folder ->
    let helper :=
      match platform with
      | PlatformNetCore => DockerBuildTaskProvider.netCoreTaskHelper this
      | PlatformNode => DockerBuildTaskProvider.nodeTaskHelper this
      end in
    let bag :=
      match platform with
      | PlatformNetCore => TaskDef.netCore d
      | PlatformNode => TaskDef.node d
      end in
    let answer :=
      resolveDockerBuildOptions helper folder
        (default BuildOptions.empty (TaskDef.dockerBuild d)) bag in
    let result :=
      DockerBuildTaskProvider.resolveTaskInternal this task (Some platform) st in
    (forall e, answer = Throw e -> fst result = Throw e)
    /\ (forall resolved,
         answer = Ok resolved ->
         result =
           (Ok (executing task (DockerBuildTaskProvider.resolveCommandLine resolved)),
            st ++ [setDockerBuild (Some resolved) d])
         /\ exists args,
              execution (executing task (DockerBuildTaskProvider.resolveCommandLine resolved))
              = Some {| shellCommand := Some "docker";
                        shellArgs := "build" :: "--rm" :: args |}).
Proof.
  intros this task platform st d folder Hd Hscope helper bag answer result.
  subst result answer bag helper.
  rewrite (build_resolveTaskInternal_run this task (Some platform) st d Hd), Hscope.
  destruct platform; (split; [intros e ->; reflexivity|]);
    intros resolved ->; (split; [reflexivity|]);
    unfold executing, DockerBuildTaskProvider.resolveCommandLine,
      CommandLineBuilder.buildShellQuotedStrings, CommandLineBuilder.withQuotedArg,
      CommandLineBuilder.withNamedArg, CommandLineBuilder.withKeyValueArgs,
      CommandLineBuilder.withFlagArg, CommandLineBuilder.create;
    cbn [execution]; rewrite <- !app_assoc; eexists; reflexivity.
Qed.

Lemma build_resolveTaskInternal_dispatch_witness :
  exists st',
    DockerBuildTaskProvider.resolveTaskInternal sampleBuildProvider sampleResolvable
      (Some PlatformNode) [sampleBuildTask None]
    = (Ok (executing sampleResolvable ["docker"; "build"; "--rm"; "-t"; "app:latest"; "."]),
       st').
Proof.
  destruct (proj2 (build_resolveTaskInternal_dispatch sampleBuildProvider sampleResolvable
                     PlatformNode [sampleBuildTask None] (sampleBuildTask None) "app"
                     eq_refl eq_refl) _ eq_refl) as [Hresult _].
  eexists. exact Hresult.
Defined.

(** X19.  The same for a docker-run task: the helper of the platform is
    handed the [dockerRun] options of the definition, [{}] when it has
    none, and the bag of the platform; its error is the error of the
    resolution; and the resolved task runs [docker run -dt] followed by
    the arguments of the returned options, the store having gained the
    clone that carries them. *)
Theorem run_resolveTaskInternal_dispatch :
  forall (this : DockerRunTaskProvider.DockerRunTaskProvider) (task : Task)
         (platform : DockerPlatform) (st : Store) (d : TaskDefinitionBase)
         (folder : WorkspaceFolder),
    st !! definition task = Some d ->
    scope task = Some folder ->
    let helper :=
      match platform with
      | PlatformNetCore => DockerRunTaskProvider.netCoreTaskHelper this
      | PlatformNode => DockerRunTaskProvider.nodeTaskHelper this
      end in
    let bag :=
      match platform with
      | PlatformNetCore => TaskDef.netCore d
      | PlatformNode => TaskDef.node d
      end in
    let answer :=
      resolveDockerRunOptions helper folder
        (default RunOptions.empty (TaskDef.dockerRun d)) bag in
    let result :=
      DockerRunTaskProvider.resolveTaskInternal this task (Some platform) st in
    (forall e, answer = Throw e -> fst result = Throw e)
    /\ (forall resolved,
         answer = Ok resolved ->
         result =
           (Ok (executing task (DockerRunTaskProvider.resolveCommandLine resolved)),
            st ++ [setDockerRun (Some resolved) d])
         /\ exists args,
              execution (executing task (DockerRunTaskProvider.resolveCommandLine resolved))
              = Some {| shellCommand := Some "docker";
                        shellArgs := "run" :: "-dt" :: args |}).
Proof.
  intros this task platform st d folder Hd Hscope helper bag answer result.
  subst result answer bag helper.
  rewrite (run_resolveTaskInternal_run this task (Some platform) st d Hd), Hscope.
  destruct platform; (split; [intros e ->; reflexivity|]);
    intros resolved ->; (split; [reflexivity|]);
    unfold executing, DockerRunTaskProvider.resolveCommandLine,
      CommandLineBuilder.buildShellQuotedStrings, CommandLineBuilder.withArgs,
      CommandLineBuilder.withQuotedArg, CommandLineBuilder.withNamedArg,
      CommandLineBuilder.withArrayArgs, CommandLineBuilder.withKeyValueArgs,
      CommandLineBuilder.withFlagArg, CommandLineBuilder.create;
    cbn [execution]; rewrite <- !app_assoc; eexists; reflexivity.
Qed.

Lemma run_resolveTaskInternal_dispatch_witness :
  exists st',
    DockerRunTaskProvider.resolveTaskInternal sampleRunProvider sampleResolvable
      (Some PlatformNetCore) [sampleRunTask (Some "img")]
    = (Ok (executing sampleResolvable ["docker"; "run"; "-dt"; "-P"; "img"]), st').
Proof.
  destruct (proj2 (run_resolveTaskInternal_dispatch sampleRunProvider sampleResolvable
                     PlatformNetCore [sampleRunTask (Some "img")]
                     (sampleRunTask (Some "img")) "app" eq_refl eq_refl) _ eq_refl)
    as [Hresult _].
  eexists. exact Hresult.
Defined.

(** ** Command lines *)

Lemma named_tokens_context (value : option string) :
  match truthyValue value with Some v => [v] | None => [] end =
  match value with
  | Some c => if String.eqb c "" then [] else [c]
  | None => []
  end.
Proof. destruct value as [c|]; [|reflexivity]. cbn. destruct (String.eqb c ""); reflexivity. Qed.

(** X20.  The command line of docker-build is [docker build --rm], then
    [--pull] exactly when [pull] is true (an absent [pull] gives no flag),
    then the named arguments, which do not depend on [pull], and last the
    context when it is non-empty. *)
Theorem build_resolveCommandLine_shape :
  forall (o : DockerBuildOptions),
  exists named : list string,
    forall v : option bool,
      DockerBuildTaskProvider.resolveCommandLine (setPull v o) =
        ["docker"; "build"; "--rm"]
        ++ match v with Some true => ["--pull"] | _ => [] end
        ++ named
        ++ match BuildOptions.context o with
           | Some c => if String.eqb c "" then [] else [c]
           | None => []
           end.
Proof.
  intros o.
  exists (CommandLineBuilder.withNamedArg "--target" (BuildOptions.target o)
            (CommandLineBuilder.withNamedArg "-t" (BuildOptions.tag o)
               (CommandLineBuilder.withKeyValueArgs "--label" (BuildOptions.labels o)
                  (CommandLineBuilder.withKeyValueArgs "--build-arg" (BuildOptions.args o)
                     (CommandLineBuilder.withNamedArg "-f" (BuildOptions.dockerfile o) []))))).
  intros v. rewrite <- named_tokens_context.
  unfold DockerBuildTaskProvider.resolveCommandLine,
    CommandLineBuilder.buildShellQuotedStrings, CommandLineBuilder.withQuotedArg,
    CommandLineBuilder.withNamedArg, CommandLineBuilder.withKeyValueArgs,
    CommandLineBuilder.withFlagArg, CommandLineBuilder.create.
  cbn [setPull BuildOptions.args BuildOptions.context BuildOptions.dockerfile
       BuildOptions.labels BuildOptions.tag BuildOptions.target BuildOptions.pull].
  rewrite app_nil_l, <- !app_assoc.
  destruct v as [[]|]; reflexivity.
Qed.

(** X21.  The command line of docker-run ends with the image, when it is
    non-empty, followed by the command, split on white space when it is a
    string: every flag and named argument comes before them and does not
    depend on them. *)
Theorem run_resolveCommandLine_image_last :
  forall (o : DockerRunOptions),
  exists flags : list string,
    forall (i : option string) (c : option RunOptions.Command),
      DockerRunTaskProvider.resolveCommandLine (setImageAndCommand i c o) =
        ["docker"; "run"; "-dt"]
        ++ flags
        ++ match i with
           | Some image => if String.eqb image "" then [] else [image]
           | None => []
           end
        ++ match c with
           | Some (RunOptions.CommandString line) => String.words line
           | Some (RunOptions.CommandTokens tokens) => tokens
           | None => []
           end.
Proof.
  intros o.
  exists (drop 3 (DockerRunTaskProvider.resolveCommandLine (setImageAndCommand None None o))).
  intros i c. rewrite <- named_tokens_context.
  unfold DockerRunTaskProvider.resolveCommandLine,
    CommandLineBuilder.buildShellQuotedStrings, CommandLineBuilder.withArgs,
    CommandLineBuilder.withQuotedArg, CommandLineBuilder.withNamedArg,
    CommandLineBuilder.withArrayArgs, CommandLineBuilder.withKeyValueArgs,
    CommandLineBuilder.withFlagArg, CommandLineBuilder.create.
  change (DockerRunTaskProvider.publishAllPorts (setImageAndCommand i c o))
    with (DockerRunTaskProvider.publishAllPorts o).
  change (DockerRunTaskProvider.publishAllPorts (setImageAndCommand None None o))
    with (DockerRunTaskProvider.publishAllPorts o).
  cbn [setImageAndCommand RunOptions.command RunOptions.containerName
       RunOptions.entrypoint RunOptions.env RunOptions.envFiles RunOptions.extraHosts
       RunOptions.image RunOptions.labels RunOptions.network RunOptions.networkAlias
       RunOptions.ports RunOptions.volumes truthyValue].
  rewrite !app_nil_r, <- !app_assoc.
  change (drop 3 (["docker"; "run"; "-dt"] ++ ?x)) with x.
  rewrite <- !app_assoc. reflexivity.
Qed.

(** ** Resolution of a debug configuration *)

(** What [registerRemoveContainerAfterDebugging] does, by cases. *)
Lemma registerRemoveContainerAfterDebugging_cases
    (result : option DockerDebugConfiguration) (host : DebugHost) :
  (exists r,
     result = Some r
     /\ truthy (DebugConfig._containerNameToKill r) = true
     /\ DebugConfig.removeContainerAfterDebug r <> Some false
     /\ registerRemoveContainerAfterDebugging result host =
         (Some (setRemoveContainerAfterDebug (Some true) r),
          onDidTerminateDebugSession (setRemoveContainerAfterDebug (Some true) r) host))
  \/ ((result = None
       \/ exists r, result = Some r
                    /\ (truthy (DebugConfig._containerNameToKill r) = false
                        \/ DebugConfig.removeContainerAfterDebug r = Some false))
      /\ registerRemoveContainerAfterDebugging result host = (result, host)).
Proof.
  destruct result as [r|]; [|right; split; [left|]; reflexivity].
  destruct (truthy (DebugConfig._containerNameToKill r)) eqn:Hname.
  - destruct (DebugConfig.removeContainerAfterDebug r) as [[]|] eqn:Hflag.
    + left. exists r. split; [reflexivity|]. split; [exact Hname|].
      split; [rewrite Hflag; discriminate|].
      apply registerRemoveContainerAfterDebugging_armed; [exact Hname|].
      rewrite Hflag. discriminate.
    + right. split; [right; exists r; auto|].
      unfold registerRemoveContainerAfterDebugging. rewrite Hflag. reflexivity.
    + left. exists r. split; [reflexivity|]. split; [exact Hname|].
      split; [rewrite Hflag; discriminate|].
      apply registerRemoveContainerAfterDebugging_armed; [exact Hname|].
      rewrite Hflag. discriminate.
  - right. split; [right; exists r; auto|].
    unfold registerRemoveContainerAfterDebugging. rewrite Hname, andb_false_r.
    reflexivity.
Qed.

(** The ways out of [resolveDebugConfiguration]. *)
Lemma resolveDebugConfiguration_cases
    (this : DockerDebugConfigurationProvider) (folder : option WorkspaceFolder)
    (c : DockerDebugConfiguration) (host : DebugHost) :
  (determineDebugPlatform c = Unknown
   /\ resolveDebugConfiguration this folder c host =
       (Throw (mkError ("Unrecognized platform '" +:+
                        debugPlatformText (DebugConfig.platform c) +:+ "'.")), host))
  \/ (exists helper,
        helperFor this (determineDebugPlatform c) = Some helper
        /\ ((exists e, helperResolveDebugConfiguration helper folder c = Throw e
                       /\ resolveDebugConfiguration this folder c host = (Throw e, host))
            \/ (exists result,
                  helperResolveDebugConfiguration helper folder c = Ok result
                  /\ resolveDebugConfiguration this folder c host =
                      (Ok (fst (registerRemoveContainerAfterDebugging result host)),
                       snd (registerRemoveContainerAfterDebugging result host))))).
Proof.
  unfold resolveDebugConfiguration, resolveDebugConfigurationInternal.
  destruct (determineDebugPlatform c) eqn:Hp; [right|right|left; auto].
  - exists (netCoreDebugHelper this). split; [reflexivity|].
    destruct (helperResolveDebugConfiguration (netCoreDebugHelper this) folder c)
      as [result|e]; [right|left; eauto].
    exists result. split; [reflexivity|].
    destruct (registerRemoveContainerAfterDebugging result host). reflexivity.
  - exists (nodeDebugHelper this). split; [reflexivity|].
    destruct (helperResolveDebugConfiguration (nodeDebugHelper this) folder c)
      as [result|e]; [right|left; eauto].
    exists result. split; [reflexivity|].
    destruct (registerRemoveContainerAfterDebugging result host). reflexivity.
Qed.



(** X23.  No listener is registered, and the configuration comes back as
    the helper resolved it, when the helper returns [undefined], when the
    resolved configuration has no [_containerNameToKill] or an empty one,
    and when its [removeContainerAfterDebug] is false. *)
Theorem resolveDebugConfiguration_unarmed :
  forall (this : DockerDebugConfigurationProvider) (folder : option WorkspaceFolder)
         (c : DockerDebugConfiguration) (helper : DebugHelper)
         (result : option DockerDebugConfiguration) (host : DebugHost),
    helperFor this (determineDebugPlatform c) = Some helper ->
    helperResolveDebugConfiguration helper folder c = Ok result ->
    (result = None
     \/ exists r, result = Some r
                  /\ (truthy (DebugConfig._containerNameToKill r) = false
                      \/ DebugConfig.removeContainerAfterDebug r = Some false)) ->
    resolveDebugConfiguration this folder c host = (Ok result, host).
Proof.
  intros this folder c helper result host Hh Hres Hun.
  rewrite (resolveDebugConfiguration_resolved this folder c helper result host Hh Hres).
  destruct (registerRemoveContainerAfterDebugging_cases result host)
    as [(r & -> & Hname & Hflag & _)|[_ ->]]; [|reflexivity].
  exfalso. destruct Hun as [Hun|(r' & [= <-] & [Hn|Hf])]; congruence.
Qed.

Lemma resolveDebugConfiguration_unarmed_witness :
  resolveDebugConfiguration cancellingProvider None
    (sampleDebugConfiguration (Some Node) None None) emptyHost
  = (Ok None, emptyHost).
Proof.
  apply (resolveDebugConfiguration_unarmed cancellingProvider None
           (sampleDebugConfiguration (Some Node) None None) cancellingHelper None emptyHost);
    [reflexivity|reflexivity|left; reflexivity].
Defined.

(** X24.  [resolveDebugConfiguration] makes no [removeContainer] call and
    disposes of no listener.  It registers nothing, or one listener under a
    new disposable; the configuration that listener watches is the one
    returned, with [removeContainerAfterDebug] true and a non-empty
    [_containerNameToKill].  Distinct disposables stay distinct. *)
Theorem resolveDebugConfiguration_host :
  forall (this : DockerDebugConfigurationProvider) (folder : option WorkspaceFolder)
         (c : DockerDebugConfiguration) (host : DebugHost),
    let outcome := fst (resolveDebugConfiguration this folder c host) in
    let host' := snd (resolveDebugConfiguration this folder c host) in
    removals host' = removals host
    /\ (host' = host
        \/ exists r,
             outcome = Ok (Some r)
             /\ DebugConfig.removeContainerAfterDebug r = Some true
             /\ truthy (DebugConfig._containerNameToKill r) = true
             /\ listeners host' =
                 listeners host ++ [{| disposable := nextDisposable host; watched := r |}]
             /\ nextDisposable host' = S (nextDisposable host))
    /\ (wellFormed host -> wellFormed host').
Proof.
  intros this folder c host outcome host'. subst outcome host'.
  destruct (resolveDebugConfiguration_cases this folder c host)
    as [[_ ->]|(helper & _ & [(e & _ & ->)|(result & _ & ->)])]; cbn [fst snd];
    [split; [reflexivity|split; [left; reflexivity|auto]]..|].
  destruct (registerRemoveContainerAfterDebugging_cases result host)
    as [(r & -> & Hname & Hflag & ->)|[_ ->]]; cbn [fst snd];
    [|split; [reflexivity|split; [left; reflexivity|auto]]].
  split; [reflexivity|]. split; [|apply wellFormed_register].
  right. exists (setRemoveContainerAfterDebug (Some true) r).
  split; [reflexivity|]. split; [reflexivity|]. split; [exact Hname|].
  split; reflexivity.
Qed.

Lemma resolveDebugConfiguration_host_witness :
  wellFormed (snd (resolveDebugConfiguration sampleProvider None
                     (sampleDebugConfiguration (Some Node) None None) emptyHost)).
Proof.
  apply (proj2 (proj2 (resolveDebugConfiguration_host sampleProvider None
                         (sampleDebugConfiguration (Some Node) None None) emptyHost))).
  split; cbn; constructor.
Defined.

(** ** Termination of debug sessions *)

Lemma filter_none {A : Type} (P : A -> Prop) `{forall x, Decision (P x)} (l : list A) :
  (forall x, x ∈ l -> ~ P x) -> filter P l = [].
Proof.
  induction l as [|a l IH]; intros Hnone; [reflexivity|].
  rewrite filter_cons_False by (apply Hnone; left).
  apply IH. intros x Hx. apply Hnone. right. exact Hx.
Qed.

(** For a session that asks for the removal of a container, the listeners
    that are there for it are those that watch its container. *)
Lemma ownSession_watches (session : DockerDebugConfiguration) (l : Listener) :
  DebugConfig.removeContainerAfterDebug session = Some true ->
  truthy (DebugConfig._containerNameToKill session) = true ->
  ownSession session (watched l) <->
  watches (DebugConfig._containerNameToKill session) l.
Proof.
  intros Hflag Hname. unfold ownSession, watches. split.
  - intros (_ & He & _). symmetry. exact He.
  - intros Hw. rewrite Hw. auto.
Qed.

Lemma removals_of_watching (n : option string) (ls : list Listener) :
  (fun l => (DebugConfig._containerNameToKill (watched l), true))
    <$> filter (fun l => watches n l) ls
  = replicate (length (filter (fun l => watches n l) ls)) (n, true).
Proof.
  induction ls as [|l ls IH]; [reflexivity|].
  rewrite filter_cons. destruct (decide (watches n l)) as [Hw|_]; [|exact IH].
  cbn [fmap list_fmap length replicate]. rewrite Hw. f_equal. exact IH.
Qed.

(** X25.  When a session ends that asks for the removal of its container,
    the container is removed, by force, once for every listener that
    watches it, these listeners are disposed of, and the listeners that
    watch other containers stay registered, in their order.  When a
    session ends that does not ask for it, or carries no container name,
    nothing is removed and every listener stays. *)
Theorem terminateDebugSession_isolation :
  forall (client : DockerClient) (session : DockerDebugConfiguration) (host : DebugHost),
    wellFormed host ->
    let n := DebugConfig._containerNameToKill session in
    let host' := terminateDebugSession client session host in
    (DebugConfig.removeContainerAfterDebug session = Some true ->
     truthy n = true ->
     listeners host' = filter (fun l => ~ watches n l) (listeners host)
     /\ removals host' =
         removals host
         ++ replicate (length (filter (fun l => watches n l) (listeners host))) (n, true)
     /\ forall l, l ∈ listeners host -> ~ watches n l -> l ∈ listeners host')
    /\ (DebugConfig.removeContainerAfterDebug session <> Some true \/ truthy n = false ->
        listeners host' = listeners host /\ removals host' = removals host).
Proof.
  intros client session host Hwf n host'. subst host'.
  destruct (terminateDebugSession_spec client session host Hwf) as (Hl & Hr & _).
  split.
  - intros Hflag Hname.
    assert (Hkeep : filter (fun l => ~ ownSession session (watched l)) (listeners host)
                    = filter (fun l => ~ watches n l) (listeners host)).
    { apply list_filter_iff. intros l.
      rewrite (ownSession_watches session l Hflag Hname). reflexivity. }
    assert (Hgo : filter (fun l => ownSession session (watched l)) (listeners host)
                  = filter (fun l => watches n l) (listeners host)).
    { apply list_filter_iff. intros l. apply ownSession_watches; assumption. }
    rewrite Hl, Hr, Hkeep, Hgo. split; [reflexivity|]. split.
    + f_equal. apply removals_of_watching.
    + intros l Hin Hw. apply list_elem_of_filter. split; assumption.
  - intros Hno.
    assert (Hnone : forall l, l ∈ listeners host -> ~ ownSession session (watched l)).
    { intros l _ (Hflag & He & Hname). destruct Hno as [Hno|Hno]; [contradiction|].
      unfold n in Hno. rewrite He, Hname in Hno. discriminate Hno. }
    rewrite Hl, Hr. split.
    + apply filter_all. exact Hnone.
    + rewrite (filter_none _ _ Hnone). apply app_nil_r.
Qed.

Lemma terminateDebugSession_isolation_witness :
  listeners (terminateDebugSession failingClient (sampleSession "c1" (Some true)) twoSessions)
  = [{| disposable := 1; watched := sampleSession "c2" (Some true) |}]
  /\ removals (terminateDebugSession failingClient (sampleSession "c1" (Some true))
                twoSessions)
     = [(Some "c1", true)].
Proof.
  destruct (proj1 (terminateDebugSession_isolation failingClient
                     (sampleSession "c1" (Some true)) twoSessions
                     (wellFormed_register _ _ (wellFormed_register _ _ wellFormed_emptyHost)))
              eq_refl eq_refl) as (Hl & Hr & _).
  split; [exact Hl|exact Hr].
Defined.

(** X26.  A session that ends twice is handled once: after its
    termination no listener is left that is there for it, so a second
    termination event for the same session removes nothing and disposes of
    nothing. *)
Theorem terminateDebugSession_once :
  forall (client client' : DockerClient) (session : DockerDebugConfiguration)
         (host : DebugHost),
    wellFormed host ->
    let host' := terminateDebugSession client session host in
    (forall l, l ∈ listeners host' -> ~ ownSession session (watched l))
    /\ listeners (terminateDebugSession client' session host') = listeners host'
    /\ removals (terminateDebugSession client' session host') = removals host'.
Proof.
  intros client client' session host Hwf host'. subst host'.
  destruct (terminateDebugSession_spec client session host Hwf) as (Hl & _ & Hwf').
  destruct (terminateDebugSession_spec client' session _ Hwf') as (Hl' & Hr' & _).
  assert (Hnone : forall l, l ∈ listeners (terminateDebugSession client session host) ->
                    ~ ownSession session (watched l)).
  { intros l Hin. rewrite Hl in Hin. apply list_elem_of_filter in Hin. apply Hin. }
  split; [exact Hnone|]. rewrite Hl', Hr'. split.
  - apply filter_all. exact Hnone.
  - rewrite (filter_none _ _ Hnone). apply app_nil_r.
Qed.

Lemma terminateDebugSession_once_witness :
  removals (terminateDebugSession failingClient (sampleSession "c1" (Some true))
              (terminateDebugSession failingClient (sampleSession "c1" (Some true))
                 twoSessions))
  = [(Some "c1", true)].
Proof.
  destruct (terminateDebugSession_once failingClient failingClient
              (sampleSession "c1" (Some true)) twoSessions
              (wellFormed_register _ _ (wellFormed_register _ _ wellFormed_emptyHost)))
    as (_ & _ & Hr).
  exact Hr.
Defined.

(** X27.  Resolving and then ending the session: when the configuration
    resolves to one that arms the removal, the end of the session started
    with the returned configuration makes the forced removal of its
    container, as the last removal made, and leaves no listener for it;
    the listeners that were registered before for other containers are
    all still there. *)
Theorem resolve_then_terminate :
  forall (this : DockerDebugConfigurationProvider) (folder : option WorkspaceFolder)
         (c : DockerDebugConfiguration) (helper : DebugHelper)
         (r : DockerDebugConfiguration) (host : DebugHost) (client : DockerClient),
    wellFormed host ->
    helperFor this (determineDebugPlatform c) = Some helper ->
    helperResolveDebugConfiguration helper folder c = Ok (Some r) ->
    truthy (DebugConfig._containerNameToKill r) = true ->
    DebugConfig.removeContainerAfterDebug r <> Some false ->
    exists returned host',
      resolveDebugConfiguration this folder c host = (Ok (Some returned), host')
      /\ ownSession returned returned
      /\ (exists earlier,
            removals (terminateDebugSession client returned host') =
            removals host ++ earlier
            ++ [(DebugConfig._containerNameToKill returned, true)])
      /\ listeners (terminateDebugSession client returned host') =
          filter (fun l => ~ ownSession returned (watched l)) (listeners host)
      /\ (forall l, l ∈ listeners host ->
            ~ watches (DebugConfig._containerNameToKill returned) l ->
            l ∈ listeners (terminateDebugSession client returned host')).
Proof.
  intros this folder c helper r host client Hwf Hh Hres Hname Hflag.
  set (returned := setRemoveContainerAfterDebug (Some true) r).
  exists returned, (onDidTerminateDebugSession returned host).
  assert (Hown : ownSession returned returned).
  { unfold ownSession, returned. cbn. auto. }
  split.
  { rewrite (resolveDebugConfiguration_resolved this folder c helper (Some r) host Hh Hres).
    rewrite (registerRemoveContainerAfterDebugging_armed r host Hname Hflag). reflexivity. }
  split; [exact Hown|].
  destruct (terminateDebugSession_spec client returned
              (onDidTerminateDebugSession returned host) (wellFormed_register returned host Hwf))
    as (Hl & Hr & _).
  cbn [onDidTerminateDebugSession listeners removals] in Hl, Hr.
  rewrite filter_app in Hl, Hr.
  rewrite (filter_none (fun l => ~ ownSession returned (watched l))
             [{| disposable := nextDisposable host; watched := returned |}]) in Hl.
  2:{ intros l Hin Hno. apply list_elem_of_singleton in Hin. subst l. apply Hno. exact Hown. }
  rewrite (filter_all (fun l => ownSession returned (watched l))
             [{| disposable := nextDisposable host; watched := returned |}]) in Hr.
  2:{ intros l Hin. apply list_elem_of_singleton in Hin. subst l. exact Hown. }
  rewrite app_nil_r in Hl. rewrite fmap_app in Hr.
  split; [eexists; exact Hr|]. split; [exact Hl|].
  intros l Hin Hw. rewrite Hl. apply list_elem_of_filter. split; [|exact Hin].
  intros (_ & He & _). apply Hw. unfold watches. symmetry. exact He.
Qed.

Lemma resolve_then_terminate_witness :
  exists returned host',
    resolveDebugConfiguration sampleProvider None
      (sampleDebugConfiguration (Some NetCore) None None) twoSessions
    = (Ok (Some returned), host')
    /\ ownSession returned returned.
Proof.
  destruct (resolve_then_terminate sampleProvider None
              (sampleDebugConfiguration (Some NetCore) None None) (sampleHelper "c1")
              (sampleSession "c1" None) twoSessions failingClient
              (wellFormed_register _ _ (wellFormed_register _ _ wellFormed_emptyHost))
              eq_refl eq_refl eq_refl ltac:(discriminate))
    as (returned & host' & Hres & Hown & _).
  exists returned, host'. split; [exact Hres|exact Hown].
Defined.
